(** * The RDTech UM-series driver of libsigrok: protocol layer

    A shallow embedding of [src/hardware/rdtech-um/protocol.c] and
    [protocol.h]: the probe exchange, the poll scheduler, the frame
    assembler with its resynchronisation, and the sample decoder.

    Conventions of the embedding.
    - C [int] and [int64_t] values are mathematical integers ([Z]); every
      such value the driver computes is a buffer index, a byte count or a
      millisecond time stamp and stays far inside the machine range.
    - A byte is a [Z] in [0, 256) (the [uint8_t] view the code takes with
      its casts and with [memcmp]).
    - A [float] is an IEEE 754 binary32 number, [spec_float] with
      [prec = 24] and [emax = 128].
    - An access outside an array, or the release of storage that was never
      allocated, is undefined behaviour in C: the embedding makes it an
      explicit result, [Undef]. *)

From Stdlib Require Import ZArith List Bool String Lia QArith.
From Stdlib Require Import Floats.SpecFloat.
From stdpp Require Import base tactics option list.

Local Open Scope Z_scope.

(** ** Results with undefined behaviour *)

Inductive ub : Set :=
| OutOfBounds   (* an array object is accessed outside its extent *)
| InvalidFree.  (* storage not obtained from the allocator is released *)

Inductive res (A : Type) : Type :=
| Ok (a : A)
| Undef (u : ub).
Arguments Ok {A} a.
Arguments Undef {A} u.

Definition res_bind {A B : Type} (r : res A) (k : A -> res B) : res B :=
  match r with
  | Ok a => k a
  | Undef u => Undef u
  end.

Definition is_ok {A : Type} (r : res A) : bool :=
  match r with Ok _ => true | Undef _ => false end.

(** ** binary32 arithmetic *)

Module F32.

Definition prec : Z := 24.
Definition emax : Z := 128.

Definition mul (x y : spec_float) : spec_float := SFmul prec emax x y.

(** Conversion of an integer to [float] (round to nearest, ties to even). *)
Definition of_Z (n : Z) : spec_float := binary_normalize prec emax n 0 false.

(** A decimal constant [a/b] written in the source is a [double]; the
    compiler rounds it correctly to binary64. *)
Definition double_lit (a b : Z) : spec_float :=
  SFdiv 53 1024 (binary_normalize 53 1024 a 0 false)
                (binary_normalize 53 1024 b 0 false).

(** Conversion [double] to [float], as an initialiser of a [float] field
    does it. *)
Definition of_double (x : spec_float) : spec_float :=
  match x with
  | S754_finite s m e => binary_round prec emax s m e
  | _ => x
  end.

(** The [float] a decimal constant [a/b] initialises. *)
Definition lit (a b : Z) : spec_float := of_double (double_lit a b).

Definition zero : spec_float := S754_zero false.

(** The rational number a finite float denotes. *)
Definition to_Q (x : spec_float) : Q :=
  match x with
  | S754_finite s m e =>
      let v := match e with
               | Z0 => inject_Z (Zpos m)
               | Zpos p => inject_Z (Zpos m * 2 ^ Zpos p)
               | Zneg p => Qmake (Zpos m) (2 ^ p)%positive
               end in
      if s then Qopp v else v
  | _ => 0%Q
  end.

End F32.

(** ** Data model of protocol.h *)

Definition RDTECH_UM_BUFSIZE : Z := 256.

(** [enum rdtech_um_data_type].  A C enumeration is an integer type, and
    [get_sample] has a [default] branch for values outside the three
    enumerators, so the field is an integer here. *)
Definition RDTECH_UM_UINT8 : Z := 0.
Definition RDTECH_UM_UINT16 : Z := 1.
Definition RDTECH_UM_UINT32 : Z := 2.

(** The measured quantities and units of libsigrok.h that the channel table
    uses; [SR_MQ_0] and [SR_UNIT_0] stand for the integer 0 that the table
    writes for the consumption channel and for its terminating entry. *)
Inductive sr_mq : Set :=
| SR_MQ_0 | SR_MQ_VOLTAGE | SR_MQ_CURRENT | SR_MQ_TEMPERATURE.

Inductive sr_unit : Set :=
| SR_UNIT_0 | SR_UNIT_VOLT | SR_UNIT_AMPERE | SR_UNIT_CELSIUS
| SR_UNIT_WATT_HOUR.

Record rdtech_um_channel : Type := Channel {
  ch_name : option string;      (* [None] is the NULL of the last entry *)
  ch_offset : Z;
  ch_type : Z;
  ch_scale : spec_float;
  ch_digits : Z;
  ch_mq : sr_mq;
  ch_unit : sr_unit
}.

(** A [const char *] marker is [None] when NULL, and otherwise the bytes of
    the array it points to. *)
Record rdtech_um_profile : Type := Profile {
  model_name : string;
  poll_period : Z;              (* how often to poll, in ms *)
  timeout : Z;
  poll_len : Z;
  poll_start : option (list Z);
  poll_start_len : Z;
  poll_end : option (list Z);
  poll_end_len : Z;
  channels : list rdtech_um_channel
}.

(** Modelled from the spec: the software limits of the host framework
    ([struct sr_sw_limits], sw_limits.c), which are not part of the driver.
    The spec describes them as a count of completed decodes, an optional
    maximum and an optional elapsed-time cap. *)
Record sr_sw_limits : Type := Limits {
  samples_read : Z;
  limit_samples : option Z;
  limit_msec : option Z;
  start_time : Z                (* ms time stamp of the acquisition start *)
}.

(** [struct dev_context].  The fields [mq], [unit] and [mqflags] are never
    read or written by protocol.c and are left out. *)
Record dev_context : Type := DevContext {
  profile : rdtech_um_profile;
  limits : sr_sw_limits;
  buf : list Z;                 (* char buf[RDTECH_UM_BUFSIZE] *)
  buflen : Z;
  cmd_sent_at : Z
}.

(** ** The collaborators of the driver *)

(** The serial port: the bytes it has received and not yet handed out, the
    bytes written to it, and the status its blocking write reports (a
    negative error code, or the number of bytes it accepts). *)
Record sr_serial_dev_inst : Type := Serial {
  rx : list Z;
  tx : list Z;
  wr_status : Z
}.

Record sr_channel : Type := SrChannel {
  sc_index : Z;
  sc_name : string
}.

(** What [send_channel] hands to [sr_session_send]: one analog packet with
    one sample. *)
Record sr_datafeed_analog : Type := Analog {
  an_data : spec_float;
  an_num_samples : Z;
  an_mq : sr_mq;
  an_unit : sr_unit;
  an_mqflags : Z;
  an_channels : list sr_channel;
  an_digits : Z;                (* encoding.digits, an int8_t *)
  an_spec_digits : Z            (* spec.spec_digits, an int8_t *)
}.

(** The conversion of an [int] to [int8_t], the type of [encoding.digits]
    and of [spec.spec_digits] in libsigrok.h: the value is reduced modulo
    256 into [-128, 127]. *)
Definition int8_of_int (z : Z) : Z := (z + 128) mod 256 - 128.

(** The messages of [sr_err], [sr_warn] and [sr_spew], in the order of
    their appearance in protocol.c. *)
Inductive log_entry : Type :=
| Err_probe_request               (* "Unable to send probe request." *)
| Err_probe_response              (* "Failed to read probe response." *)
| Spew_probe_start                (* "... illegal start marker." *)
| Spew_probe_end                  (* "... illegal end marker." *)
| Err_poll_request                (* "Unable to send poll request." *)
| Err_data_type (name : option string) (type : Z)
| Spew_poll_packet (len : Z)      (* "Received poll packet (len: %d)." *)
| Err_poll_length (len : Z)       (* "Unexpected poll packet length: %i" *)
| Warn_poll_header (byte : Z)     (* "Illegal poll header, skipping 1 byte" *)
| Warn_end_marker.                (* "Skipping packet with illegal end marker." *)

(** The monotonic clock: [readings n] is what the [n]-th call of
    [g_get_monotonic_time] returns, in microseconds. *)
Record g_clock : Type := Clock {
  readings : nat -> Z;
  reads : nat
}.

(** The device instance [sdi] ([priv], [conn], [channels]) together with
    the parts of the host the driver acts on. *)
Record world : Type := World {
  priv : dev_context;               (* sdi->priv *)
  conn : sr_serial_dev_inst;        (* sdi->conn *)
  sdi_channels : list sr_channel;   (* sdi->channels *)
  session : list sr_datafeed_analog;  (* packets sent, oldest first *)
  log : list log_entry;             (* messages logged, oldest first *)
  stops : nat;                      (* calls of sr_dev_acquisition_stop *)
  clock : g_clock
}.

(** ** The device profile of protocol.c *)

Definition SERIAL_WRITE_TIMEOUT_MS : Z := 1.
Definition RDTECH_UM24C_POLL_LEN : Z := 0x82.

(** The last entry is the [{ NULL, }] that ends the array: every field of
    it is zero. *)
Definition rdtech_um24c_channels : list rdtech_um_channel :=
  [ Channel (Some "V"%string) 0x02 RDTECH_UM_UINT16 (F32.lit 1 100) 2
      SR_MQ_VOLTAGE SR_UNIT_VOLT;
    Channel (Some "I"%string) 0x04 RDTECH_UM_UINT16 (F32.lit 1 1000) 3
      SR_MQ_CURRENT SR_UNIT_AMPERE;
    Channel (Some "D+"%string) 0x60 RDTECH_UM_UINT16 (F32.lit 1 100) 2
      SR_MQ_VOLTAGE SR_UNIT_VOLT;
    Channel (Some "D-"%string) 0x62 RDTECH_UM_UINT16 (F32.lit 1 100) 2
      SR_MQ_VOLTAGE SR_UNIT_VOLT;
    Channel (Some "Temp"%string) 0x0A RDTECH_UM_UINT16 (F32.lit 1 1) 0
      SR_MQ_TEMPERATURE SR_UNIT_CELSIUS;
    (* Threshold-based recording (mWh) *)
    Channel (Some "Consumption"%string) 0x6a RDTECH_UM_UINT32 (F32.lit 1 1000) 3
      SR_MQ_0 SR_UNIT_WATT_HOUR;
    Channel None 0 0 F32.zero 0 SR_MQ_0 SR_UNIT_0 ].

(** The string literals carry their terminating zero byte. *)
Definition rdtech_um24c_profile : rdtech_um_profile :=
  {| model_name := "UM24C"%string;
     poll_period := 100;
     timeout := 1000;
     poll_len := RDTECH_UM24C_POLL_LEN;
     poll_start := Some [0x09; 0x63; 0];
     poll_start_len := 2;
     poll_end := Some [0xff; 0xf1; 0];
     poll_end_len := 2;
     channels := rdtech_um24c_channels |}.

(** ** Field updates *)

Definition set_limits (l : sr_sw_limits) (d : dev_context) : dev_context :=
  DevContext (profile d) l (buf d) (buflen d) (cmd_sent_at d).
Definition set_buf (b : list Z) (d : dev_context) : dev_context :=
  DevContext (profile d) (limits d) b (buflen d) (cmd_sent_at d).
Definition set_buflen (n : Z) (d : dev_context) : dev_context :=
  DevContext (profile d) (limits d) (buf d) n (cmd_sent_at d).
Definition set_cmd_sent_at (t : Z) (d : dev_context) : dev_context :=
  DevContext (profile d) (limits d) (buf d) (buflen d) t.

Definition set_rx (l : list Z) (s : sr_serial_dev_inst) : sr_serial_dev_inst :=
  Serial l (tx s) (wr_status s).
Definition set_tx (l : list Z) (s : sr_serial_dev_inst) : sr_serial_dev_inst :=
  Serial (rx s) l (wr_status s).
Definition set_wr_status (r : Z) (s : sr_serial_dev_inst) : sr_serial_dev_inst :=
  Serial (rx s) (tx s) r.

Definition upd_priv (f : dev_context -> dev_context) (w : world) : world :=
  World (f (priv w)) (conn w) (sdi_channels w) (session w) (log w) (stops w)
    (clock w).
Definition upd_conn (f : sr_serial_dev_inst -> sr_serial_dev_inst)
    (w : world) : world :=
  World (priv w) (f (conn w)) (sdi_channels w) (session w) (log w) (stops w)
    (clock w).
Definition add_session (a : sr_datafeed_analog) (w : world) : world :=
  World (priv w) (conn w) (sdi_channels w) (session w ++ [a]) (log w)
    (stops w) (clock w).
Definition add_log (e : log_entry) (w : world) : world :=
  World (priv w) (conn w) (sdi_channels w) (session w) (log w ++ [e])
    (stops w) (clock w).
Definition add_stop (w : world) : world :=
  World (priv w) (conn w) (sdi_channels w) (session w) (log w)
    (S (stops w)) (clock w).
Definition tick_clock (w : world) : world :=
  World (priv w) (conn w) (sdi_channels w) (session w) (log w) (stops w)
    (Clock (readings (clock w)) (S (reads (clock w)))).

(** ** The monad of driver code: state passing over [world], with
    undefined behaviour as the error *)

Definition M (A : Type) : Type := world -> res (A * world).

Global Instance M_ret : MRet M := fun A a w => Ok (a, w).
Global Instance M_bind : MBind M := fun A B k m w =>
  match m w with
  | Ok (a, w') => k a w'
  | Undef u => Undef u
  end.

Definition gets {A : Type} (f : world -> A) : M A := fun w => Ok (f w, w).
Definition modify (f : world -> world) : M ()%type := fun w => Ok (tt, f w).
Definition undefined {A : Type} (u : ub) : M A := fun _ => Undef u.
Definition lift {A : Type} (r : res A) : M A :=
  fun w => match r with Ok a => Ok (a, w) | Undef u => Undef u end.

(** The world a computation leaves, when it is defined. *)
Definition exec {A : Type} (m : M A) (w : world) : res world :=
  match m w with Ok (_, w') => Ok w' | Undef u => Undef u end.

(** [sr_err], [sr_warn], [sr_spew]. *)
Definition sr_log (e : log_entry) : M ()%type := modify (add_log e).

(** ** Memory primitives *)

(** [data[i]] on an array object [data]. *)
Definition load8 (data : list Z) (i : Z) : res Z :=
  if (0 <=? i) && (i <? Z.of_nat (length data)) then
    match data !! Z.to_nat i with
    | Some b => Ok b
    | None => Undef OutOfBounds
    end
  else Undef OutOfBounds.

(** [p + off] for a pointer [p] to the start of the array [data]: the
    result may point one past the end, but no further. *)
Definition ptr_add (data : list Z) (off : Z) : res (list Z) :=
  if (0 <=? off) && (off <=? Z.of_nat (length data)) then
    Ok (drop (Z.to_nat off) data)
  else Undef OutOfBounds.

(** The sign of the first difference, as [memcmp] reports it. *)
Fixpoint compare_bytes (a b : list Z) : Z :=
  match a, b with
  | x :: a', y :: b' =>
      if x <? y then -1 else if y <? x then 1 else compare_bytes a' b'
  | _, _ => 0
  end.

(** [memcmp(a, b, n)]: both objects must hold [n] bytes. *)
Definition memcmp (a b : list Z) (n : Z) : res Z :=
  if (0 <=? n) && (n <=? Z.of_nat (length a)) && (n <=? Z.of_nat (length b))
  then Ok (compare_bytes (take (Z.to_nat n) a) (take (Z.to_nat n) b))
  else Undef OutOfBounds.

(** [memmove(data, data + 1, n)]. *)
Definition memmove_down1 (data : list Z) (n : Z) : res (list Z) :=
  if (0 <=? n) && (1 + n <=? Z.of_nat (length data)) then
    Ok (take (Z.to_nat n) (drop 1 data) ++ drop (Z.to_nat n) data)
  else Undef OutOfBounds.

(** [data[i] = b]. *)
Definition store8 (data : list Z) (i b : Z) : res (list Z) :=
  if (0 <=? i) && (i <? Z.of_nat (length data)) then
    Ok (<[Z.to_nat i := b]> data)
  else Undef OutOfBounds.

(** Modelled from the spec: the big-endian readers [RB16] and [RB32] of
    libsigrok-internal.h, which the spec describes as reading an unsigned
    big-endian integer of the declared width at the given place. *)
Definition RB16 (data : list Z) (off : Z) : res Z :=
  res_bind (load8 data off) (fun b0 =>
  res_bind (load8 data (off + 1)) (fun b1 =>
  Ok (Z.lor (Z.shiftl b0 8) b1))).

Definition RB32 (data : list Z) (off : Z) : res Z :=
  res_bind (load8 data off) (fun b0 =>
  res_bind (load8 data (off + 1)) (fun b1 =>
  res_bind (load8 data (off + 2)) (fun b2 =>
  res_bind (load8 data (off + 3)) (fun b3 =>
  Ok (Z.lor (Z.lor (Z.lor (Z.shiftl b0 24) (Z.shiftl b1 16))
               (Z.shiftl b2 8)) b3))))).

(** ** Collaborators: transport, clock, limits, acquisition control *)

(** Modelled from the spec: the blocking write of the transport (serial.c
    of the host).  It reports a negative error code and writes nothing, or
    it writes as many bytes as the port accepts and reports their number. *)
Definition serial_write_blocking (data : list Z) (timeout_ms : Z) : M Z :=
  s ← gets conn;
  if wr_status s <? 0 then mret (wr_status s)
  else
    let n := Z.min (wr_status s) (Z.of_nat (length data)) in
    modify (upd_conn (set_tx (tx s ++ take (Z.to_nat n) data)));;
    mret n.

(** Modelled from the spec: the blocking read of the transport into a local
    array of [extent] bytes.  It hands out the bytes that arrive before the
    time-out, at most [count] of them ([count] is a [size_t]: a negative
    [int] stands for a huge number), and reports how many.  The result
    holds the bytes stored at the start of the array; what lies beyond them
    in the array is indeterminate and is not part of the result. *)
Definition serial_read_blocking (extent count timeout_ms : Z)
    : M (Z * list Z) :=
  s ← gets conn;
  let n := if count <? 0 then length (rx s)
           else Nat.min (Z.to_nat count) (length (rx s)) in
  if Z.of_nat n <=? extent then
    modify (upd_conn (set_rx (drop n (rx s))));;
    mret (Z.of_nat n, take n (rx s))
  else undefined OutOfBounds.

(** [g_get_monotonic_time()], in microseconds. *)
Definition g_get_monotonic_time : M Z :=
  t ← gets (fun w => readings (clock w) (reads (clock w)));
  modify tick_clock;;
  mret t.

(** Where the storage behind a pointer comes from. *)
Inductive storage : Set := Heap | Automatic.

(** [g_free(p)] for a non-null [p]: only heap storage can be released. *)
Definition g_free (s : storage) : M ()%type :=
  match s with
  | Heap => mret tt
  | Automatic => undefined InvalidFree
  end.

(** Modelled from the spec: [sr_sw_limits_update_samples_read] of the host
    adds to the count of completed decodes. *)
Definition sr_sw_limits_update_samples_read (n : Z) : M ()%type :=
  modify (upd_priv (fun d =>
    let l := limits d in
    set_limits (Limits (samples_read l + n) (limit_samples l) (limit_msec l)
                  (start_time l)) d)).

(** Modelled from the spec: [sr_sw_limits_check] of the host tells whether
    a configured cap is reached: the sample cap when the count has reached
    it, the elapsed-time cap when more time than it has passed since the
    start of the acquisition. *)
Definition sr_sw_limits_check : M bool :=
  l ← gets (fun w => limits (priv w));
  if match limit_samples l with
     | Some cap => cap <=? samples_read l
     | None => false
     end
  then mret true
  else
    match limit_msec l with
    | None => mret false
    | Some cap =>
        t ← g_get_monotonic_time;
        mret (cap <? Z.quot t 1000 - start_time l)
    end.

(** Modelled from the spec: [sr_dev_acquisition_stop] of the host, the stop
    signal to the acquisition controller. *)
Definition sr_dev_acquisition_stop : M ()%type := modify add_stop.

Definition SR_OK : Z := 0.
Definition SR_ERR : Z := -1.
Definition TRUE : Z := 1.
Definition G_IO_IN : Z := 1.

(** ** protocol.c *)

(** The one-byte request of [rdtech_um_probe] and [rdtech_um_poll]. *)
Definition request : list Z := [0xf0].

(** The body of [rdtech_um_probe] for the profile [p]; the function itself
    binds [p] to the one profile there is. *)
Definition probe_profile (p : rdtech_um_profile)
    : M (option rdtech_um_profile) :=
  r ← serial_write_blocking request SERIAL_WRITE_TIMEOUT_MS;
  if r <? 0 then
    sr_log Err_probe_request;;
    mret None
  else
    '(len, buf) ← serial_read_blocking RDTECH_UM_BUFSIZE (poll_len p)
                    (timeout p);
    if negb (len =? poll_len p) then
      sr_log Err_probe_response;;
      g_free Automatic;;      (* [buf] is the local [char buf[...]] *)
      mret None
    else
      bad_start ← match poll_start p with
                  | None => mret false
                  | Some st =>
                      c ← lift (memcmp buf st (poll_start_len p));
                      mret (negb (c =? 0))
                  end;
      if (bad_start : bool) then
        sr_log Spew_probe_start;;
        mret None
      else
        end_magic ← lift (ptr_add buf (poll_len p - poll_end_len p));
        bad_end ← match poll_end p with
                  | None => mret false
                  | Some en =>
                      c ← lift (memcmp end_magic en (poll_end_len p));
                      mret (negb (c =? 0))
                  end;
        if (bad_end : bool) then
          sr_log Spew_probe_end;;
          mret None
        else mret (Some p).

Definition rdtech_um_probe : M (option rdtech_um_profile) :=
  probe_profile rdtech_um24c_profile.

Definition rdtech_um_poll : M Z :=
  r ← serial_write_blocking request SERIAL_WRITE_TIMEOUT_MS;
  if r <? 0 then
    sr_log Err_poll_request;;
    mret SR_ERR
  else
    t ← g_get_monotonic_time;
    modify (upd_priv (set_cmd_sent_at (Z.quot t 1000)));;
    mret SR_OK.

Definition get_sample (ch_meta : rdtech_um_channel) : M spec_float :=
  data ← gets (fun w => buf (priv w));
  if ch_type ch_meta =? RDTECH_UM_UINT8 then
    v ← lift (load8 data (ch_offset ch_meta));
    mret (F32.mul (F32.of_Z v) (ch_scale ch_meta))
  else if ch_type ch_meta =? RDTECH_UM_UINT16 then
    v ← lift (RB16 data (ch_offset ch_meta));
    mret (F32.mul (F32.of_Z v) (ch_scale ch_meta))
  else if ch_type ch_meta =? RDTECH_UM_UINT32 then
    v ← lift (RB32 data (ch_offset ch_meta));
    mret (F32.mul (F32.of_Z v) (ch_scale ch_meta))
  else
    sr_log (Err_data_type (ch_name ch_meta) (ch_type ch_meta));;
    mret F32.zero.

(** [sr_analog_init] stores its [digits] argument in [encoding.digits] and
    in [spec.spec_digits]; the assignment of [send_channel] stores it in
    [spec.spec_digits] once more.  Both fields are [int8_t]. *)
Definition send_channel (ch_meta : rdtech_um_channel) (ch : sr_channel)
    : M ()%type :=
  data ← get_sample ch_meta;
  modify (add_session
    {| an_data := data;
       an_num_samples := 1;
       an_mq := ch_mq ch_meta;
       an_unit := ch_unit ch_meta;
       an_mqflags := 0;
       an_channels := [ch];
       an_digits := int8_of_int (ch_digits ch_meta);
       an_spec_digits := int8_of_int (ch_digits ch_meta) |}).

(** The [for] loop of [handle_poll_data]: entry [i] of the profile's
    channel array for the [i]-th channel of the device instance. *)
Fixpoint send_channels (i : nat) (chs : list sr_channel) : M ()%type :=
  match chs with
  | [] => mret tt
  | ch :: chs' =>
      p ← gets (fun w => profile (priv w));
      match channels p !! i with
      | Some ch_meta =>
          send_channel ch_meta ch;;
          send_channels (S i) chs'
      | None => undefined OutOfBounds
      end
  end.

Definition handle_poll_data : M ()%type :=
  d ← gets priv;
  sr_log (Spew_poll_packet (buflen d));;
  if negb (buflen d =? poll_len (profile d)) then
    sr_log (Err_poll_length (buflen d))
  else
    chs ← gets sdi_channels;
    send_channels 0 chs;;
    sr_sw_limits_update_samples_read 1.

(** The [while] loop of [recv_poll_data].  [pending] is the receive queue
    of the port: [serial_read_nonblocking] of one byte takes its head, or
    reports less than one byte when it is empty, so the loop is a recursion
    on the queue.  The result tells whether the loop was left by the
    [return] in its body. *)
Fixpoint recv_poll_loop (p : rdtech_um_profile) (pending : list Z)
    : M bool :=
  d ← gets priv;
  if buflen d <? poll_len p then
    match pending with
    | [] => mret true
    | b :: pending' =>
        modify (upd_conn (set_rx pending'));;
        buf' ← lift (store8 (buf d) (buflen d) b);
        modify (upd_priv (set_buf buf'));;
        modify (upd_priv (set_buflen (buflen d + 1)));;
        d ← gets priv;
        illegal ← match poll_start p with
                  | None => mret false
                  | Some st =>
                      if buflen d =? poll_start_len p then
                        c ← lift (memcmp (buf d) st (poll_start_len p));
                        mret (negb (c =? 0))
                      else mret false
                  end;
        (if (illegal : bool) then
           b0 ← lift (load8 (buf d) 0);
           sr_log (Warn_poll_header b0);;
           modify (upd_priv (set_buflen (buflen d - 1)));;
           buf'' ← lift (memmove_down1 (buf d) (buflen d - 1));
           modify (upd_priv (set_buf buf''))
         else mret tt);;
        recv_poll_loop p pending'
    end
  else mret false.

Definition recv_poll_data : M ()%type :=
  p ← gets (fun w => profile (priv w));
  pending ← gets (fun w => rx (conn w));
  returned ← recv_poll_loop p pending;
  if (returned : bool) then mret tt
  else
    d ← gets priv;
    if buflen d =? poll_len p then
      end_magic ← lift (ptr_add (buf d) (buflen d - poll_end_len p));
      found ← match poll_end p with
              | None => mret false
              | Some en =>
                  c ← lift (memcmp end_magic en (poll_end_len p));
                  mret (c =? 0)
              end;
      (if (found : bool) then handle_poll_data
       else sr_log Warn_end_marker);;
      modify (upd_priv (set_buflen 0))
    else mret tt.

(** [rdtech_um_receive_data]; [cb_data] is the device instance of the
    world, which is there with its context, so the two guards at the top of
    the function do not fire. *)
Definition rdtech_um_receive_data (revents : Z) : M Z :=
  (if revents =? G_IO_IN then recv_poll_data else mret tt);;
  reached ← sr_sw_limits_check;
  if (reached : bool) then
    sr_dev_acquisition_stop;;
    mret TRUE
  else
    t ← g_get_monotonic_time;
    let now := Z.quot t 1000 in
    d ← gets priv;
    let elapsed := now - cmd_sent_at d in
    (if poll_period (profile d) <? elapsed then
       _ ← rdtech_um_poll; mret tt
     else mret tt);;
    mret TRUE.

(** ** Well-formed profiles and worlds *)

Definition supported_type (t : Z) : bool :=
  (t =? RDTECH_UM_UINT8) || (t =? RDTECH_UM_UINT16) || (t =? RDTECH_UM_UINT32).

(** The number of bytes [get_sample] reads for a channel of type [t]. *)
Definition type_width (t : Z) : Z :=
  if t =? RDTECH_UM_UINT8 then 1
  else if t =? RDTECH_UM_UINT16 then 2
  else if t =? RDTECH_UM_UINT32 then 4
  else 0.

(** The bytes [get_sample] reads for a channel lie inside a frame of [len]
    bytes. *)
Definition channel_fits (len : Z) (ch : rdtech_um_channel) : bool :=
  negb (supported_type (ch_type ch))
  || ((0 <=? ch_offset ch)
      && (ch_offset ch + type_width (ch_type ch) <=? len)).

(** A marker of [len] bytes is there to be compared, when it is defined. *)
Definition marker_fits (m : option (list Z)) (len : Z) : bool :=
  (0 <=? len) &&
  match m with
  | Some l => len <=? Z.of_nat (length l)
  | None => true
  end.

(** A frame fits the buffer, and holds its two markers. *)
Definition wf_profile (p : rdtech_um_profile) : bool :=
  (poll_len p <=? RDTECH_UM_BUFSIZE)
  && marker_fits (poll_start p) (poll_start_len p)
  && marker_fits (poll_end p) (poll_end_len p)
  && (poll_start_len p + poll_end_len p <=? poll_len p).

(** The channel array has an entry for every channel of the device
    instance, and these entries lie inside the frame. *)
Definition channels_fit (p : rdtech_um_profile) (chs : list sr_channel)
    : bool :=
  (length chs <=? length (channels p))%nat
  && forallb (channel_fits (poll_len p)) (take (length chs) (channels p)).

(** The state of a device instance between two calls of the driver. *)
Record world_ok (w : world) : Prop := WorldOk {
  ok_profile : wf_profile (profile (priv w)) = true;
  ok_channels : channels_fit (profile (priv w)) (sdi_channels w) = true;
  ok_buf : Z.of_nat (length (buf (priv w))) = RDTECH_UM_BUFSIZE;
  ok_buflen : 0 <= buflen (priv w) < poll_len (profile (priv w))
}.

(** ** The decoder as a function of the bytes *)

(** The number a sequence of bytes denotes, most significant byte first. *)
Definition be_unsigned (bytes : list Z) : Z :=
  fold_left (fun acc b => acc * 256 + b) bytes 0.

Definition is_byte (b : Z) : Prop := 0 <= b < 256.

(** The [n] bytes of [data] from [off] on. *)
Definition bytes_at (data : list Z) (off n : Z) : list Z :=
  take (Z.to_nat n) (drop (Z.to_nat off) data).

(** The value [get_sample] returns for the buffer contents [data]. *)
Definition sample_of (data : list Z) (ch_meta : rdtech_um_channel)
    : res spec_float :=
  if ch_type ch_meta =? RDTECH_UM_UINT8 then
    res_bind (load8 data (ch_offset ch_meta)) (fun v =>
    Ok (F32.mul (F32.of_Z v) (ch_scale ch_meta)))
  else if ch_type ch_meta =? RDTECH_UM_UINT16 then
    res_bind (RB16 data (ch_offset ch_meta)) (fun v =>
    Ok (F32.mul (F32.of_Z v) (ch_scale ch_meta)))
  else if ch_type ch_meta =? RDTECH_UM_UINT32 then
    res_bind (RB32 data (ch_offset ch_meta)) (fun v =>
    Ok (F32.mul (F32.of_Z v) (ch_scale ch_meta)))
  else Ok F32.zero.

(** What [get_sample] logs for a channel. *)
Definition sample_log (ch_meta : rdtech_um_channel) : list log_entry :=
  if supported_type (ch_type ch_meta) then []
  else [Err_data_type (ch_name ch_meta) (ch_type ch_meta)].

(** The packet [send_channel] sends for the sample [v]. *)
Definition analog_of (v : spec_float) (ch_meta : rdtech_um_channel)
    (ch : sr_channel) : sr_datafeed_analog :=
  {| an_data := v;
     an_num_samples := 1;
     an_mq := ch_mq ch_meta;
     an_unit := ch_unit ch_meta;
     an_mqflags := 0;
     an_channels := [ch];
     an_digits := int8_of_int (ch_digits ch_meta);
     an_spec_digits := int8_of_int (ch_digits ch_meta) |}.

(** The packets and the messages of the channel loop of
    [handle_poll_data], from entry [i] of [table] on. *)
Fixpoint decode_channels (data : list Z) (table : list rdtech_um_channel)
    (i : nat) (chs : list sr_channel)
    : res (list sr_datafeed_analog * list log_entry) :=
  match chs with
  | [] => Ok ([], [])
  | ch :: chs' =>
      match table !! i with
      | None => Undef OutOfBounds
      | Some ch_meta =>
          res_bind (sample_of data ch_meta) (fun v =>
          res_bind (decode_channels data table (S i) chs') (fun r =>
          Ok (analog_of v ch_meta ch :: fst r, sample_log ch_meta ++ snd r)))
      end
  end.

(** The world after the packets [pk] are sent and the messages [lg] are
    logged. *)
Definition emit (pk : list sr_datafeed_analog) (lg : list log_entry)
    (w : world) : world :=
  World (priv w) (conn w) (sdi_channels w) (session w ++ pk) (log w ++ lg)
    (stops w) (clock w).

(** The world after [n] more samples are counted. *)
Definition count_samples (n : Z) (w : world) : world :=
  upd_priv (fun d =>
    let l := limits d in
    set_limits (Limits (samples_read l + n) (limit_samples l) (limit_msec l)
                  (start_time l)) d) w.

(** The entry of a channel array with the given name. *)
Definition channel_named (name : string) (table : list rdtech_um_channel)
    : option rdtech_um_channel :=
  List.find (fun ch => match ch_name ch with
                       | Some n => String.eqb n name
                       | None => false
                       end) table.

(** ** The assembler as seen from outside *)

(** The bytes the buffer holds: the first [buflen] bytes of [buf]. *)
Definition content (w : world) : list Z :=
  take (Z.to_nat (buflen (priv w))) (buf (priv w)).

(** The header check of the receive loop fires on the contents [c]. *)
Definition illegal_header (p : rdtech_um_profile) (c : list Z) : bool :=
  match poll_start p with
  | None => false
  | Some st =>
      (Z.of_nat (length c) =? poll_start_len p)
      && negb (bool_decide (c = take (Z.to_nat (poll_start_len p)) st))
  end.

(** The end check of [recv_poll_data] passes on the full contents [c]. *)
Definition end_matches (p : rdtech_um_profile) (c : list Z) : bool :=
  match poll_end p with
  | None => false
  | Some en =>
      bool_decide (drop (length c - Z.to_nat (poll_end_len p)) c
                   = take (Z.to_nat (poll_end_len p)) en)
  end.

(** The stream [s] passes the header check at position [i]. *)
Definition header_at (p : rdtech_um_profile) (s : list Z) (i : nat) : bool :=
  match poll_start p with
  | None => true
  | Some st =>
      bool_decide (take (Z.to_nat (poll_start_len p)) (drop i s)
                   = take (Z.to_nat (poll_start_len p)) st)
  end.

(** No position before [n] of the stream [s] passes the header check. *)
Definition no_header_before (p : rdtech_um_profile) (s : list Z) (n : nat)
    : bool :=
  forallb (fun i => negb (header_at p s i)) (seq 0 n).

(** A well-formed frame: the frame length, the start marker in front (when
    one is defined) and the end marker behind. *)
Definition is_frame (p : rdtech_um_profile) (f : list Z) : bool :=
  (Z.of_nat (length f) =? poll_len p) && header_at p f 0 && end_matches p f.

(** The number of calls of [handle_poll_data] a log records: the function
    logs its "Received poll packet" message first of all. *)
Fixpoint dispatches (l : list log_entry) : nat :=
  match l with
  | [] => 0%nat
  | Spew_poll_packet _ :: l' => S (dispatches l')
  | _ :: l' => dispatches l'
  end.

(** The bytes the header check has skipped, as a log records them. *)
Fixpoint skipped (l : list log_entry) : list Z :=
  match l with
  | [] => []
  | Warn_poll_header b :: l' => b :: skipped l'
  | _ :: l' => skipped l'
  end.

(** Bytes arrive at the port. *)
Definition serial_receive (bs : list Z) : M ()%type :=
  modify (upd_conn (fun s => set_rx (rx s ++ bs) s)).

(** The bytes [bs] arrive one at a time, and the assembler runs on each. *)
Fixpoint feed_bytes (bs : list Z) : M ()%type :=
  match bs with
  | [] => mret tt
  | b :: bs' =>
      serial_receive [b];;
      recv_poll_data;;
      feed_bytes bs'
  end.

(** *** The frame assembler of the spec

    The state machine of the spec over the bytes the buffer holds: append
    the byte; when the length reaches that of the start marker and the
    leading bytes differ from it, drop the oldest byte; when the length
    reaches that of a frame, hand the frame to the decoder if its trailing
    bytes are the end marker, and empty the buffer in either case. *)

(** What the assembler shows: the buffer contents, the log, the packets
    sent and the count of decoded frames. *)
Record asm_view : Type := AsmView {
  v_content : list Z;
  v_log : list log_entry;
  v_session : list sr_datafeed_analog;
  v_samples : Z
}.

Definition view_of (w : world) : asm_view :=
  {| v_content := content w;
     v_log := log w;
     v_session := session w;
     v_samples := samples_read (limits (priv w)) |}.

(** The append of a byte, with the header check. *)
Definition asm_push (p : rdtech_um_profile) (v : asm_view) (b : Z)
    : asm_view :=
  let c := v_content v ++ [b] in
  if illegal_header p c then
    AsmView (tail c) (v_log v ++ [Warn_poll_header (hd 0 c)]) (v_session v)
      (v_samples v)
  else AsmView c (v_log v) (v_session v) (v_samples v).

(** The completion check on a full buffer. *)
Definition asm_complete (p : rdtech_um_profile) (chs : list sr_channel)
    (v : asm_view) : asm_view :=
  if end_matches p (v_content v) then
    match decode_channels (v_content v) (channels p) 0 chs with
    | Ok (pk, lg) =>
        AsmView [] (v_log v ++ Spew_poll_packet (poll_len p) :: lg)
          (v_session v ++ pk) (v_samples v + 1)
    | Undef _ => v
    end
  else AsmView [] (v_log v ++ [Warn_end_marker]) (v_session v) (v_samples v).

(** One byte through the assembler. *)
Definition asm_byte (p : rdtech_um_profile) (chs : list sr_channel)
    (v : asm_view) (b : Z) : asm_view :=
  let v1 := asm_push p v b in
  if Z.of_nat (length (v_content v1)) <? poll_len p then v1
  else asm_complete p chs v1.

Definition asm_bytes (p : rdtech_um_profile) (chs : list sr_channel)
    (v : asm_view) (bs : list Z) : asm_view :=
  fold_left (asm_byte p chs) bs v.

(** What the assembler leaves alone: every part of the world but the
    buffer, the receive queue, the log, the packets sent and the count of
    decoded frames. *)
Definition rest_of (w : world) :=
  (profile (priv w), limit_samples (limits (priv w)),
   limit_msec (limits (priv w)), start_time (limits (priv w)),
   cmd_sent_at (priv w), tx (conn w), wr_status (conn w), sdi_channels w,
   stops w, clock w).

(** The invariant of the receive loop. *)
Definition asm_inv (p : rdtech_um_profile) (w : world) : Prop :=
  profile (priv w) = p
  /\ wf_profile p = true
  /\ Z.of_nat (length (buf (priv w))) = RDTECH_UM_BUFSIZE
  /\ 0 <= buflen (priv w) <= poll_len p.

(** ** The acquisition loop of the host *)

(** One turn of the event loop: the bytes that arrived since the last
    turn, and the condition the callback is called with. *)
Record io_event : Type := IoEvent {
  ev_arrived : list Z;
  ev_revents : Z
}.

(** Modelled from the spec: the event loop of the host, which calls the
    driver on each event and halts once the acquisition is stopped
    ("stopping the session halts further scheduler ticks and byte
    processing"). *)
Fixpoint session_run (evs : list io_event) : M ()%type :=
  match evs with
  | [] => mret tt
  | e :: evs' =>
      n ← gets stops;
      match n with
      | O =>
          serial_receive (ev_arrived e);;
          _ ← rdtech_um_receive_data (ev_revents e);
          session_run evs'
      | S _ => mret tt
      end
  end.

(** The first part of [rdtech_um_receive_data]: the assembler runs when
    the port is readable. *)
Definition received (revents : Z) : M ()%type :=
  if revents =? G_IO_IN then recv_poll_data else mret tt.

(** The world after a blocking write of the request that did not fail: the
    port has taken the byte, or nothing when it accepts no byte. *)
Definition sent (w : world) : world :=
  upd_conn (fun s =>
    set_tx (tx s ++ take (Z.to_nat (Z.min (wr_status s) 1)) request) s) w.

(** The end check of the probe passes on the response [c]: unlike the
    assembler, the probe accepts any response when the profile defines no
    end marker. *)
Definition probe_end_ok (p : rdtech_um_profile) (c : list Z) : bool :=
  match poll_end p with
  | None => true
  | Some _ => end_matches p c
  end.

(** The world after the exchange of the probe: the request is written and
    the response is taken from the port. *)
Definition probed (p : rdtech_um_profile) (w : world) : world :=
  upd_conn (set_rx (drop (Z.to_nat (poll_len p)) (rx (conn w)))) (sent w).

(** The time stamp, in ms, that the next reading of the clock gives. *)
Definition next_ms (w : world) : Z :=
  Z.quot (readings (clock w) (reads (clock w))) 1000.

(** ** A UM24C on the bench *)

Definition um24c_sdi_channels : list sr_channel :=
  [ SrChannel 0 "V"; SrChannel 1 "I"; SrChannel 2 "D+"; SrChannel 3 "D-";
    SrChannel 4 "Temp"; SrChannel 5 "Consumption" ].

(** A fresh acquisition with the sample cap [cap]; the clock reads
    [t0 + n * dt] microseconds at its [n]-th reading. *)
Definition um24c_world (cap : option Z) (t0 dt : Z) : world :=
  {| priv := {| profile := rdtech_um24c_profile;
                limits := Limits 0 cap None 0;
                buf := replicate 256 0;
                buflen := 0;
                cmd_sent_at := 0 |};
     conn := Serial [] [] 1;
     sdi_channels := um24c_sdi_channels;
     session := [];
     log := [];
     stops := 0;
     clock := Clock (fun n => t0 + Z.of_nat n * dt) 0 |}.

(** A frame of a UM24C: 1.50 V, 0.100 A, 25 degrees, 1.000 Wh. *)
Definition um24c_frame : list Z :=
  [0x09; 0x63; 0x00; 0x96; 0x00; 0x64] ++ replicate 4 0 ++ [0x00; 0x19]
  ++ replicate 94 0 ++ [0x00; 0x00; 0x03; 0xe8] ++ replicate 18 0
  ++ [0xff; 0xf1].

(** A device instance whose buffer holds the bytes [f]. *)
Definition um24c_holding (f : list Z) : world :=
  upd_priv (fun d =>
    set_buflen (Z.of_nat (length f))
      (set_buf (f ++ replicate (256 - length f) 0) d))
    (um24c_world None 0 0).

(** The device context with another profile. *)
Definition set_profile (p : rdtech_um_profile) (d : dev_context)
    : dev_context :=
  DevContext p (limits d) (buf d) (buflen d) (cmd_sent_at d).

(** The profile of the UM24C, with a type outside the enumeration for the
    temperature channel. *)
Definition um24c_odd_profile : rdtech_um_profile :=
  {| model_name := model_name rdtech_um24c_profile;
     poll_period := poll_period rdtech_um24c_profile;
     timeout := timeout rdtech_um24c_profile;
     poll_len := poll_len rdtech_um24c_profile;
     poll_start := poll_start rdtech_um24c_profile;
     poll_start_len := poll_start_len rdtech_um24c_profile;
     poll_end := poll_end rdtech_um24c_profile;
     poll_end_len := poll_end_len rdtech_um24c_profile;
     channels :=
       <[4%nat := Channel (Some "Temp"%string) 0x0A 7 (F32.lit 1 1) 0
                    SR_MQ_TEMPERATURE SR_UNIT_CELSIUS]>
         rdtech_um24c_channels |}.

(** The same frame with its last byte damaged. *)
Definition um24c_bad_frame : list Z :=
  take 129 um24c_frame ++ [0x00].

(** ** Further notions for the properties of the driver *)

(** [n] calls of [recv_poll_data] in a row, as the event loop makes them
    while the port stays readable. *)
Fixpoint recv_times (n : nat) : M ()%type :=
  match n with
  | O => mret tt
  | S n' => recv_poll_data;; recv_times n'
  end.

(** The buffer contents [c] have passed the header check of the receive
    loop, if they are long enough to have met it. *)
Definition header_ok (p : rdtech_um_profile) (c : list Z) : bool :=
  match poll_start p with
  | None => true
  | Some st =>
      if poll_start_len p <=? Z.of_nat (length c) then
        bool_decide (take (Z.to_nat (poll_start_len p)) c
                     = take (Z.to_nat (poll_start_len p)) st)
      else true
  end.

(** The "Unexpected poll packet length" messages of a log. *)
Fixpoint length_errors (l : list log_entry) : nat :=
  match l with
  | [] => 0%nat
  | Err_poll_length _ :: l' => S (length_errors l')
  | _ :: l' => length_errors l'
  end.

(** The profile of the UM24C without its end marker. *)
Definition um24c_open_profile : rdtech_um_profile :=
  {| model_name := model_name rdtech_um24c_profile;
     poll_period := poll_period rdtech_um24c_profile;
     timeout := timeout rdtech_um24c_profile;
     poll_len := poll_len rdtech_um24c_profile;
     poll_start := poll_start rdtech_um24c_profile;
     poll_start_len := poll_start_len rdtech_um24c_profile;
     poll_end := None;
     poll_end_len := poll_end_len rdtech_um24c_profile;
     channels := channels rdtech_um24c_profile |}.

(** The channel loop of [handle_poll_data] stays inside the channel array
    [table], and every entry it uses reads inside a buffer of [len]
    bytes. *)
Definition table_fits (len : Z) (table : list rdtech_um_channel)
    (chs : list sr_channel) : bool :=
  (length chs <=? length table)%nat
  && forallb (channel_fits len) (take (length chs) table).

(** What the scheduler part of [rdtech_um_receive_data] leaves alone: the
    profile, the limits, the buffer, the receive queue, the channels of the
    device instance and the packets sent. *)
Definition recv_side (w : world) :=
  (profile (priv w), limits (priv w), buf (priv w), buflen (priv w),
   rx (conn w), sdi_channels w, session w).

(** The packets the channel loop sends for the frame [f]. *)
Definition frame_packets (p : rdtech_um_profile) (chs : list sr_channel)
    (f : list Z) : list sr_datafeed_analog :=
  match decode_channels f (channels p) 0 chs with
  | Ok (pk, _) => pk
  | Undef _ => []
  end.

(** The "Skipping packet with illegal end marker" messages of a log. *)
Fixpoint discards (l : list log_entry) : nat :=
  match l with
  | [] => 0%nat
  | Warn_end_marker :: l' => S (discards l')
  | _ :: l' => discards l'
  end.

(** A profile like that of the UM24C, for a device with frames of 300
    bytes. *)
Definition um24c_long_profile : rdtech_um_profile :=
  {| model_name := model_name rdtech_um24c_profile;
     poll_period := poll_period rdtech_um24c_profile;
     timeout := timeout rdtech_um24c_profile;
     poll_len := 300;
     poll_start := poll_start rdtech_um24c_profile;
     poll_start_len := poll_start_len rdtech_um24c_profile;
     poll_end := poll_end rdtech_um24c_profile;
     poll_end_len := poll_end_len rdtech_um24c_profile;
     channels := channels rdtech_um24c_profile |}.


(** * Properties *)

(** ** The monad *)

Ltac munfold :=
  unfold sr_log, exec in *;
  unfold mbind, M_bind, mret, M_ret, gets, modify, lift, undefined in *.

(** ** Bytes and memory *)

Lemma land_shiftl_small (a b n : Z) :
  0 <= n -> 0 <= b < 2 ^ n -> Z.land (Z.shiftl a n) b = 0.
Proof.
  intros Hn Hb. apply Z.bits_inj'. intros i Hi.
  rewrite Z.land_spec, Z.bits_0.
  destruct (Z.lt_ge_cases i n) as [Hlt|Hge].
  - rewrite Z.shiftl_spec_low by lia. reflexivity.
  - assert (Z.testbit b i = false) as ->; [|apply andb_false_r].
    apply Z.testbit_false; [lia|].
    rewrite Z.div_small; [reflexivity|].
    split; [lia|]. apply Z.lt_le_trans with (2 ^ n); [lia|].
    apply Z.pow_le_mono_r; lia.
Qed.

Lemma lor_shiftl_add (a b n : Z) :
  0 <= n -> 0 <= b < 2 ^ n -> Z.lor (Z.shiftl a n) b = a * 2 ^ n + b.
Proof.
  intros Hn Hb.
  rewrite <- Z.lxor_lor by (apply land_shiftl_small; lia).
  rewrite <- Z.add_nocarry_lxor by (apply land_shiftl_small; lia).
  rewrite Z.shiftl_mul_pow2 by lia. reflexivity.
Qed.

Lemma load8_lookup (data : list Z) (i b : Z) :
  0 <= i -> data !! Z.to_nat i = Some b -> load8 data i = Ok b.
Proof.
  intros Hi H. unfold load8.
  pose proof (lookup_lt_Some _ _ _ H).
  rewrite H.
  destruct (0 <=? i) eqn:E1; [|lia].
  destruct (i <? Z.of_nat (length data)) eqn:E2; [reflexivity|lia].
Qed.

Lemma load8_ok (data : list Z) (i : Z) :
  0 <= i < Z.of_nat (length data) -> exists b, load8 data i = Ok b.
Proof.
  intros Hi.
  destruct (lookup_lt_is_Some_2 data (Z.to_nat i)) as [b Hb]; [lia|].
  exists b. apply load8_lookup; [lia|done].
Qed.

Lemma bytes_at_lookup (data : list Z) (off n : Z) (k : nat) :
  0 <= off -> (k < Z.to_nat n)%nat ->
  bytes_at data off n !! k = data !! Z.to_nat (off + Z.of_nat k).
Proof.
  intros Hoff Hk. unfold bytes_at.
  rewrite lookup_take_lt by done. rewrite lookup_drop.
  f_equal. lia.
Qed.

(** Reading inside the first [n] bytes sees only these bytes. *)
Lemma load8_take (data : list Z) (n : nat) (i : Z) :
  i < Z.of_nat n -> (n <= length data)%nat ->
  load8 (take n data) i = load8 data i.
Proof.
  intros Hi Hn. unfold load8. rewrite length_take.
  rewrite Nat.min_l by lia.
  destruct (0 <=? i) eqn:E0; [|reflexivity]. cbn [andb].
  rewrite (proj2 (Z.ltb_lt i (Z.of_nat n))) by lia.
  rewrite (proj2 (Z.ltb_lt i (Z.of_nat (length data)))) by lia.
  rewrite lookup_take_lt by lia. reflexivity.
Qed.

(** ** The sample decoder *)

(** [get_sample] returns the value of [sample_of] on the buffer, and logs
    an error for a channel whose type it does not know. *)
Lemma get_sample_sample_of (ch_meta : rdtech_um_channel) (w : world) :
  get_sample ch_meta w =
  match sample_of (buf (priv w)) ch_meta with
  | Ok v =>
      Ok (v, if supported_type (ch_type ch_meta) then w
             else add_log (Err_data_type (ch_name ch_meta) (ch_type ch_meta)) w)
  | Undef u => Undef u
  end.
Proof.
  unfold get_sample, sample_of, supported_type. munfold.
  destruct (ch_type ch_meta =? RDTECH_UM_UINT8) eqn:E8.
  { cbn [orb]. destruct (load8 _ _); reflexivity. }
  destruct (ch_type ch_meta =? RDTECH_UM_UINT16) eqn:E16.
  { cbn [orb]. destruct (RB16 _ _); reflexivity. }
  destruct (ch_type ch_meta =? RDTECH_UM_UINT32) eqn:E32.
  { cbn [orb]. destruct (RB32 _ _); reflexivity. }
  reflexivity.
Qed.

Lemma be_unsigned_2 (b0 b1 : Z) : be_unsigned [b0; b1] = b0 * 256 + b1.
Proof. unfold be_unsigned. cbn. lia. Qed.

Lemma be_unsigned_4 (b0 b1 b2 b3 : Z) :
  be_unsigned [b0; b1; b2; b3] =
  b0 * 16777216 + b1 * 65536 + b2 * 256 + b3.
Proof. unfold be_unsigned. cbn. lia. Qed.

Lemma RB16_bytes (data : list Z) (off b0 b1 : Z) :
  0 <= off -> bytes_at data off 2 = [b0; b1] -> is_byte b1 ->
  RB16 data off = Ok (be_unsigned [b0; b1]).
Proof.
  intros Hoff Hb H1. unfold RB16.
  pose proof (bytes_at_lookup data off 2 0 Hoff ltac:(lia)) as L0.
  pose proof (bytes_at_lookup data off 2 1 Hoff ltac:(lia)) as L1.
  rewrite Hb in L0, L1. cbn in L0, L1.
  rewrite Z.add_0_r in L0.
  rewrite (load8_lookup _ _ b0), (load8_lookup _ _ b1) by (done || lia).
  cbn [res_bind]. rewrite be_unsigned_2.
  rewrite lor_shiftl_add by (unfold is_byte in *; lia).
  reflexivity.
Qed.

Lemma RB32_bytes (data : list Z) (off b0 b1 b2 b3 : Z) :
  0 <= off -> bytes_at data off 4 = [b0; b1; b2; b3] ->
  is_byte b1 -> is_byte b2 -> is_byte b3 ->
  RB32 data off = Ok (be_unsigned [b0; b1; b2; b3]).
Proof.
  intros Hoff Hb H1 H2 H3. unfold RB32.
  pose proof (bytes_at_lookup data off 4 0 Hoff ltac:(lia)) as L0.
  pose proof (bytes_at_lookup data off 4 1 Hoff ltac:(lia)) as L1.
  pose proof (bytes_at_lookup data off 4 2 Hoff ltac:(lia)) as L2.
  pose proof (bytes_at_lookup data off 4 3 Hoff ltac:(lia)) as L3.
  rewrite Hb in L0, L1, L2, L3. cbn in L0, L1, L2, L3.
  rewrite Z.add_0_r in L0.
  rewrite (load8_lookup _ _ b0), (load8_lookup _ _ b1),
    (load8_lookup _ _ b2), (load8_lookup _ _ b3) by (done || lia).
  cbn [res_bind]. rewrite be_unsigned_4.
  unfold is_byte in *.
  assert (Z.lor (Z.shiftl b0 24) (Z.shiftl b1 16)
          = Z.shiftl (Z.lor (Z.shiftl b0 8) b1) 16) as ->.
  { rewrite Z.shiftl_lor, Z.shiftl_shiftl by lia. reflexivity. }
  set (hi := Z.lor (Z.shiftl b0 8) b1).
  assert (Z.lor (Z.shiftl hi 16) (Z.shiftl b2 8)
          = Z.shiftl (Z.lor (Z.shiftl hi 8) b2) 8) as ->.
  { rewrite Z.shiftl_lor, Z.shiftl_shiftl by lia. reflexivity. }
  subst hi.
  rewrite (lor_shiftl_add b0 b1 8) by lia.
  rewrite (lor_shiftl_add _ b2 8) by lia.
  rewrite (lor_shiftl_add _ b3 8) by lia.
  f_equal. lia.
Qed.


(** The decoding rule: for a channel of a supported type, [get_sample]
    returns the unsigned big-endian number that the bytes at the channel's
    offset denote, converted to [float] and multiplied by the scale, and
    leaves everything as it is. *)
Lemma get_sample_big_endian (w : world) (ch_meta : rdtech_um_channel)
    (bs : list Z) :
  supported_type (ch_type ch_meta) = true ->
  0 <= ch_offset ch_meta ->
  bytes_at (buf (priv w)) (ch_offset ch_meta) (type_width (ch_type ch_meta))
    = bs ->
  Z.of_nat (length bs) = type_width (ch_type ch_meta) ->
  Forall is_byte bs ->
  get_sample ch_meta w
  = Ok (F32.mul (F32.of_Z (be_unsigned bs)) (ch_scale ch_meta), w).
Proof.
  intros Hsup Hoff Hbs Hlen Hbytes.
  rewrite get_sample_sample_of, Hsup.
  unfold supported_type in Hsup. unfold sample_of.
  unfold type_width in Hbs, Hlen.
  destruct (ch_type ch_meta =? RDTECH_UM_UINT8) eqn:E8.
  { destruct bs as [|b0 [|? ?]]; try (cbn [length] in Hlen; lia).
    pose proof (bytes_at_lookup (buf (priv w)) (ch_offset ch_meta) 1 0
                  Hoff ltac:(lia)) as L0.
    rewrite Hbs, Z.add_0_r in L0. cbn in L0.
    rewrite (load8_lookup _ _ b0) by done.
    cbn [res_bind]. unfold be_unsigned. cbn [fold_left].
    rewrite Z.mul_0_l, Z.add_0_l. reflexivity. }
  destruct (ch_type ch_meta =? RDTECH_UM_UINT16) eqn:E16.
  { destruct bs as [|b0 [|b1 [|? ?]]]; try (cbn [length] in Hlen; lia).
    rewrite (RB16_bytes _ _ b0 b1); [reflexivity|done|done|].
    inversion Hbytes as [|? ? ? Hr]; inversion Hr; done. }
  destruct (ch_type ch_meta =? RDTECH_UM_UINT32) eqn:E32; [|discriminate].
  destruct bs as [|b0 [|b1 [|b2 [|b3 [|? ?]]]]]; try (cbn [length] in Hlen; lia).
  inversion Hbytes as [|? ? ? Hr1]; inversion Hr1 as [|? ? ? Hr2];
    inversion Hr2 as [|? ? ? Hr3]; inversion Hr3; subst.
  rewrite (RB32_bytes _ _ b0 b1 b2 b3); done.
Qed.

(** C4: for a channel of a supported type the decoder reads the integer at
    the channel's offset as a big-endian unsigned number of the channel's
    width and multiplies it by the channel's scale.  With the channel array
    of the UM24C, the bytes 00 96 at the voltage offset (scale 0.01) give
    1.5, the bytes 00 64 at the current offset (scale 0.001) give the
    [float] 0.1 (the binary32 number next to 1/10), the bytes 00 19 at the
    temperature offset (scale 1.0) give 25, and the bytes 00 00 03 E8 at
    the energy offset (scale 0.001) give 1. *)
Theorem get_sample_um24c_values (w : world) :
  (forall ch_meta bs,
      supported_type (ch_type ch_meta) = true ->
      0 <= ch_offset ch_meta ->
      bytes_at (buf (priv w)) (ch_offset ch_meta)
        (type_width (ch_type ch_meta)) = bs ->
      Z.of_nat (length bs) = type_width (ch_type ch_meta) ->
      Forall is_byte bs ->
      get_sample ch_meta w
      = Ok (F32.mul (F32.of_Z (be_unsigned bs)) (ch_scale ch_meta), w))
  /\ (exists ch,
        channel_named "V" rdtech_um24c_channels = Some ch
        /\ ch_scale ch = F32.lit 1 100
        /\ (bytes_at (buf (priv w)) (ch_offset ch) 2 = [0x00; 0x96] ->
            exists v, get_sample ch w = Ok (v, w)
                      /\ (F32.to_Q v == 3 # 2)%Q))
  /\ (exists ch,
        channel_named "I" rdtech_um24c_channels = Some ch
        /\ ch_scale ch = F32.lit 1 1000
        /\ (bytes_at (buf (priv w)) (ch_offset ch) 2 = [0x00; 0x64] ->
            exists v, get_sample ch w = Ok (v, w)
                      /\ v = F32.lit 1 10
                      /\ ((1 # 10) - (1 # 2 ^ 28) <= F32.to_Q v)%Q
                      /\ (F32.to_Q v <= (1 # 10) + (1 # 2 ^ 28))%Q))
  /\ (exists ch,
        channel_named "Temp" rdtech_um24c_channels = Some ch
        /\ ch_scale ch = F32.lit 1 1
        /\ (bytes_at (buf (priv w)) (ch_offset ch) 2 = [0x00; 0x19] ->
            exists v, get_sample ch w = Ok (v, w)
                      /\ (F32.to_Q v == 25 # 1)%Q))
  /\ (exists ch,
        channel_named "Consumption" rdtech_um24c_channels = Some ch
        /\ ch_scale ch = F32.lit 1 1000
        /\ (bytes_at (buf (priv w)) (ch_offset ch) 4
              = [0x00; 0x00; 0x03; 0xe8] ->
            exists v, get_sample ch w = Ok (v, w)
                      /\ (F32.to_Q v == 1 # 1)%Q)).
Proof.
  split; [intros; by apply get_sample_big_endian|].
  repeat split.
  - eexists. split; [reflexivity|]. split; [reflexivity|]. intros Hb.
    eexists. split.
    + eapply (get_sample_big_endian w _ [0x00; 0x96]); try done.
      repeat constructor; unfold is_byte; lia.
    + vm_compute. reflexivity.
  - eexists. split; [reflexivity|]. split; [reflexivity|]. intros Hb.
    eexists. split.
    + eapply (get_sample_big_endian w _ [0x00; 0x64]); try done.
      repeat constructor; unfold is_byte; lia.
    + split; [vm_compute; reflexivity|].
      split; apply Qle_bool_imp_le; vm_compute; reflexivity.
  - eexists. split; [reflexivity|]. split; [reflexivity|]. intros Hb.
    eexists. split.
    + eapply (get_sample_big_endian w _ [0x00; 0x19]); try done.
      repeat constructor; unfold is_byte; lia.
    + vm_compute. reflexivity.
  - eexists. split; [reflexivity|]. split; [reflexivity|]. intros Hb.
    eexists. split.
    + eapply (get_sample_big_endian w _ [0x00; 0x00; 0x03; 0xe8]); try done.
      repeat constructor; unfold is_byte; lia.
    + vm_compute. reflexivity.
Qed.

Lemma get_sample_um24c_values_witness :
  exists v, get_sample (Channel (Some "V"%string) 0x02 RDTECH_UM_UINT16
                          (F32.lit 1 100) 2 SR_MQ_VOLTAGE SR_UNIT_VOLT)
              (um24c_holding um24c_frame)
            = Ok (v, um24c_holding um24c_frame)
            /\ (F32.to_Q v == 3 # 2)%Q.
Proof.
  destruct (get_sample_um24c_values (um24c_holding um24c_frame))
    as (_ & (ch & Hch & _ & HV) & _).
  injection Hch as <-.
  apply HV. reflexivity.
Defined.

(** ** The channel loop of [handle_poll_data] *)

Lemma emit_nil (w : world) : emit [] [] w = w.
Proof. destruct w. unfold emit. cbn. by rewrite !app_nil_r. Qed.

Lemma emit_emit (pk1 pk2 : list sr_datafeed_analog)
    (lg1 lg2 : list log_entry) (w : world) :
  emit pk2 lg2 (emit pk1 lg1 w) = emit (pk1 ++ pk2) (lg1 ++ lg2) w.
Proof. unfold emit. cbn. by rewrite !app_assoc. Qed.

Lemma send_channel_emit (ch_meta : rdtech_um_channel) (ch : sr_channel)
    (w : world) :
  send_channel ch_meta ch w =
  match sample_of (buf (priv w)) ch_meta with
  | Ok v => Ok (tt, emit [analog_of v ch_meta ch] (sample_log ch_meta) w)
  | Undef u => Undef u
  end.
Proof.
  unfold send_channel. munfold. rewrite get_sample_sample_of.
  destruct (sample_of _ _) as [v|u]; [|reflexivity].
  unfold sample_log, emit, add_session, analog_of.
  destruct (supported_type _); cbn; [by rewrite app_nil_r|reflexivity].
Qed.

(** The loop sends the packets and logs the messages of
    [decode_channels], and is undefined when [decode_channels] is. *)
Lemma send_channels_decode (chs : list sr_channel) (i : nat) (w : world) :
  send_channels i chs w =
  match decode_channels (buf (priv w)) (channels (profile (priv w))) i chs
  with
  | Ok (pk, lg) => Ok (tt, emit pk lg w)
  | Undef u => Undef u
  end.
Proof.
  revert i w. induction chs as [|ch chs IH]; intros i w.
  - cbn. munfold. by rewrite emit_nil.
  - cbn [send_channels decode_channels]. munfold.
    destruct (channels (profile (priv w)) !! i) as [m|]; [|reflexivity].
    rewrite send_channel_emit.
    destruct (sample_of (buf (priv w)) m) as [v|u]; [|reflexivity].
    cbn [res_bind]. rewrite IH. cbn [emit priv].
    destruct (decode_channels _ _ (S i) chs) as [[pk lg]|u]; [|reflexivity].
    cbn [res_bind fst snd]. by rewrite emit_emit.
Qed.

(** What a call of [handle_poll_data] on a full buffer does. *)
Lemma handle_poll_data_full (w : world) :
  buflen (priv w) = poll_len (profile (priv w)) ->
  handle_poll_data w =
  match decode_channels (buf (priv w)) (channels (profile (priv w))) 0
          (sdi_channels w)
  with
  | Ok (pk, lg) =>
      Ok (tt, count_samples 1
                (emit pk (Spew_poll_packet (buflen (priv w)) :: lg) w))
  | Undef u => Undef u
  end.
Proof.
  intros Hfull. unfold handle_poll_data. munfold.
  rewrite Hfull, Z.eqb_refl. cbn [negb add_log sdi_channels priv].
  rewrite send_channels_decode. cbn [priv].
  destruct (decode_channels _ _ 0 _) as [[pk lg]|u]; [|reflexivity].
  unfold sr_sw_limits_update_samples_read, count_samples. munfold.
  unfold emit. cbn. rewrite <- app_assoc. reflexivity.
Qed.

Lemma sample_of_unsupported (data : list Z) (m : rdtech_um_channel) :
  supported_type (ch_type m) = false -> sample_of data m = Ok F32.zero.
Proof.
  unfold supported_type, sample_of. intros H.
  apply orb_false_iff in H as [H H32]. apply orb_false_iff in H as [H8 H16].
  by rewrite H8, H16, H32.
Qed.

Ltac load8_ok_at data i :=
  let b := fresh "b" in
  let Hb := fresh "Hb" in
  destruct (load8_ok data i) as [b Hb]; [lia|]; rewrite Hb; cbn [res_bind].

(** A channel that lies inside the frame is read without leaving the
    buffer. *)
Lemma sample_of_fits (data : list Z) (len : Z) (m : rdtech_um_channel) :
  channel_fits len m = true -> len <= Z.of_nat (length data) ->
  exists v, sample_of data m = Ok v.
Proof.
  unfold channel_fits. intros Hfit Hlen.
  destruct (supported_type (ch_type m)) eqn:Hsup;
    [|eexists; by apply sample_of_unsupported].
  cbn [negb orb] in Hfit. apply andb_true_iff in Hfit as [H0 H1].
  unfold sample_of. unfold type_width in H1. unfold supported_type in Hsup.
  destruct (ch_type m =? RDTECH_UM_UINT8).
  { load8_ok_at data (ch_offset m). by eexists. }
  destruct (ch_type m =? RDTECH_UM_UINT16).
  { unfold RB16.
    load8_ok_at data (ch_offset m). load8_ok_at data (ch_offset m + 1).
    by eexists. }
  destruct (ch_type m =? RDTECH_UM_UINT32); [|discriminate].
  unfold RB32.
  load8_ok_at data (ch_offset m). load8_ok_at data (ch_offset m + 1).
  load8_ok_at data (ch_offset m + 2). load8_ok_at data (ch_offset m + 3).
  by eexists.
Qed.

(** Such a channel is decoded from the bytes of the frame alone. *)
Lemma sample_of_take (data : list Z) (n : nat) (m : rdtech_um_channel) :
  channel_fits (Z.of_nat n) m = true -> (n <= length data)%nat ->
  sample_of (take n data) m = sample_of data m.
Proof.
  unfold channel_fits. intros Hfit Hlen.
  destruct (supported_type (ch_type m)) eqn:Hsup;
    [|by rewrite !sample_of_unsupported].
  cbn [negb orb] in Hfit. apply andb_true_iff in Hfit as [H0 H1].
  unfold sample_of. unfold type_width in H1. unfold supported_type in Hsup.
  destruct (ch_type m =? RDTECH_UM_UINT8).
  { by rewrite load8_take by lia. }
  destruct (ch_type m =? RDTECH_UM_UINT16).
  { unfold RB16. by rewrite !load8_take by lia. }
  destruct (ch_type m =? RDTECH_UM_UINT32); [|discriminate].
  unfold RB32. by rewrite !load8_take by lia.
Qed.

Lemma channels_fit_lookup (p : rdtech_um_profile) (chs : list sr_channel)
    (i : nat) :
  channels_fit p chs = true -> (i < length chs)%nat ->
  exists m, channels p !! i = Some m /\ channel_fits (poll_len p) m = true.
Proof.
  unfold channels_fit. intros H Hi.
  apply andb_true_iff in H as [Hlen Hall].
  apply Nat.leb_le in Hlen.
  destruct (lookup_lt_is_Some_2 (channels p) i) as [m Hm]; [lia|].
  exists m. split; [done|].
  rewrite forallb_forall in Hall. apply Hall.
  apply list_elem_of_In, list_elem_of_lookup. exists i.
  by rewrite lookup_take_lt.
Qed.

(** The channel loop is defined on a full buffer, and sends one packet for
    each channel of the device instance. *)
Lemma decode_channels_ok (data : list Z) (p : rdtech_um_profile)
    (all chs : list sr_channel) (i : nat) :
  channels_fit p all = true ->
  poll_len p <= Z.of_nat (length data) ->
  (i + length chs <= length all)%nat ->
  exists pk lg, decode_channels data (channels p) i chs = Ok (pk, lg)
                /\ length pk = length chs.
Proof.
  intros Hfit Hlen. revert i.
  induction chs as [|ch chs IH]; intros i Hi; cbn [decode_channels].
  - by exists [], [].
  - cbn [length] in Hi.
    destruct (channels_fit_lookup p all i Hfit) as (m & -> & Hm); [lia|].
    destruct (sample_of_fits data _ m Hm Hlen) as [v ->].
    destruct (IH (S i)) as (pk & lg & -> & Hpk); [lia|].
    cbn [res_bind fst snd]. do 2 eexists. split; [reflexivity|].
    cbn [length]. by rewrite Hpk.
Qed.

(** It depends on the bytes of the frame alone. *)
Lemma decode_channels_take (data : list Z) (p : rdtech_um_profile)
    (all chs : list sr_channel) (i : nat) :
  channels_fit p all = true ->
  0 <= poll_len p <= Z.of_nat (length data) ->
  (i + length chs <= length all)%nat ->
  decode_channels (take (Z.to_nat (poll_len p)) data) (channels p) i chs
  = decode_channels data (channels p) i chs.
Proof.
  intros Hfit Hlen. revert i.
  induction chs as [|ch chs IH]; intros i Hi; cbn [decode_channels].
  - reflexivity.
  - cbn [length] in Hi.
    destruct (channels_fit_lookup p all i Hfit) as (m & -> & Hm); [lia|].
    rewrite sample_of_take; [|by rewrite Z2Nat.id by lia|lia].
    by rewrite IH by lia.
Qed.

(** The packet of each channel: the value of the channel's entry in the
    channel array, or zero with an error message when the type of the entry
    is not a supported one. *)
Lemma decode_channels_lookup (data : list Z)
    (table : list rdtech_um_channel) (chs : list sr_channel) (i : nat)
    (pk : list sr_datafeed_analog) (lg : list log_entry) (k : nat)
    (ch : sr_channel) :
  decode_channels data table i chs = Ok (pk, lg) ->
  chs !! k = Some ch ->
  exists m v,
    table !! (i + k)%nat = Some m
    /\ sample_of data m = Ok v
    /\ pk !! k = Some (analog_of v m ch)
    /\ (supported_type (ch_type m) = false ->
        v = F32.zero /\ In (Err_data_type (ch_name m) (ch_type m)) lg).
Proof.
  revert i pk lg k.
  induction chs as [|c chs IH]; intros i pk lg k Hdec Hk; [done|].
  cbn [decode_channels] in Hdec.
  destruct (table !! i) as [m|] eqn:Hm; [|done].
  destruct (sample_of data m) as [v|] eqn:Hv; [|done].
  cbn [res_bind] in Hdec.
  destruct (decode_channels data table (S i) chs) as [[pk' lg']|] eqn:Hrest;
    [|done].
  cbn [res_bind fst snd] in Hdec. injection Hdec as <- <-.
  destruct k as [|k].
  - injection Hk as ->. exists m, v. rewrite Nat.add_0_r.
    split; [done|]. split; [done|]. split; [done|].
    intros Hsup. split.
    + rewrite sample_of_unsupported in Hv by done. congruence.
    + unfold sample_log. rewrite Hsup. apply in_or_app. left. by left.
  - destruct (IH (S i) pk' lg' k Hrest Hk) as (m' & v' & H1 & H2 & H3 & H4).
    exists m', v'. replace (i + S k)%nat with (S i + k)%nat by lia.
    split; [done|]. split; [done|]. split; [done|].
    intros Hsup. destruct (H4 Hsup) as [Hz Hin]. split; [done|].
    apply in_or_app. by right.
Qed.

(** C8: a channel whose type is none of the three supported ones does not
    make the decode of the frame fail.  [get_sample] logs an error and
    returns zero for it; [handle_poll_data] is defined on the full buffer
    and sends one packet for every channel of the device instance: zero for
    a channel of such a type, and for every other channel the value that
    [get_sample] reads for it. *)
Theorem unsupported_type_decodes_to_zero (w : world) :
  buflen (priv w) = poll_len (profile (priv w)) ->
  channels_fit (profile (priv w)) (sdi_channels w) = true ->
  poll_len (profile (priv w)) <= Z.of_nat (length (buf (priv w))) ->
  (forall m, supported_type (ch_type m) = false ->
     get_sample m w
     = Ok (F32.zero, add_log (Err_data_type (ch_name m) (ch_type m)) w))
  /\ exists pk lg,
       handle_poll_data w
       = Ok (tt, count_samples 1
                   (emit pk (Spew_poll_packet (buflen (priv w)) :: lg) w))
       /\ length pk = length (sdi_channels w)
       /\ forall k ch,
            sdi_channels w !! k = Some ch ->
            exists m v,
              channels (profile (priv w)) !! k = Some m
              /\ pk !! k = Some (analog_of v m ch)
              /\ (supported_type (ch_type m) = false ->
                  v = F32.zero
                  /\ In (Err_data_type (ch_name m) (ch_type m)) lg)
              /\ (supported_type (ch_type m) = true ->
                  get_sample m w = Ok (v, w)).
Proof.
  intros Hfull Hfit Hlen. split.
  { intros m Hsup. rewrite get_sample_sample_of, Hsup.
    by rewrite sample_of_unsupported. }
  destruct (decode_channels_ok (buf (priv w)) (profile (priv w))
              (sdi_channels w) (sdi_channels w) 0 Hfit Hlen)
    as (pk & lg & Hdec & Hpk); [lia|].
  exists pk, lg. split; [by rewrite handle_poll_data_full, Hdec|].
  split; [done|].
  intros k ch Hk.
  destruct (decode_channels_lookup _ _ _ _ _ _ k ch Hdec Hk)
    as (m & v & Hm & Hv & Hp & Hz).
  exists m, v. cbn [Nat.add] in Hm.
  split; [done|]. split; [done|]. split; [done|].
  intros Hsup. by rewrite get_sample_sample_of, Hv, Hsup.
Qed.

Lemma unsupported_type_decodes_to_zero_witness :
  exists pk lg,
    exec handle_poll_data
      (upd_priv (set_profile um24c_odd_profile) (um24c_holding um24c_frame))
    = Ok (count_samples 1
            (emit pk (Spew_poll_packet 130 :: lg)
               (upd_priv (set_profile um24c_odd_profile)
                  (um24c_holding um24c_frame))))
    /\ an_data <$> pk
       = [F32.lit 3 2; F32.lit 1 10; F32.zero; F32.zero; F32.zero;
          F32.lit 1 1]
    /\ lg = [Err_data_type (Some "Temp"%string) 7].
Proof.
  destruct (unsupported_type_decodes_to_zero
              (upd_priv (set_profile um24c_odd_profile)
                 (um24c_holding um24c_frame)))
    as (_ & pk & lg & Hrun & _); [reflexivity|reflexivity|by vm_compute|].
  exists pk, lg. unfold exec. rewrite Hrun. split; [reflexivity|].
  vm_compute in Hrun. injection Hrun as Hs Hl.
  split; [|congruence].
  rewrite <- Hs. vm_compute. reflexivity.
Defined.

(** ** The poll scheduler *)

Lemma serial_write_blocking_failure (data : list Z) (t : Z) (w : world) :
  wr_status (conn w) < 0 ->
  serial_write_blocking data t w = Ok (wr_status (conn w), w).
Proof.
  intros H. unfold serial_write_blocking. munfold.
  by rewrite (proj2 (Z.ltb_lt _ _) H).
Qed.

Lemma serial_write_blocking_request (t : Z) (w : world) :
  0 <= wr_status (conn w) ->
  serial_write_blocking request t w
  = Ok (Z.min (wr_status (conn w)) 1, sent w).
Proof.
  intros H. unfold serial_write_blocking. munfold.
  by rewrite (proj2 (Z.ltb_ge _ _) H).
Qed.

Lemma rdtech_um_poll_failure (w : world) :
  wr_status (conn w) < 0 ->
  rdtech_um_poll w = Ok (SR_ERR, add_log Err_poll_request w).
Proof.
  intros H. unfold rdtech_um_poll.
  unfold mbind at 1. unfold M_bind.
  rewrite serial_write_blocking_failure by done.
  rewrite (proj2 (Z.ltb_lt _ _) H). reflexivity.
Qed.

Lemma rdtech_um_poll_success (w : world) :
  0 <= wr_status (conn w) ->
  rdtech_um_poll w
  = Ok (SR_OK, upd_priv (set_cmd_sent_at (next_ms w)) (tick_clock (sent w))).
Proof.
  intros H. unfold rdtech_um_poll.
  unfold mbind at 1. unfold M_bind.
  rewrite serial_write_blocking_request by done.
  rewrite (proj2 (Z.ltb_ge (Z.min (wr_status (conn w)) 1) 0)) by lia.
  reflexivity.
Qed.

(** [rdtech_um_receive_data] after its receive part, when no limit is
    reached: the cadence check against the next reading of the clock. *)
Lemma rdtech_um_receive_data_cadence (revents : Z) (w w1 : world) :
  received revents w = Ok (tt, w1) ->
  sr_sw_limits_check w1 = Ok (false, w1) ->
  rdtech_um_receive_data revents w =
  if poll_period (profile (priv w1)) <? next_ms w1 - cmd_sent_at (priv w1)
  then
    match rdtech_um_poll (tick_clock w1) with
    | Ok (_, w2) => Ok (TRUE, w2)
    | Undef u => Undef u
    end
  else Ok (TRUE, tick_clock w1).
Proof.
  intros Hrecv Hcheck. unfold rdtech_um_receive_data.
  fold (received revents).
  unfold mbind at 1. unfold M_bind at 1. rewrite Hrecv.
  unfold mbind at 1. unfold M_bind at 1. rewrite Hcheck.
  unfold g_get_monotonic_time. munfold. cbn [priv tick_clock].
  fold (next_ms w1).
  destruct (poll_period (profile (priv w1)) <? _); [|reflexivity].
  destruct (rdtech_um_poll (tick_clock w1)) as [[r w2]|u]; reflexivity.
Qed.

(** The limit check reads the clock when, and only when, no sample cap
    is reached and a time cap is set. *)
Lemma sr_sw_limits_check_cases (w : world) :
  exists r w2,
    sr_sw_limits_check w = Ok (r, w2)
    /\ (w2 = w \/ w2 = tick_clock w)
    /\ (forall cap, limit_samples (limits (priv w)) = Some cap ->
          cap <= samples_read (limits (priv w)) -> r = true /\ w2 = w)
    /\ (limit_samples (limits (priv w)) = None ->
        limit_msec (limits (priv w)) = None -> r = false /\ w2 = w).
Proof.
  unfold sr_sw_limits_check, g_get_monotonic_time. munfold.
  destruct (limit_samples (limits (priv w))) as [cap|] eqn:Hs.
  - destruct (cap <=? samples_read (limits (priv w))) eqn:Hreach.
    + exists true, w. split; [reflexivity|]. split; [by left|].
      split; [done|done].
    + apply Z.leb_gt in Hreach.
      destruct (limit_msec (limits (priv w))) as [capt|].
      * do 2 eexists. split; [reflexivity|]. split; [by right|].
        split; [|done]. intros c [= <-] Hc. lia.
      * exists false, w. split; [reflexivity|]. split; [by left|].
        split; [|done]. intros c [= <-] Hc. lia.
  - destruct (limit_msec (limits (priv w))) as [capt|].
    + do 2 eexists. split; [reflexivity|]. split; [by right|].
      split; done.
    + exists false, w. split; [reflexivity|]. split; [by left|].
      split; done.
Qed.

(** [rdtech_um_receive_data] after its receive part and its limit
    check. *)
Lemma rdtech_um_receive_data_after_check (revents : Z) (w w1 w2 : world)
    (r : bool) :
  received revents w = Ok (tt, w1) ->
  sr_sw_limits_check w1 = Ok (r, w2) ->
  rdtech_um_receive_data revents w =
  if r then Ok (TRUE, add_stop w2)
  else if poll_period (profile (priv w2)) <? next_ms w2 - cmd_sent_at (priv w2)
  then
    match rdtech_um_poll (tick_clock w2) with
    | Ok (_, w3) => Ok (TRUE, w3)
    | Undef u => Undef u
    end
  else Ok (TRUE, tick_clock w2).
Proof.
  intros Hrecv Hcheck. unfold rdtech_um_receive_data.
  fold (received revents).
  unfold mbind at 1. unfold M_bind at 1. rewrite Hrecv.
  unfold mbind at 1. unfold M_bind at 1. rewrite Hcheck.
  destruct r; [reflexivity|].
  unfold g_get_monotonic_time. munfold. cbn [priv tick_clock].
  fold (next_ms w2).
  destruct (poll_period (profile (priv w2)) <? _); [|reflexivity].
  destruct (rdtech_um_poll (tick_clock w2)) as [[r w3]|u]; reflexivity.
Qed.

Lemma sent_tx (w : world) :
  0 <= wr_status (conn w) ->
  tx (conn (sent w))
  = tx (conn w) ++ (if wr_status (conn w) =? 0 then [] else request).
Proof.
  intros Hwr. unfold sent. cbn [upd_conn conn set_tx tx]. f_equal.
  destruct (wr_status (conn w) =? 0) eqn:E.
  - apply Z.eqb_eq in E. by rewrite E.
  - apply Z.eqb_neq in E. by rewrite Z.min_r by lia.
Qed.

(** C3: after the receive part of [rdtech_um_receive_data], and when the
    limit check reports no limit reached (it has read the clock once if a
    time cap is set, and not otherwise), the poll request is written
    exactly when the time since the last poll is greater than the poll
    period: [now - cmd_sent_at > poll_period], where [now] is the next
    reading of the clock.  Then a write that reports no error sets
    [cmd_sent_at] to the reading of the clock taken after the write; the
    request byte reaches the port unless the write reports zero bytes
    written.  A write that reports an error logs it and leaves
    [cmd_sent_at] as it is.  When [now - cmd_sent_at <= poll_period], at
    the boundary [now - cmd_sent_at = poll_period] too, nothing is written
    and [cmd_sent_at] stays: the call only reads the clock. *)
Theorem poll_issued_when_period_exceeded (revents : Z) (w w1 w2 : world) :
  received revents w = Ok (tt, w1) ->
  sr_sw_limits_check w1 = Ok (false, w2) ->
  let elapsed := next_ms w2 - cmd_sent_at (priv w2) in
  let period := poll_period (profile (priv w2)) in
  (w2 = w1 \/ w2 = tick_clock w1)
  /\ (period < elapsed -> 0 <= wr_status (conn w2) ->
      exists w',
        rdtech_um_receive_data revents w = Ok (TRUE, w')
        /\ w' = upd_priv (set_cmd_sent_at (next_ms (tick_clock w2)))
                  (tick_clock (sent (tick_clock w2)))
        /\ cmd_sent_at (priv w') = next_ms (tick_clock w2)
        /\ tx (conn w')
           = tx (conn w2)
             ++ (if wr_status (conn w2) =? 0 then [] else request))
  /\ (period < elapsed -> wr_status (conn w2) < 0 ->
      rdtech_um_receive_data revents w
      = Ok (TRUE, add_log Err_poll_request (tick_clock w2))
      /\ cmd_sent_at (priv (add_log Err_poll_request (tick_clock w2)))
         = cmd_sent_at (priv w2)
      /\ tx (conn (add_log Err_poll_request (tick_clock w2)))
         = tx (conn w2))
  /\ (elapsed <= period ->
      rdtech_um_receive_data revents w = Ok (TRUE, tick_clock w2)
      /\ cmd_sent_at (priv (tick_clock w2)) = cmd_sent_at (priv w2)
      /\ tx (conn (tick_clock w2)) = tx (conn w2)).
Proof.
  intros Hrecv Hcheck elapsed period.
  rewrite (rdtech_um_receive_data_after_check revents w w1 w2 false Hrecv
             Hcheck).
  fold elapsed period.
  split; [|split; [|split]].
  - destruct (sr_sw_limits_check_cases w1) as (r & w2' & Hc & Hw2 & _).
    rewrite Hcheck in Hc. by injection Hc as _ <-.
  - intros Hlt Hwr. rewrite (proj2 (Z.ltb_lt _ _) Hlt).
    rewrite rdtech_um_poll_success by exact Hwr.
    eexists. split; [reflexivity|]. split; [reflexivity|].
    split; [reflexivity|]. exact (sent_tx (tick_clock w2) Hwr).
  - intros Hlt Hwr. rewrite (proj2 (Z.ltb_lt _ _) Hlt).
    rewrite rdtech_um_poll_failure by exact Hwr.
    split; [reflexivity|]. split; reflexivity.
  - intros Hle. rewrite (proj2 (Z.ltb_ge _ _) Hle).
    split; [reflexivity|]. split; reflexivity.
Qed.

(** The request byte goes out 101 ms after the last poll, without a time
    cap and with one. *)
Lemma poll_issued_when_period_exceeded_witness :
  (exec (rdtech_um_receive_data 0) (um24c_world None 101000 0)
   = Ok (upd_priv (set_cmd_sent_at 101)
           (tick_clock (sent (tick_clock (um24c_world None 101000 0)))))
   /\ tx (conn (sent (tick_clock (um24c_world None 101000 0)))) = [0xf0])
  /\ exists w',
       rdtech_um_receive_data 0
         (upd_priv (set_limits (Limits 0 None (Some 10000) 0))
            (um24c_world None 101000 0)) = Ok (TRUE, w')
       /\ cmd_sent_at (priv w') = 101
       /\ tx (conn w') = [0xf0].
Proof.
  split.
  - split; [|reflexivity].
    destruct (poll_issued_when_period_exceeded 0 (um24c_world None 101000 0)
                (um24c_world None 101000 0) (um24c_world None 101000 0)
                eq_refl eq_refl) as (_ & H & _).
    destruct H as (w' & Hrun & -> & _); [by vm_compute|by vm_compute|].
    unfold exec. rewrite Hrun. reflexivity.
  - destruct (poll_issued_when_period_exceeded 0
                (upd_priv (set_limits (Limits 0 None (Some 10000) 0))
                   (um24c_world None 101000 0))
                (upd_priv (set_limits (Limits 0 None (Some 10000) 0))
                   (um24c_world None 101000 0))
                (tick_clock
                   (upd_priv (set_limits (Limits 0 None (Some 10000) 0))
                      (um24c_world None 101000 0)))
                eq_refl eq_refl) as (_ & H & _).
    destruct H as (w' & Hrun & _ & Hcs & Htx); [by vm_compute|by vm_compute|].
    exists w'. split; [exact Hrun|]. split; [exact Hcs|exact Htx].
Defined.

(** C3, as the spec states it, fails at the boundary: 100 ms after the
    last poll, with a poll period of 100 ms, [now - cmd_sent_at >=
    poll_period] holds and no poll is issued. *)
Lemma no_poll_at_period_boundary :
  next_ms (um24c_world None 100000 0)
  - cmd_sent_at (priv (um24c_world None 100000 0))
  >= poll_period (profile (priv (um24c_world None 100000 0)))
  /\ rdtech_um_receive_data 0 (um24c_world None 100000 0)
     = Ok (TRUE, tick_clock (um24c_world None 100000 0))
  /\ tx (conn (tick_clock (um24c_world None 100000 0))) = []
  /\ cmd_sent_at (priv (tick_clock (um24c_world None 100000 0))) = 0.
Proof.
  split; [by vm_compute|].
  split; [reflexivity|]. split; reflexivity.
Qed.

(** C10: when the write of the poll request reports an error,
    [rdtech_um_poll] returns [SR_ERR] and changes nothing but the log, so
    [cmd_sent_at] keeps its value.  Every call of [rdtech_um_poll] goes one
    of two ways: the write reports an error, the call returns [SR_ERR] and
    neither [cmd_sent_at] nor the port changes; or the write reports no
    error, the call returns [SR_OK] and [cmd_sent_at] becomes the next
    reading of the clock, whether the request byte reached the port or the
    write reports zero bytes written.  A poll whose write reported an
    error does not consume the period: after a call of
    [rdtech_um_receive_data] whose poll failed so, with or without a time
    cap, the period is still exceeded at every later reading of the clock,
    so the next call polls again. *)
Theorem failed_poll_keeps_timestamp (w : world) :
  wr_status (conn w) < 0 ->
  rdtech_um_poll w = Ok (SR_ERR, add_log Err_poll_request w)
  /\ cmd_sent_at (priv (add_log Err_poll_request w)) = cmd_sent_at (priv w)
  /\ (forall w0, exists r w',
        rdtech_um_poll w0 = Ok (r, w')
        /\ (r = SR_ERR /\ wr_status (conn w0) < 0
            /\ cmd_sent_at (priv w') = cmd_sent_at (priv w0)
            /\ conn w' = conn w0
            \/ r = SR_OK /\ 0 <= wr_status (conn w0)
               /\ cmd_sent_at (priv w') = next_ms w0
               /\ tx (conn w')
                  = tx (conn w0)
                    ++ (if wr_status (conn w0) =? 0 then [] else request)))
  /\ (forall revents w1 w2,
        received revents w = Ok (tt, w1) ->
        sr_sw_limits_check w1 = Ok (false, w2) ->
        wr_status (conn w2) < 0 ->
        poll_period (profile (priv w2)) < next_ms w2 - cmd_sent_at (priv w2) ->
        exists w3,
          rdtech_um_receive_data revents w = Ok (TRUE, w3)
          /\ cmd_sent_at (priv w3) = cmd_sent_at (priv w1)
          /\ (next_ms w2 <= next_ms w3 ->
              poll_period (profile (priv w3))
              < next_ms w3 - cmd_sent_at (priv w3))).
Proof.
  intros Hwr. split; [by apply rdtech_um_poll_failure|].
  split; [reflexivity|]. split.
  - intros w0.
    destruct (Z.lt_ge_cases (wr_status (conn w0)) 0) as [Hlt|Hge].
    + rewrite rdtech_um_poll_failure by exact Hlt.
      do 2 eexists. split; [reflexivity|]. left.
      split; [reflexivity|]. split; [exact Hlt|]. split; reflexivity.
    + rewrite rdtech_um_poll_success by exact Hge.
      do 2 eexists. split; [reflexivity|]. right.
      split; [reflexivity|]. split; [exact Hge|]. split; [reflexivity|].
      exact (sent_tx w0 Hge).
  - intros revents w1 w2 Hrecv Hcheck Hwr2 Hlt.
    rewrite (rdtech_um_receive_data_after_check revents w w1 w2 false Hrecv
               Hcheck).
    rewrite (proj2 (Z.ltb_lt _ _) Hlt), rdtech_um_poll_failure by exact Hwr2.
    assert (cmd_sent_at (priv w2) = cmd_sent_at (priv w1)) as Hcs.
    { destruct (sr_sw_limits_check_cases w1) as (r & w2' & Hc & Hw2 & _).
      rewrite Hcheck in Hc. injection Hc as _ <-.
      by destruct Hw2 as [->| ->]. }
    eexists. split; [reflexivity|]. split; [exact Hcs|].
    cbn [priv add_log tick_clock profile cmd_sent_at]. lia.
Qed.

(** The port is down at 150 ms and the poll fails; it is up again at the
    next turn, and the request goes out then. *)
Lemma failed_poll_keeps_timestamp_witness :
  rdtech_um_poll
    (upd_conn (set_wr_status (-1)) (um24c_world None 150000 1000))
  = Ok (SR_ERR,
        add_log Err_poll_request
          (upd_conn (set_wr_status (-1)) (um24c_world None 150000 1000)))
  /\ exists w2 w3,
       exec (rdtech_um_receive_data 0)
         (upd_conn (set_wr_status (-1)) (um24c_world None 150000 1000))
       = Ok w2
       /\ cmd_sent_at (priv w2) = 0
       /\ tx (conn w2) = []
       /\ exec (rdtech_um_receive_data 0) (upd_conn (set_wr_status 1) w2)
          = Ok w3
       /\ tx (conn w3) = [0xf0]
       /\ cmd_sent_at (priv w3) = 152.
Proof.
  destruct (failed_poll_keeps_timestamp
              (upd_conn (set_wr_status (-1)) (um24c_world None 150000 1000)))
    as (H & _); [by vm_compute|].
  split; [exact H|].
  do 2 eexists. repeat split; reflexivity.
Defined.


(** C10, as the spec states it, fails for a write that sends nothing and
    reports no error: at 150 ms the port takes no byte, the write reports
    zero bytes written, and [cmd_sent_at] moves although no request went
    out; at the next turn the port is up again, but the period has been
    consumed and no request is sent. *)
Lemma zero_byte_write_consumes_period :
  exists w1 w2 w3,
    rdtech_um_poll
      (upd_conn (set_wr_status 0) (um24c_world None 150000 1000))
    = Ok (SR_OK, w1)
    /\ tx (conn w1) = []
    /\ cmd_sent_at (priv w1) = 150
    /\ cmd_sent_at
         (priv (upd_conn (set_wr_status 0) (um24c_world None 150000 1000)))
       = 0
    /\ exec (rdtech_um_receive_data 0)
         (upd_conn (set_wr_status 0) (um24c_world None 150000 1000))
       = Ok w2
    /\ tx (conn w2) = []
    /\ cmd_sent_at (priv w2) = 151
    /\ exec (rdtech_um_receive_data 0) (upd_conn (set_wr_status 1) w2)
       = Ok w3
    /\ tx (conn w3) = []
    /\ cmd_sent_at (priv w3) = 151.
Proof.
  do 3 eexists. split; [reflexivity|]. split; [reflexivity|].
  split; [reflexivity|]. split; [reflexivity|]. split; [reflexivity|].
  split; [reflexivity|]. split; [reflexivity|]. split; [reflexivity|].
  split; reflexivity.
Qed.

(** ** The probe *)

Lemma compare_bytes_eq (a b : list Z) :
  length a = length b -> (compare_bytes a b = 0 <-> a = b).
Proof.
  revert b. induction a as [|x a IH]; intros [|y b] Hlen; try done.
  cbn [compare_bytes]. injection Hlen as Hlen.
  destruct (x <? y) eqn:Hxy.
  { split; [done|]. intros [= -> _]. lia. }
  destruct (y <? x) eqn:Hyx.
  { split; [done|]. intros [= -> _]. lia. }
  assert (x = y) as -> by lia.
  rewrite (IH b Hlen). split; [by intros ->|by intros [= ->]].
Qed.

(** [memcmp] tells whether the first [n] bytes agree. *)
Lemma memcmp_eq (a b : list Z) (n : Z) :
  0 <= n -> n <= Z.of_nat (length a) -> n <= Z.of_nat (length b) ->
  exists c, memcmp a b n = Ok c
            /\ (c =? 0) = bool_decide (take (Z.to_nat n) a
                                       = take (Z.to_nat n) b).
Proof.
  intros H0 Ha Hb. unfold memcmp.
  rewrite (proj2 (Z.leb_le _ _) H0), (proj2 (Z.leb_le _ _) Ha),
    (proj2 (Z.leb_le _ _) Hb). cbn [andb].
  eexists. split; [reflexivity|].
  pose proof (compare_bytes_eq (take (Z.to_nat n) a) (take (Z.to_nat n) b))
    as Hc.
  rewrite !length_take in Hc.
  specialize (Hc ltac:(lia)).
  destruct (bool_decide_reflect
              (take (Z.to_nat n) a = take (Z.to_nat n) b)) as [He|Hne].
  - apply Z.eqb_eq. by apply Hc.
  - apply Z.eqb_neq. intros Hz. by apply Hne, Hc.
Qed.

Lemma take_min_length {A : Type} (n : nat) (l : list A) :
  take (n `min` length l) l = take n l.
Proof.
  destruct (Nat.le_gt_cases n (length l)).
  - by rewrite Nat.min_l.
  - rewrite Nat.min_r by lia. by rewrite !take_ge by lia.
Qed.

Lemma drop_min_length {A : Type} (n : nat) (l : list A) :
  drop (n `min` length l) l = drop n l.
Proof.
  destruct (Nat.le_gt_cases n (length l)).
  - by rewrite Nat.min_l.
  - rewrite Nat.min_r by lia. by rewrite !drop_ge by lia.
Qed.

Lemma serial_read_blocking_take (extent count t : Z) (w : world) :
  0 <= count <= extent ->
  serial_read_blocking extent count t w
  = Ok ((Z.of_nat (Nat.min (Z.to_nat count) (length (rx (conn w)))),
         take (Z.to_nat count) (rx (conn w))),
        upd_conn (set_rx (drop (Z.to_nat count) (rx (conn w)))) w).
Proof.
  intros Hc. unfold serial_read_blocking. munfold.
  rewrite (proj2 (Z.ltb_ge count 0)) by lia.
  rewrite (proj2 (Z.leb_le _ extent)) by lia.
  by rewrite take_min_length, drop_min_length.
Qed.

Lemma probe_profile_write_failure (p : rdtech_um_profile) (w : world) :
  wr_status (conn w) < 0 ->
  probe_profile p w = Ok (None, add_log Err_probe_request w).
Proof.
  intros H. unfold probe_profile.
  unfold mbind at 1. unfold M_bind at 1.
  rewrite serial_write_blocking_failure by done.
  by rewrite (proj2 (Z.ltb_lt _ _) H).
Qed.

(** On a short read the probe releases its local array. *)
Lemma probe_profile_short_read (p : rdtech_um_profile) (w : world) :
  0 <= wr_status (conn w) ->
  0 <= poll_len p <= RDTECH_UM_BUFSIZE ->
  Z.of_nat (length (rx (conn w))) < poll_len p ->
  probe_profile p w = Undef InvalidFree.
Proof.
  intros Hwr Hlen Hshort. unfold probe_profile.
  unfold mbind at 1. unfold M_bind at 1.
  rewrite serial_write_blocking_request by done.
  rewrite (proj2 (Z.ltb_ge (Z.min (wr_status (conn w)) 1) 0)) by lia.
  unfold mbind at 1. unfold M_bind at 1.
  rewrite serial_read_blocking_take by done.
  cbn [conn sent upd_conn set_tx rx].
  rewrite Nat.min_r by lia.
  rewrite (proj2 (Z.eqb_neq _ (poll_len p))) by lia.
  reflexivity.
Qed.

(** On a full read the probe answers by the two marker checks. *)
Lemma probe_profile_full_read (p : rdtech_um_profile) (w : world) :
  wf_profile p = true ->
  0 <= wr_status (conn w) ->
  0 <= poll_len p <= Z.of_nat (length (rx (conn w))) ->
  probe_profile p w =
  let resp := take (Z.to_nat (poll_len p)) (rx (conn w)) in
  if negb (header_at p resp 0) then
    Ok (None, add_log Spew_probe_start (probed p w))
  else if negb (probe_end_ok p resp) then
    Ok (None, add_log Spew_probe_end (probed p w))
  else Ok (Some p, probed p w).
Proof.
  intros Hwf Hwr Hlen. unfold wf_profile in Hwf.
  apply andb_true_iff in Hwf as [Hwf Hsum].
  apply andb_true_iff in Hwf as [Hwf Hend].
  apply andb_true_iff in Hwf as [Hbuf Hstart].
  apply Z.leb_le in Hbuf, Hsum.
  unfold marker_fits in Hstart, Hend.
  apply andb_true_iff in Hstart as [Hs0 Hs1].
  apply andb_true_iff in Hend as [He0 He1].
  apply Z.leb_le in Hs0, He0.
  unfold probe_profile.
  unfold mbind at 1. unfold M_bind at 1.
  rewrite serial_write_blocking_request by done.
  rewrite (proj2 (Z.ltb_ge (Z.min (wr_status (conn w)) 1) 0)) by lia.
  unfold mbind at 1. unfold M_bind at 1.
  rewrite serial_read_blocking_take by lia.
  cbn [conn sent upd_conn set_tx rx].
  rewrite Nat.min_l by lia. rewrite Z2Nat.id by lia.
  rewrite Z.eqb_refl. cbn [negb].
  fold (sent w). change (upd_conn _ (sent w)) with (probed p w).
  set (resp := take (Z.to_nat (poll_len p)) (rx (conn w))).
  assert (Z.of_nat (length resp) = poll_len p) as Hresp.
  { unfold resp. rewrite length_take. lia. }
  cbv zeta.
  (* the start marker *)
  unfold header_at, probe_end_ok, end_matches.
  destruct (poll_start p) as [st|].
  - apply Z.leb_le in Hs1.
    destruct (memcmp_eq resp st (poll_start_len p)) as (c & Hc & Hceq);
      [lia..|].
    munfold. rewrite Hc, Hceq. change (drop 0 resp) with resp.
    case_bool_decide; cbn [negb]; [|reflexivity].
    destruct (poll_end p) as [en|].
    + apply Z.leb_le in He1.
      unfold ptr_add.
      rewrite (proj2 (Z.leb_le 0 (poll_len p - poll_end_len p))) by lia.
      rewrite (proj2 (Z.leb_le (poll_len p - poll_end_len p) _)) by lia.
      cbn [andb].
      destruct (memcmp_eq (drop (Z.to_nat (poll_len p - poll_end_len p)) resp)
                  en (poll_end_len p)) as (c' & Hc' & Hceq');
        [lia|rewrite length_drop; lia|lia|].
      rewrite Hc', Hceq'.
      rewrite (take_ge (drop _ resp)) by (rewrite length_drop; lia).
      replace (length resp - Z.to_nat (poll_end_len p))%nat
        with (Z.to_nat (poll_len p - poll_end_len p)) by lia.
      destruct (bool_decide (drop _ resp = _)); reflexivity.
    + unfold ptr_add.
      rewrite (proj2 (Z.leb_le 0 (poll_len p - poll_end_len p))) by lia.
      rewrite (proj2 (Z.leb_le (poll_len p - poll_end_len p) _)) by lia.
      reflexivity.
  - munfold. cbn [negb].
    destruct (poll_end p) as [en|].
    + apply Z.leb_le in He1.
      unfold ptr_add.
      rewrite (proj2 (Z.leb_le 0 (poll_len p - poll_end_len p))) by lia.
      rewrite (proj2 (Z.leb_le (poll_len p - poll_end_len p) _)) by lia.
      cbn [andb].
      destruct (memcmp_eq (drop (Z.to_nat (poll_len p - poll_end_len p)) resp)
                  en (poll_end_len p)) as (c' & Hc' & Hceq');
        [lia|rewrite length_drop; lia|lia|].
      rewrite Hc', Hceq'.
      rewrite (take_ge (drop _ resp)) by (rewrite length_drop; lia).
      replace (length resp - Z.to_nat (poll_end_len p))%nat
        with (Z.to_nat (poll_len p - poll_end_len p)) by lia.
      destruct (bool_decide (drop _ resp = _)); reflexivity.
    + unfold ptr_add.
      rewrite (proj2 (Z.leb_le 0 (poll_len p - poll_end_len p))) by lia.
      rewrite (proj2 (Z.leb_le (poll_len p - poll_end_len p) _)) by lia.
      reflexivity.
Qed.

(** The probe of a UM24C, case by case: a failed write and a response with
    a wrong marker give no profile; a full response with both markers gives
    the profile, after one write of the request and one read. *)
Lemma rdtech_um_probe_answers (w : world) :
  (wr_status (conn w) < 0 ->
     rdtech_um_probe w = Ok (None, add_log Err_probe_request w))
  /\ (0 <= wr_status (conn w) ->
      RDTECH_UM24C_POLL_LEN <= Z.of_nat (length (rx (conn w))) ->
      let resp := take (Z.to_nat RDTECH_UM24C_POLL_LEN) (rx (conn w)) in
      rdtech_um_probe w =
      if negb (header_at rdtech_um24c_profile resp 0) then
        Ok (None, add_log Spew_probe_start (probed rdtech_um24c_profile w))
      else if negb (end_matches rdtech_um24c_profile resp) then
        Ok (None, add_log Spew_probe_end (probed rdtech_um24c_profile w))
      else Ok (Some rdtech_um24c_profile, probed rdtech_um24c_profile w)).
Proof.
  split.
  - apply probe_profile_write_failure.
  - intros Hwr Hlen. unfold rdtech_um_probe.
    rewrite probe_profile_full_read; [reflexivity|reflexivity|done|].
    split; [by vm_compute|done].
Qed.

(** C6: the probe fails without a profile when the write fails and when a
    marker of the response is wrong, and returns the profile when all
    checks pass; but when fewer bytes than a frame are read, the code
    releases its local array with [g_free] before it returns, which is
    undefined: here the port answers with the first 100 bytes of a frame. *)
Theorem rdtech_um_probe_short_read_undefined :
  rdtech_um_probe
    (upd_conn (set_rx (take 100 um24c_frame)) (um24c_world None 0 0))
  = Undef InvalidFree.
Proof.
  apply probe_profile_short_read; by vm_compute.
Qed.

(** ** The frame assembler *)

Lemma take_S_insert {A : Type} (l : list A) (n : nat) (x : A) :
  (n < length l)%nat -> take (S n) (<[n := x]> l) = take n l ++ [x].
Proof.
  intros Hn.
  rewrite (take_S_r _ _ x) by (by apply list_lookup_insert_eq).
  by rewrite take_insert_ge.
Qed.

Lemma load8_inv (data : list Z) (i b : Z) :
  load8 data i = Ok b -> data !! Z.to_nat i = Some b.
Proof.
  unfold load8. destruct (_ && _); [|done].
  destruct (data !! Z.to_nat i); congruence.
Qed.

Lemma dispatches_app (l1 l2 : list log_entry) :
  dispatches (l1 ++ l2) = (dispatches l1 + dispatches l2)%nat.
Proof.
  induction l1 as [|e l1 IH]; [done|].
  destruct e; cbn; by rewrite ?IH.
Qed.

Lemma skipped_app (l1 l2 : list log_entry) :
  skipped (l1 ++ l2) = skipped l1 ++ skipped l2.
Proof.
  induction l1 as [|e l1 IH]; [done|].
  destruct e; cbn; by rewrite ?IH.
Qed.

Lemma asm_inv_content_length (p : rdtech_um_profile) (w : world) :
  asm_inv p w -> Z.of_nat (length (content w)) = buflen (priv w).
Proof.
  intros (_ & Hwf & Hbuf & Hn). unfold content.
  apply andb_true_iff in Hwf as [Hwf _].
  apply andb_true_iff in Hwf as [Hwf _].
  apply andb_true_iff in Hwf as [Hlen _]. apply Z.leb_le in Hlen.
  rewrite length_take. lia.
Qed.

Lemma wf_profile_bounds (p : rdtech_um_profile) :
  wf_profile p = true ->
  poll_len p <= RDTECH_UM_BUFSIZE
  /\ 0 <= poll_start_len p /\ 0 <= poll_end_len p
  /\ poll_start_len p + poll_end_len p <= poll_len p
  /\ (forall st, poll_start p = Some st ->
        poll_start_len p <= Z.of_nat (length st))
  /\ (forall en, poll_end p = Some en ->
        poll_end_len p <= Z.of_nat (length en)).
Proof.
  unfold wf_profile, marker_fits. intros Hwf.
  apply andb_true_iff in Hwf as [Hwf Hsum].
  apply andb_true_iff in Hwf as [Hwf Hend].
  apply andb_true_iff in Hwf as [Hbuf Hstart].
  apply andb_true_iff in Hstart as [Hs0 Hs1].
  apply andb_true_iff in Hend as [He0 He1].
  apply Z.leb_le in Hbuf, Hsum, Hs0, He0.
  repeat split; try done.
  - intros st Hst. rewrite Hst in Hs1. by apply Z.leb_le.
  - intros en Hen. rewrite Hen in He1. by apply Z.leb_le.
Qed.

Ltac inv_tac :=
  unfold asm_inv, RDTECH_UM_BUFSIZE in *; cbn;
  rewrite ?length_insert; repeat split; (done || lia).

(** One turn of the receive loop on a byte of the queue: the byte is
    pushed as [asm_push] says, and nothing else changes. *)
Lemma recv_poll_loop_cons (p : rdtech_um_profile) (b : Z)
    (pending : list Z) (w : world) :
  asm_inv p w -> buflen (priv w) < poll_len p ->
  exists w1,
    recv_poll_loop p (b :: pending) w = recv_poll_loop p pending w1
    /\ asm_inv p w1
    /\ rest_of w1 = rest_of w
    /\ rx (conn w1) = pending
    /\ view_of w1 = asm_push p (view_of w) b.
Proof.
  intros (Hp & Hwf & Hbuf & Hn) Hlt.
  destruct (wf_profile_bounds p Hwf) as (Hlen & Hs0 & He0 & Hsum & Hst & Hen).
  destruct w as [[pr lim bf n cs] s chs ses lg st ck].
  cbn [priv profile buf buflen] in *. subst pr.
  destruct (Z_of_nat_complete n) as [k ->]; [lia|].
  unfold RDTECH_UM_BUFSIZE in *.
  cbn [recv_poll_loop]. munfold. cbn [priv buflen buf].
  rewrite (proj2 (Z.ltb_lt _ _) Hlt).
  unfold store8.
  rewrite (proj2 (Z.leb_le 0 (Z.of_nat k))) by lia.
  rewrite (proj2 (Z.ltb_lt (Z.of_nat k) _)) by lia.
  cbn [andb upd_conn upd_priv priv conn set_buf set_buflen buf buflen
         profile limits cmd_sent_at sdi_channels session log stops clock].
  rewrite Nat2Z.id.
  set (buf1 := <[k := b]> bf).
  assert (length buf1 = length bf) as Hbuf1 by apply length_insert.
  assert (take (S k) buf1 = take k bf ++ [b]) as Hc1
    by (apply take_S_insert; lia).
  unfold asm_push, view_of, content, illegal_header.
  cbn [v_content priv buflen buf v_log log v_session session v_samples
         limits].
  rewrite Nat2Z.id, <- Hc1.
  assert (Z.of_nat (length (take (S k) buf1)) = Z.of_nat k + 1) as Hlc1.
  { rewrite length_take. lia. }
  rewrite Hlc1.
  destruct (poll_start p) as [sm|] eqn:Hsm.
  2:{ eexists. split; [reflexivity|].
      split; [inv_tac|].
      split; [reflexivity|]. split; [reflexivity|].
      cbn. by replace (Z.to_nat (Z.of_nat k + 1)) with (S k) by lia. }
  specialize (Hst sm eq_refl).
  destruct (Z.of_nat k + 1 =? poll_start_len p) eqn:Hchk.
  2:{ eexists. split; [reflexivity|].
      split; [inv_tac|].
      split; [reflexivity|]. split; [reflexivity|].
      cbn. by replace (Z.to_nat (Z.of_nat k + 1)) with (S k) by lia. }
  apply Z.eqb_eq in Hchk.
  destruct (memcmp_eq buf1 sm (poll_start_len p)) as (c & Hc & Hceq);
    [lia..|].
  rewrite Hc, Hceq. rewrite <- Hchk.
  replace (Z.to_nat (Z.of_nat k + 1)) with (S k) by lia.
  cbn [andb].
  destruct (bool_decide (take (S k) buf1 = take (S k) sm)); cbn [negb].
  { eexists. split; [reflexivity|].
    split; [inv_tac|].
    split; [reflexivity|]. split; [reflexivity|].
    cbn. by replace (Z.to_nat (Z.of_nat k + 1)) with (S k) by lia. }
  (* the header is illegal: the oldest byte is skipped *)
  destruct (load8_ok buf1 0) as [b0 Hb0]; [lia|].
  rewrite Hb0.
  unfold memmove_down1.
  replace (Z.of_nat k + 1 - 1) with (Z.of_nat k) by lia.
  rewrite (proj2 (Z.leb_le 0 (Z.of_nat k))) by lia.
  rewrite (proj2 (Z.leb_le (1 + Z.of_nat k) _)) by lia.
  cbn [andb upd_conn upd_priv priv conn set_buf set_buflen buf buflen
         profile limits cmd_sent_at sdi_channels session log stops clock
         add_log].
  rewrite Nat2Z.id.
  eexists. split; [reflexivity|].
  split.
  { unfold asm_inv, RDTECH_UM_BUFSIZE. cbn.
    rewrite length_app, length_take, !length_drop.
    repeat split; (done || lia). }
  split; [reflexivity|]. split; [reflexivity|].
  cbn. rewrite Nat2Z.id. f_equal.
  - rewrite take_app_le by (rewrite length_take, length_drop; lia).
    rewrite take_take, Nat.min_id.
    rewrite take_drop_commute. cbn [Nat.add].
    by destruct (take (S k) buf1).
  - do 3 f_equal.
    assert (buf1 !! 0%nat = Some b0) as Hl0.
    { by apply (load8_inv buf1 0). }
    destruct buf1 as [|x buf1']; [done|]. by injection Hl0 as ->.
Qed.

Lemma recv_poll_loop_nil (p : rdtech_um_profile) (w : world) :
  recv_poll_loop p [] w = Ok (buflen (priv w) <? poll_len p, w).
Proof.
  cbn [recv_poll_loop]. munfold.
  by destruct (buflen (priv w) <? poll_len p).
Qed.

Lemma recv_poll_loop_full (p : rdtech_um_profile) (pending : list Z)
    (w : world) :
  poll_len p <= buflen (priv w) ->
  recv_poll_loop p pending w = Ok (false, w).
Proof.
  intros H. destruct pending; cbn [recv_poll_loop]; munfold;
    by rewrite (proj2 (Z.ltb_ge _ _) H).
Qed.

(** The receive loop: it pushes bytes of the queue, in their order, until
    the queue is empty or the buffer is full. *)
Lemma recv_poll_loop_pushes (p : rdtech_um_profile) (pending : list Z)
    (w : world) :
  asm_inv p w -> rx (conn w) = pending ->
  exists r w' used,
    recv_poll_loop p pending w = Ok (r, w')
    /\ asm_inv p w'
    /\ rest_of w' = rest_of w
    /\ pending = used ++ rx (conn w')
    /\ view_of w' = fold_left (asm_push p) used (view_of w)
    /\ (if r : bool then buflen (priv w') < poll_len p /\ rx (conn w') = []
        else buflen (priv w') = poll_len p).
Proof.
  revert w. induction pending as [|b pending IH]; intros w Hinv Hrx.
  - rewrite recv_poll_loop_nil.
    exists (buflen (priv w) <? poll_len p), w, [].
    split; [done|]. split; [done|]. split; [done|].
    split; [by rewrite Hrx|]. split; [done|].
    destruct Hinv as (_ & _ & _ & Hn).
    destruct (buflen (priv w) <? poll_len p) eqn:E; [split; [lia|done]|lia].
  - destruct (Z.lt_ge_cases (buflen (priv w)) (poll_len p)) as [Hlt|Hge].
    + destruct (recv_poll_loop_cons p b pending w Hinv Hlt)
        as (w1 & -> & Hinv1 & Hrest1 & Hrx1 & Hview1).
      destruct (IH w1 Hinv1 Hrx1)
        as (r & w' & used & Hrun & Hinv' & Hrest' & Hused & Hview' & Hr).
      exists r, w', (b :: used).
      split; [done|]. split; [done|]. split; [congruence|].
      split; [cbn; congruence|]. split; [|done].
      cbn [fold_left]. by rewrite <- Hview1.
    + rewrite recv_poll_loop_full by done.
      exists false, w, [].
      split; [done|]. split; [done|]. split; [done|].
      split; [by rewrite Hrx|]. split; [done|].
      destruct Hinv as (_ & _ & _ & Hn). lia.
Qed.

(** [recv_poll_data] after its loop: nothing more when the loop returned,
    and the completion check of the spec on the full buffer otherwise. *)
Lemma recv_poll_data_after_loop (p : rdtech_um_profile) (w w1 : world)
    (r : bool) :
  profile (priv w) = p ->
  recv_poll_loop p (rx (conn w)) w = Ok (r, w1) ->
  asm_inv p w1 ->
  channels_fit p (sdi_channels w1) = true ->
  0 < poll_len p ->
  (if r then buflen (priv w1) < poll_len p
   else buflen (priv w1) = poll_len p) ->
  exists w',
    recv_poll_data w = Ok (tt, w')
    /\ asm_inv p w'
    /\ buflen (priv w') < poll_len p
    /\ rest_of w' = rest_of w1
    /\ rx (conn w') = rx (conn w1)
    /\ view_of w' = if r then view_of w1
                    else asm_complete p (sdi_channels w1) (view_of w1).
Proof.
  intros Hp Hloop Hinv Hfit Hpos Hr.
  unfold recv_poll_data. munfold. rewrite Hp, Hloop.
  destruct r.
  { exists w1. cbn in Hr. by split; [|split; [|split]]. }
  pose proof (asm_inv_content_length p w1 Hinv) as Hclen.
  destruct Hinv as (Hp1 & Hwf & Hbuf & Hn).
  destruct (wf_profile_bounds p Hwf) as (Hlen & Hs0 & He0 & Hsum & Hst & Hen).
  unfold RDTECH_UM_BUFSIZE in *.
  cbn in Hr. rewrite Hr, Z.eqb_refl.
  unfold ptr_add.
  rewrite (proj2 (Z.leb_le 0 (poll_len p - poll_end_len p))) by lia.
  rewrite (proj2 (Z.leb_le (poll_len p - poll_end_len p) _)) by lia.
  cbn [andb].
  unfold asm_complete, end_matches.
  change (v_content (view_of w1)) with (content w1).
  assert (drop (length (content w1) - Z.to_nat (poll_end_len p)) (content w1)
          = take (Z.to_nat (poll_end_len p))
              (drop (Z.to_nat (poll_len p - poll_end_len p)) (buf (priv w1))))
    as Htail.
  { replace (length (content w1) - Z.to_nat (poll_end_len p))%nat
      with (Z.to_nat (poll_len p - poll_end_len p)) by lia.
    rewrite take_drop_commute. unfold content. rewrite Hr.
    do 2 f_equal. lia. }
  assert (exists pk lg,
    decode_channels (buf (priv w1)) (channels p) 0 (sdi_channels w1)
    = Ok (pk, lg)
    /\ decode_channels (content w1) (channels p) 0 (sdi_channels w1)
       = Ok (pk, lg)) as (pk & lg & Hdec & Hdecc).
  { destruct (decode_channels_ok (buf (priv w1)) p (sdi_channels w1)
                (sdi_channels w1) 0 Hfit) as (pk & lg & Hdec & _); [lia..|].
    exists pk, lg. split; [done|].
    unfold content. rewrite Hr.
    by rewrite (decode_channels_take _ p (sdi_channels w1)) by (done || lia). }
  assert (forall lg' pk' n,
    asm_inv p (upd_priv (set_buflen 0)
                 (count_samples n (emit pk' lg' w1)))) as Hinv'.
  { intros. unfold asm_inv, RDTECH_UM_BUFSIZE. cbn. repeat split; (done || lia). }
  destruct (poll_end p) as [en|] eqn:Hpe.
  - specialize (Hen en eq_refl).
    destruct (memcmp_eq
                (drop (Z.to_nat (poll_len p - poll_end_len p)) (buf (priv w1)))
                en (poll_end_len p)) as (c & Hc & Hceq);
      [lia|rewrite length_drop; lia|lia|].
    rewrite Hc, Hceq, Htail.
    destruct (bool_decide _).
    + rewrite handle_poll_data_full by congruence.
      rewrite Hp1, Hdec, Hdecc.
      eexists. split; [reflexivity|].
      split; [apply Hinv'|]. split; [cbn; lia|].
      split; [reflexivity|]. split; [reflexivity|].
      unfold view_of, content. cbn. by rewrite Hr.
    + eexists. split; [reflexivity|].
      split; [apply (Hinv' [Warn_end_marker] [] 0)|]. split; [cbn; lia|].
      split; [reflexivity|]. split; [reflexivity|].
      unfold view_of, content. cbn. reflexivity.
  - eexists. split; [reflexivity|].
    split; [apply (Hinv' [Warn_end_marker] [] 0)|]. split; [cbn; lia|].
    split; [reflexivity|]. split; [reflexivity|].
    unfold view_of, content. cbn. reflexivity.
Qed.

Ltac conj_split := repeat match goal with |- _ /\ _ => split end.

Lemma rest_of_fields (w w' : world) :
  rest_of w' = rest_of w ->
  profile (priv w') = profile (priv w) /\ sdi_channels w' = sdi_channels w.
Proof. unfold rest_of. intros H. by injection H. Qed.

Lemma world_ok_asm_inv (w : world) :
  world_ok w -> asm_inv (profile (priv w)) w.
Proof.
  intros [Hwf Hfit Hbuf Hn]. unfold asm_inv. repeat split; (done || lia).
Qed.

(** A call of [recv_poll_data]: it is defined, keeps the state
    well-formed, pushes bytes of the queue and, when this fills the
    buffer, runs the completion check. *)
Lemma recv_poll_data_spec (w : world) :
  world_ok w ->
  let p := profile (priv w) in
  exists w' used,
    recv_poll_data w = Ok (tt, w')
    /\ world_ok w'
    /\ rest_of w' = rest_of w
    /\ rx (conn w) = used ++ rx (conn w')
    /\ (let v1 := fold_left (asm_push p) used (view_of w) in
        (Z.of_nat (length (v_content v1)) < poll_len p
         /\ rx (conn w') = [] /\ view_of w' = v1)
        \/ (Z.of_nat (length (v_content v1)) = poll_len p
            /\ view_of w' = asm_complete p (sdi_channels w) v1)).
Proof.
  intros Hok p.
  pose proof (world_ok_asm_inv w Hok) as Hinv. fold p in Hinv.
  destruct Hok as [Hwf Hfit Hbuf Hn]. fold p in Hwf, Hfit, Hn.
  destruct (recv_poll_loop_pushes p (rx (conn w)) w Hinv eq_refl)
    as (r & w1 & used & Hloop & Hinv1 & Hrest1 & Hused & Hview1 & Hr).
  destruct (rest_of_fields _ _ Hrest1) as [Hp1 Hch1].
  destruct (recv_poll_data_after_loop p w w1 r eq_refl Hloop Hinv1)
    as (w' & Hrun & Hinv' & Hlt' & Hrest' & Hrx' & Hview');
    [by rewrite Hch1|lia|by destruct r; [apply Hr|]|].
  destruct (rest_of_fields _ _ Hrest') as [Hp' Hch'].
  exists w', used. split; [done|].
  split.
  { destruct Hinv' as (Hq & _ & Hbuf' & Hn').
    split; [by rewrite Hq|by rewrite Hq, Hch', Hch1|done|rewrite Hq; lia]. }
  split; [congruence|]. split; [congruence|].
  cbv zeta. rewrite <- Hview1.
  pose proof (asm_inv_content_length p w1 Hinv1) as Hlen1.
  change (v_content (view_of w1)) with (content w1). rewrite Hlen1.
  destruct r.
  - left. destruct Hr as [Hr1 Hr2]. by rewrite Hrx'.
  - right. split; [done|]. by rewrite <- Hch1.
Qed.

Lemma serial_receive_run (bs : list Z) (w : world) :
  serial_receive bs w
  = Ok (tt, upd_conn (fun s => set_rx (rx s ++ bs) s) w).
Proof. reflexivity. Qed.

(** The code refines the assembler of the spec: a byte that arrives alone
    goes through [recv_poll_data] as [asm_byte] says. *)
Lemma recv_poll_data_asm_byte (b : Z) (w : world) :
  world_ok w -> rx (conn w) = [] ->
  exists w',
    (serial_receive [b];; recv_poll_data) w = Ok (tt, w')
    /\ world_ok w'
    /\ rest_of w' = rest_of w
    /\ rx (conn w') = []
    /\ view_of w'
       = asm_byte (profile (priv w)) (sdi_channels w) (view_of w) b.
Proof.
  intros Hok Hrx.
  set (w0 := upd_conn (fun s => set_rx (rx s ++ [b]) s) w).
  assert (world_ok w0) as Hok0 by (by destruct Hok).
  destruct (recv_poll_data_spec w0 Hok0)
    as (w' & used & Hrun & Hok' & Hrest' & Hused & Hcases).
  change (profile (priv w0)) with (profile (priv w)) in Hcases.
  change (sdi_channels w0) with (sdi_channels w) in Hcases.
  change (view_of w0) with (view_of w) in Hcases.
  assert (rx (conn w0) = [b]) as Hrx0 by (cbn; by rewrite Hrx).
  rewrite Hrx0 in Hused.
  pose proof (asm_inv_content_length _ w (world_ok_asm_inv w Hok)) as Hlen.
  pose proof (ok_buflen w Hok) as Hn.
  assert (used = [b] /\ rx (conn w') = []) as [-> Hrx'].
  { destruct used as [|x used].
    - cbn in Hcases. change (v_content (view_of w)) with (content w) in Hcases.
      destruct Hcases as [(_ & Hnil & _)|(Hfull & _)]; [|lia].
      rewrite Hnil in Hused. done.
    - destruct used; [|by destruct used].
      cbn in Hused. injection Hused as -> Hnil. by rewrite <- Hnil. }
  exists w'. munfold. rewrite serial_receive_run. fold w0.
  split; [done|]. split; [done|]. split; [done|]. split; [done|].
  cbn [fold_left] in Hcases. unfold asm_byte.
  destruct Hcases as [(Hlt & _ & Hv)|(Hfull & Hv)].
  - by rewrite (proj2 (Z.ltb_lt _ _) Hlt).
  - rewrite (proj2 (Z.ltb_ge _ _)) by lia. done.
Qed.

(** The same for a stream of bytes that arrive one at a time. *)
Lemma feed_bytes_asm_bytes (bs : list Z) (w : world) :
  world_ok w -> rx (conn w) = [] ->
  exists w',
    feed_bytes bs w = Ok (tt, w')
    /\ world_ok w'
    /\ rest_of w' = rest_of w
    /\ rx (conn w') = []
    /\ view_of w'
       = asm_bytes (profile (priv w)) (sdi_channels w) (view_of w) bs.
Proof.
  revert w. induction bs as [|b bs IH]; intros w Hok Hrx.
  - exists w. by conj_split.
  - destruct (recv_poll_data_asm_byte b w Hok Hrx)
      as (w1 & Hrun1 & Hok1 & Hrest1 & Hrx1 & Hview1).
    destruct (IH w1 Hok1 Hrx1) as (w' & Hrun & Hok' & Hrest' & Hrx' & Hview').
    destruct (rest_of_fields _ _ Hrest1) as [Hp1 Hch1].
    exists w'. split.
    { cbn [feed_bytes]. munfold. munfold.
      unfold serial_receive in *. munfold.
      destruct (recv_poll_data _) as [[[] w1']|]; [|done].
      injection Hrun1 as ->. done. }
    split; [done|]. split; [congruence|]. split; [done|].
    unfold asm_bytes in *. cbn [fold_left].
    by rewrite Hview', Hp1, Hch1, Hview1.
Qed.

(** ** The assembler of the spec on streams *)

Lemma asm_bytes_app (p : rdtech_um_profile) (chs : list sr_channel)
    (v : asm_view) (a b : list Z) :
  asm_bytes p chs v (a ++ b) = asm_bytes p chs (asm_bytes p chs v a) b.
Proof. apply fold_left_app. Qed.

Lemma asm_bytes_cons (p : rdtech_um_profile) (chs : list sr_channel)
    (v : asm_view) (x : Z) (xs : list Z) :
  asm_bytes p chs v (x :: xs) = asm_bytes p chs (asm_byte p chs v x) xs.
Proof. reflexivity. Qed.

Lemma asm_bytes_one (p : rdtech_um_profile) (chs : list sr_channel)
    (v : asm_view) (x : Z) :
  asm_bytes p chs v [x] = asm_byte p chs v x.
Proof. reflexivity. Qed.

Lemma illegal_header_length (p : rdtech_um_profile) (c : list Z) :
  illegal_header p c = true -> Z.of_nat (length c) = poll_start_len p.
Proof.
  unfold illegal_header. destruct (poll_start p); [|done].
  intros H. apply andb_true_iff in H as [H _]. by apply Z.eqb_eq.
Qed.

(** The header check does not fire on a stream that passes it at its
    start. *)
Lemma header_at_legal (p : rdtech_um_profile) (f : list Z) (k : nat) :
  header_at p f 0 = true -> illegal_header p (take k f) = false.
Proof.
  unfold header_at, illegal_header.
  destruct (poll_start p) as [st|]; [|done].
  intros H. apply bool_decide_eq_true in H. rewrite drop_0 in H.
  destruct (Z.of_nat (length (take k f)) =? poll_start_len p) eqn:E; [|done].
  apply Z.eqb_eq in E. cbn [andb]. apply negb_false_iff, bool_decide_eq_true.
  rewrite <- H. rewrite length_take in E.
  destruct (Nat.le_gt_cases k (length f)).
  - f_equal. lia.
  - rewrite !take_ge by lia. done.
Qed.

(** Bytes that neither fail the header check nor fill the buffer are
    appended. *)
Lemma asm_bytes_fill (p : rdtech_um_profile) (chs : list sr_channel)
    (xs : list Z) (v : asm_view) :
  Z.of_nat (length (v_content v ++ xs)) < poll_len p ->
  (forall k, (length (v_content v) < k <= length (v_content v ++ xs))%nat ->
     illegal_header p (take k (v_content v ++ xs)) = false) ->
  asm_bytes p chs v xs
  = AsmView (v_content v ++ xs) (v_log v) (v_session v) (v_samples v).
Proof.
  revert v. induction xs as [|x xs IH]; intros v Hlen Hleg.
  - destruct v. cbn. by rewrite app_nil_r.
  - rewrite asm_bytes_cons. unfold asm_byte, asm_push.
    assert (illegal_header p (v_content v ++ [x]) = false) as ->.
    { specialize (Hleg (length (v_content v) + 1)%nat).
      rewrite length_app in Hleg. cbn [length] in Hleg.
      rewrite (take_app_add' _ _ (length (v_content v)) 1) in Hleg by done.
      apply Hleg. lia. }
    cbn [v_content].
    rewrite length_app in Hlen |- *. cbn [length] in Hlen |- *.
    rewrite (proj2 (Z.ltb_lt _ _)) by lia.
    rewrite IH; cbn [v_content v_log v_session v_samples].
    + by rewrite <- app_assoc.
    + rewrite <- app_assoc. cbn. rewrite length_app. cbn. lia.
    + intros k Hk. rewrite <- app_assoc. cbn [app]. apply Hleg.
      rewrite !length_app in *. cbn [length] in *. lia.
Qed.

(** A full-length stream that passes the header check goes to the
    completion check as it is. *)
Lemma asm_bytes_full (p : rdtech_um_profile) (chs : list sr_channel)
    (f : list Z) (v : asm_view) :
  v_content v = [] ->
  Z.of_nat (length f) = poll_len p -> 0 < poll_len p ->
  header_at p f 0 = true ->
  asm_bytes p chs v f
  = asm_complete p chs (AsmView f (v_log v) (v_session v) (v_samples v)).
Proof.
  intros Hc Hlen Hpos Hhd.
  destruct f as [|b f0 _] using rev_ind; [cbn in Hlen; lia|].
  rewrite length_app in Hlen. cbn [length] in Hlen.
  rewrite asm_bytes_app, (asm_bytes_fill p chs f0 v).
  - rewrite Hc. cbn [app]. rewrite asm_bytes_one.
    unfold asm_byte, asm_push. cbn [v_content v_log v_session v_samples].
    assert (illegal_header p (f0 ++ [b]) = false) as ->.
    { rewrite <- (take_ge (f0 ++ [b]) (length (f0 ++ [b]))) by done.
      by apply header_at_legal. }
    cbn [v_content]. rewrite length_app. cbn [length].
    by rewrite (proj2 (Z.ltb_ge _ _)) by lia.
  - rewrite Hc. cbn [app]. lia.
  - rewrite Hc. cbn [app length]. intros k Hk.
    rewrite <- (take_app_le f0 [b]) by lia.
    by apply header_at_legal.
Qed.

Lemma header_at_cons (p : rdtech_um_profile) (g : Z) (s : list Z) (i : nat) :
  header_at p (g :: s) (S i) = header_at p s i.
Proof. reflexivity. Qed.

Lemma no_header_before_cons (p : rdtech_um_profile) (g : Z) (s : list Z)
    (n : nat) :
  no_header_before p (g :: s) (S n)
  = negb (header_at p (g :: s) 0) && no_header_before p s n.
Proof.
  unfold no_header_before. cbn [seq forallb]. f_equal.
  generalize 0%nat. induction n as [|n IH]; intros a; [done|].
  cbn [seq forallb]. by rewrite IH.
Qed.

(** A byte at which the stream does not pass the header check is
    skipped. *)
Lemma asm_bytes_skip (p : rdtech_um_profile) (chs : list sr_channel)
    (g : Z) (s : list Z) (v : asm_view) :
  wf_profile p = true ->
  v_content v = [] ->
  header_at p (g :: s) 0 = false ->
  poll_start_len p <= Z.of_nat (length (g :: s)) ->
  asm_bytes p chs v (g :: s)
  = asm_bytes p chs
      (AsmView [] (v_log v ++ [Warn_poll_header g]) (v_session v)
         (v_samples v)) s.
Proof.
  intros Hwf Hc Hhd Hlen.
  destruct (wf_profile_bounds p Hwf) as (Hpl & Hs0 & He0 & Hsum & Hst & Hen).
  unfold header_at in Hhd.
  destruct (poll_start p) as [st|] eqn:Hps; [|done].
  apply bool_decide_eq_false in Hhd. rewrite drop_0 in Hhd.
  specialize (Hst st eq_refl).
  destruct (Z.to_nat (poll_start_len p)) as [|l] eqn:HL.
  { by destruct Hhd. }
  cbn [length] in Hlen. cbn [take] in Hhd.
  assert (forall c, Z.of_nat (length c) <> poll_start_len p ->
                    illegal_header p c = false) as Hshort.
  { intros c Hne. destruct (illegal_header p c) eqn:E; [|done].
    by apply illegal_header_length in E. }
  rewrite <- (take_drop l s) at 1.
  destruct (exists_last (l := g :: take l s)) as (pre & x & Hpre); [done|].
  assert (length pre = l) as Hlpre.
  { apply (f_equal length) in Hpre. rewrite length_app in Hpre.
    cbn [length] in Hpre. rewrite length_take in Hpre. lia. }
  rewrite app_comm_cons, Hpre, <- app_assoc.
  rewrite asm_bytes_app, (asm_bytes_fill p chs pre v); rewrite Hc; cbn [app].
  2:{ lia. }
  2:{ intros k Hk. apply Hshort. rewrite length_take. lia. }
  rewrite asm_bytes_cons.
  unfold asm_byte, asm_push. cbn [v_content v_log v_session v_samples].
  assert (illegal_header p (pre ++ [x]) = true) as ->.
  { unfold illegal_header. rewrite Hps, <- Hpre, HL.
    cbn [length]. rewrite length_take.
    rewrite (proj2 (Z.eqb_eq _ _)) by lia.
    cbn [andb]. by apply negb_true_iff, bool_decide_eq_false. }
  rewrite <- Hpre. cbn [tail hd v_content].
  rewrite length_take. rewrite (proj2 (Z.ltb_lt _ _)) by lia.
  rewrite <- (take_drop l s) at 3.
  rewrite asm_bytes_app. f_equal.
  rewrite asm_bytes_fill; cbn [v_content v_log v_session v_samples app].
  - done.
  - rewrite length_take. lia.
  - intros k Hk. apply Hshort. rewrite !length_take in *. lia.
Qed.

(** Garbage in front of a stream is skipped byte by byte, as long as the
    stream does not pass the header check inside the garbage. *)
Lemma asm_bytes_resync (p : rdtech_um_profile) (chs : list sr_channel)
    (garbage t : list Z) (v : asm_view) :
  wf_profile p = true ->
  v_content v = [] ->
  no_header_before p (garbage ++ t) (length garbage) = true ->
  poll_start_len p <= Z.of_nat (length t) ->
  asm_bytes p chs v (garbage ++ t)
  = asm_bytes p chs
      (AsmView [] (v_log v ++ (Warn_poll_header <$> garbage)) (v_session v)
         (v_samples v)) t.
Proof.
  intros Hwf. revert v.
  induction garbage as [|g garbage IH]; intros v Hc Hno Hlen.
  - destruct v. cbn in *. subst. by rewrite app_nil_r.
  - cbn [app length] in Hno. rewrite no_header_before_cons in Hno.
    apply andb_true_iff in Hno as [Hg Hno]. apply negb_true_iff in Hg.
    cbn [app]. rewrite asm_bytes_skip; try done.
    + rewrite IH; try done. cbn [v_log v_session v_samples fmap list_fmap].
      by rewrite <- app_assoc.
    + cbn [length]. rewrite length_app. lia.
Qed.

(** ** The assembler: claims *)

Lemma feed_bytes_app (a b : list Z) (w : world) :
  feed_bytes (a ++ b) w =
  match feed_bytes a w with
  | Ok (_, w1) => feed_bytes b w1
  | Undef u => Undef u
  end.
Proof.
  revert w. induction a as [|x a IH]; intros w; [done|].
  cbn [app feed_bytes]. munfold.
  destruct (serial_receive [x] w) as [[[] w0]|]; [|done].
  destruct (recv_poll_data w0) as [[[] w1]|]; [|done].
  apply IH.
Qed.

Lemma decode_channels_counts (data : list Z)
    (table : list rdtech_um_channel) (chs : list sr_channel) (i : nat)
    (pk : list sr_datafeed_analog) (lg : list log_entry) :
  decode_channels data table i chs = Ok (pk, lg) ->
  length pk = length chs /\ dispatches lg = 0%nat /\ skipped lg = [].
Proof.
  revert i pk lg. induction chs as [|ch chs IH]; intros i pk lg Hdec.
  - cbn in Hdec. by injection Hdec as <- <-.
  - cbn [decode_channels] in Hdec.
    destruct (table !! i) as [m|]; [|done].
    destruct (sample_of data m) as [v|]; [|done]. cbn [res_bind] in Hdec.
    destruct (decode_channels data table (S i) chs) as [[pk' lg']|] eqn:Hr;
      [|done].
    cbn [res_bind fst snd] in Hdec. injection Hdec as <- <-.
    destruct (IH _ _ _ Hr) as (Hpk & Hd & Hs).
    cbn [length]. rewrite dispatches_app, skipped_app, Hpk, Hd, Hs.
    unfold sample_log. by destruct (supported_type _).
Qed.

Lemma dispatches_warn (bs : list Z) :
  dispatches (Warn_poll_header <$> bs) = 0%nat.
Proof. induction bs; [done|]. cbn. done. Qed.

Lemma skipped_warn (bs : list Z) : skipped (Warn_poll_header <$> bs) = bs.
Proof. induction bs as [|b bs IH]; [done|]. cbn. by rewrite IH. Qed.

Lemma world_ok_empty_view (w : world) :
  buflen (priv w) = 0 ->
  view_of w
  = AsmView [] (log w) (session w) (samples_read (limits (priv w))).
Proof. intros H. unfold view_of, content. by rewrite H. Qed.

Lemma is_frame_parts (p : rdtech_um_profile) (f : list Z) :
  is_frame p f = true ->
  Z.of_nat (length f) = poll_len p
  /\ header_at p f 0 = true /\ end_matches p f = true.
Proof.
  unfold is_frame. intros H.
  apply andb_true_iff in H as [H He]. apply andb_true_iff in H as [Hl Hh].
  apply Z.eqb_eq in Hl. done.
Qed.

(** A frame that enters an empty buffer is dispatched. *)
Lemma asm_bytes_frame (p : rdtech_um_profile) (chs : list sr_channel)
    (f : list Z) (v : asm_view) (pk : list sr_datafeed_analog)
    (lg : list log_entry) :
  v_content v = [] -> 0 < poll_len p -> is_frame p f = true ->
  decode_channels f (channels p) 0 chs = Ok (pk, lg) ->
  asm_bytes p chs v f
  = AsmView [] (v_log v ++ Spew_poll_packet (poll_len p) :: lg)
      (v_session v ++ pk) (v_samples v + 1).
Proof.
  intros Hc Hpos Hf Hdec.
  destruct (is_frame_parts p f Hf) as (Hlen & Hhd & Hend).
  rewrite asm_bytes_full by done.
  unfold asm_complete. cbn [v_content v_log v_session v_samples].
  by rewrite Hend, Hdec.
Qed.

(** The frame is decoded from its own bytes, whatever else the array of
    the buffer holds. *)
Lemma world_ok_decode_frame (w : world) (f : list Z) :
  world_ok w -> Z.of_nat (length f) = poll_len (profile (priv w)) ->
  exists pk lg,
    decode_channels f (channels (profile (priv w))) 0 (sdi_channels w)
    = Ok (pk, lg).
Proof.
  intros [Hwf Hfit Hbuf Hn] Hlen.
  destruct (decode_channels_ok f (profile (priv w)) (sdi_channels w)
              (sdi_channels w) 0 Hfit) as (pk & lg & Hdec & _); [lia..|].
  by exists pk, lg.
Qed.

(** C9: a call of [recv_poll_data] on a device instance whose fill length
    is in [0, poll_len) returns with the fill length in [0, poll_len)
    again: a full buffer is dispatched or discarded, and emptied, inside
    the call.  The receive loop itself leaves the fill length in
    [0, poll_len]. *)
Theorem recv_poll_data_keeps_buflen_bounds (w : world) :
  wf_profile (profile (priv w)) = true ->
  channels_fit (profile (priv w)) (sdi_channels w) = true ->
  Z.of_nat (length (buf (priv w))) = RDTECH_UM_BUFSIZE ->
  0 <= buflen (priv w) < poll_len (profile (priv w)) ->
  (exists r w1,
     recv_poll_loop (profile (priv w)) (rx (conn w)) w = Ok (r, w1)
     /\ 0 <= buflen (priv w1) <= poll_len (profile (priv w)))
  /\ exists w',
       recv_poll_data w = Ok (tt, w')
       /\ profile (priv w') = profile (priv w)
       /\ 0 <= buflen (priv w') < poll_len (profile (priv w'))
       /\ world_ok w'.
Proof.
  intros Hwf Hfit Hbuf Hn.
  assert (world_ok w) as Hok by done.
  split.
  - destruct (recv_poll_loop_pushes _ (rx (conn w)) w
                (world_ok_asm_inv w Hok) eq_refl)
      as (r & w1 & used & Hloop & Hinv1 & _).
    exists r, w1. split; [done|]. apply Hinv1.
  - destruct (recv_poll_data_spec w Hok)
      as (w' & used & Hrun & Hok' & Hrest' & _).
    exists w'. split; [done|].
    split; [by destruct (rest_of_fields _ _ Hrest')|].
    split; [apply Hok'|done].
Qed.


(** A frame and three more bytes are in the queue: the call dispatches the
    frame and returns with an empty buffer. *)
Lemma recv_poll_data_keeps_buflen_bounds_witness :
  exists w',
    recv_poll_data
      (upd_conn (set_rx (um24c_frame ++ [1; 2; 3])) (um24c_world None 0 0))
    = Ok (tt, w')
    /\ 0 <= buflen (priv w') < poll_len (profile (priv w')).
Proof.
  destruct (recv_poll_data_keeps_buflen_bounds
              (upd_conn (set_rx (um24c_frame ++ [1; 2; 3]))
                 (um24c_world None 0 0)))
    as (_ & w' & Hrun & _ & Hn & _);
    [reflexivity|reflexivity|reflexivity|vm_compute; by split|].
  exists w'. split; [exact Hrun|exact Hn].
Defined.

(** C1: the device instance has an empty buffer, and a stream arrives one
    byte at a time that ends with a well-formed frame and does not pass the
    header check at any place in front of the frame.  Then
    [handle_poll_data] is called once: the packets sent are those decoded
    from the bytes of the frame, the count of decoded frames grows by one,
    and the fill length is zero afterwards. *)
Theorem frame_dispatched_once (w : world) (garbage f : list Z) :
  world_ok w -> rx (conn w) = [] -> buflen (priv w) = 0 ->
  is_frame (profile (priv w)) f = true ->
  no_header_before (profile (priv w)) (garbage ++ f) (length garbage) = true ->
  exists w' pk lg,
    feed_bytes (garbage ++ f) w = Ok (tt, w')
    /\ decode_channels f (channels (profile (priv w))) 0 (sdi_channels w)
       = Ok (pk, lg)
    /\ session w' = session w ++ pk
    /\ log w'
       = log w ++ (Warn_poll_header <$> garbage)
         ++ Spew_poll_packet (poll_len (profile (priv w))) :: lg
    /\ dispatches (log w') = S (dispatches (log w))
    /\ samples_read (limits (priv w'))
       = samples_read (limits (priv w)) + 1
    /\ buflen (priv w') = 0.
Proof.
  intros Hok Hrx Hempty Hf Hno.
  set (p := profile (priv w)) in *.
  destruct (is_frame_parts p f Hf) as (Hlen & Hhd & Hend).
  destruct (world_ok_decode_frame w f Hok Hlen) as (pk & lg & Hdec).
  destruct (feed_bytes_asm_bytes (garbage ++ f) w Hok Hrx)
    as (w' & Hrun & Hok' & Hrest' & Hrx' & Hview').
  fold p in Hview', Hdec.
  pose proof (ok_profile w Hok) as Hwf. fold p in Hwf.
  pose proof (ok_buflen w Hok) as Hn. fold p in Hn.
  destruct (wf_profile_bounds p Hwf) as (Hpl & Hs0 & He0 & Hsum & _).
  rewrite (world_ok_empty_view w) in Hview' by done.
  rewrite asm_bytes_resync in Hview' by (done || lia).
  rewrite (asm_bytes_frame p _ f _ pk lg) in Hview' by (done || lia).
  cbn [v_log v_session v_samples] in Hview'.
  unfold view_of in Hview'. injection Hview' as Hc Hl Hs Hsm.
  exists w', pk, lg. split; [done|]. split; [done|]. split; [done|].
  split; [by rewrite Hl, <- app_assoc|].
  destruct (decode_channels_counts _ _ _ _ _ _ Hdec) as (_ & Hd & _).
  split.
  { rewrite Hl, !dispatches_app, dispatches_warn. cbn. rewrite Hd. lia. }
  split; [done|].
  pose proof (asm_inv_content_length _ w' (world_ok_asm_inv w' Hok')) as Hcl.
  rewrite Hc in Hcl. cbn in Hcl. lia.
Qed.

(** Two bytes of noise, then the frame. *)
Lemma frame_dispatched_once_witness :
  exists w',
    feed_bytes ([0x12; 0x09] ++ um24c_frame) (um24c_world None 0 0)
    = Ok (tt, w')
    /\ an_data <$> session w'
       = [F32.lit 3 2; F32.lit 1 10; F32.zero; F32.zero; F32.lit 25 1;
          F32.lit 1 1]
    /\ dispatches (log w') = 1%nat
    /\ buflen (priv w') = 0.
Proof.
  destruct (frame_dispatched_once (um24c_world None 0 0) [0x12; 0x09]
              um24c_frame)
    as (w' & pk & lg & Hrun & Hdec & Hs & Hl & Hd & _ & Hb);
    [split; vm_compute; (reflexivity || by split)|reflexivity|reflexivity
    |vm_compute; reflexivity|vm_compute; reflexivity|].
  exists w'. split; [exact Hrun|]. split; [|split; [exact Hd|exact Hb]].
  rewrite Hs. vm_compute in Hdec. injection Hdec as <- _.
  vm_compute. reflexivity.
Defined.

(** C1, as the spec states it, fails on a stream in which the bytes of the
    start marker occur in front of the frame: the assembler takes them for
    the start of a frame, finds no end marker 130 bytes later, discards
    what it has, and the frame is never dispatched. *)
Lemma frame_after_stray_marker_is_lost :
  is_frame rdtech_um24c_profile um24c_frame = true
  /\ exists w',
       feed_bytes ([0x09; 0x63; 0x00] ++ um24c_frame) (um24c_world None 0 0)
       = Ok (tt, w')
       /\ dispatches (log w') = 0%nat
       /\ session w' = [].
Proof.
  split; [vm_compute; reflexivity|].
  eexists. split; [vm_compute; reflexivity|]. split; reflexivity.
Qed.


(** C2: the device instance has an empty buffer, and [garbage] arrives in
    front of the start marker, one byte at a time, such that the stream
    does not pass the header check at any place inside the garbage.  Then
    the assembler skips exactly the bytes of the garbage, in their order
    and each with its own message, and holds the marker afterwards; the
    bytes that follow the marker are appended and none is skipped.  Each
    skip drops the oldest byte of the buffer and leaves the fill length as
    it was before the byte arrived. *)
Theorem resync_skips_garbage (w : world) (garbage rest st : list Z) :
  world_ok w -> rx (conn w) = [] -> buflen (priv w) = 0 ->
  poll_start (profile (priv w)) = Some st ->
  poll_start_len (profile (priv w)) < poll_len (profile (priv w)) ->
  no_header_before (profile (priv w))
    (garbage ++ take (Z.to_nat (poll_start_len (profile (priv w)))) st)
    (length garbage) = true ->
  Z.of_nat (length rest)
  < poll_len (profile (priv w)) - poll_start_len (profile (priv w)) ->
  (exists w1 w2,
     feed_bytes
       (garbage ++ take (Z.to_nat (poll_start_len (profile (priv w)))) st) w
     = Ok (tt, w1)
     /\ log w1 = log w ++ (Warn_poll_header <$> garbage)
     /\ skipped (log w1) = skipped (log w) ++ garbage
     /\ content w1 = take (Z.to_nat (poll_start_len (profile (priv w)))) st
     /\ feed_bytes rest w1 = Ok (tt, w2)
     /\ content w2
        = take (Z.to_nat (poll_start_len (profile (priv w)))) st ++ rest
     /\ log w2 = log w1)
  /\ (forall w0 b,
        world_ok w0 -> rx (conn w0) = [] ->
        illegal_header (profile (priv w0)) (content w0 ++ [b]) = true ->
        exists w0',
          (serial_receive [b];; recv_poll_data) w0 = Ok (tt, w0')
          /\ content w0' = tail (content w0 ++ [b])
          /\ buflen (priv w0') = buflen (priv w0)
          /\ log w0'
             = log w0 ++ [Warn_poll_header (hd 0 (content w0 ++ [b]))]).
Proof.
  intros Hok Hrx Hempty Hst Hshort Hno Hrest.
  set (p := profile (priv w)) in *.
  set (marker := take (Z.to_nat (poll_start_len p)) st) in *.
  pose proof (ok_profile w Hok) as Hwf. fold p in Hwf.
  destruct (wf_profile_bounds p Hwf) as (Hpl & Hs0 & He0 & Hsum & Hstl & _).
  specialize (Hstl st Hst).
  assert (Z.of_nat (length marker) = poll_start_len p) as Hml.
  { unfold marker. rewrite length_take. lia. }
  assert (forall c, Z.of_nat (length c) <> poll_start_len p ->
                    illegal_header p c = false) as Hother.
  { intros c Hne. destruct (illegal_header p c) eqn:E; [|done].
    by apply illegal_header_length in E. }
  assert (illegal_header p marker = false) as Hlegal.
  { unfold illegal_header. rewrite Hst. fold marker.
    rewrite bool_decide_eq_true_2 by done. apply andb_false_r. }
  split.
  - destruct (feed_bytes_asm_bytes (garbage ++ marker) w Hok Hrx)
      as (w1 & Hrun1 & Hok1 & Hrest1 & Hrx1 & Hview1).
    destruct (feed_bytes_asm_bytes rest w1 Hok1 Hrx1)
      as (w2 & Hrun2 & Hok2 & Hrest2 & Hrx2 & Hview2).
    destruct (rest_of_fields _ _ Hrest1) as [Hp1 Hch1].
    fold p in Hview1, Hp1. rewrite Hp1 in Hview2.
    rewrite (world_ok_empty_view w) in Hview1 by done.
    rewrite asm_bytes_resync in Hview1 by (done || lia).
    rewrite asm_bytes_fill in Hview1; cbn [v_content v_log v_session
                                              v_samples app] in *.
    2:{ lia. }
    2:{ intros k Hk. destruct (decide (k = length marker)) as [->|Hne].
        - by rewrite take_ge by done.
        - apply Hother. rewrite length_take. lia. }
    rewrite Hview1 in Hview2.
    rewrite asm_bytes_fill in Hview2; cbn [v_content v_log v_session
                                              v_samples app] in *.
    2:{ rewrite length_app. lia. }
    2:{ intros k Hk. apply Hother. rewrite length_take, length_app in *.
        lia. }
    unfold view_of in Hview1, Hview2.
    injection Hview1 as Hc1 Hl1 _ _. injection Hview2 as Hc2 Hl2 _ _.
    exists w1, w2. split; [done|]. split; [done|].
    split; [by rewrite Hl1, skipped_app, skipped_warn|].
    split; [done|]. split; [done|]. split; [done|]. congruence.
  - intros w0 b Hok0 Hrx0 Hill.
    destruct (recv_poll_data_asm_byte b w0 Hok0 Hrx0)
      as (w0' & Hrun & Hok' & Hrest' & Hrx' & Hview').
    pose proof (asm_inv_content_length _ w0 (world_ok_asm_inv w0 Hok0))
      as Hcl.
    pose proof (asm_inv_content_length _ w0' (world_ok_asm_inv w0' Hok'))
      as Hcl'.
    pose proof (ok_buflen w0 Hok0) as Hn0.
    unfold asm_byte, asm_push in Hview'.
    change (v_content (view_of w0)) with (content w0) in Hview'.
    rewrite Hill in Hview'. cbn [v_content] in Hview'.
    assert (length (tail (content w0 ++ [b])) = length (content w0)) as Htl.
    { destruct (content w0); cbn; [done|].
      rewrite length_app. cbn. lia. }
    rewrite Htl in Hview'.
    rewrite (proj2 (Z.ltb_lt _ _)) in Hview' by lia.
    unfold view_of in Hview'. injection Hview' as Hc Hl _ _.
    exists w0'. split; [done|]. split; [done|].
    split; [|done]. rewrite Hc in Hcl'. lia.
Qed.

(** Three bytes of noise in front of the marker of a UM24C, and four bytes
    behind it. *)
Lemma resync_skips_garbage_witness :
  exists w1 w2,
    feed_bytes ([0x63; 0x09; 0x09] ++ [0x09; 0x63]) (um24c_world None 0 0)
    = Ok (tt, w1)
    /\ skipped (log w1) = [0x63; 0x09; 0x09]
    /\ content w1 = [0x09; 0x63]
    /\ feed_bytes [1; 2; 3; 4] w1 = Ok (tt, w2)
    /\ content w2 = [0x09; 0x63; 1; 2; 3; 4]
    /\ log w2 = log w1.
Proof.
  destruct (resync_skips_garbage (um24c_world None 0 0) [0x63; 0x09; 0x09]
              [1; 2; 3; 4] [0x09; 0x63; 0])
    as ((w1 & w2 & H1 & _ & H2 & H3 & H4 & H5 & H6) & _);
    [split; vm_compute; (reflexivity || by split)|reflexivity|reflexivity
    |reflexivity|vm_compute; reflexivity|vm_compute; reflexivity
    |vm_compute; reflexivity|].
  exists w1, w2.
  split; [exact H1|]. split; [exact H2|]. split; [exact H3|].
  split; [exact H4|]. split; [exact H5|exact H6].
Defined.

(** C2, as the spec states it, fails for garbage in which the bytes of the
    start marker occur: the assembler takes them for the start of a frame
    and skips nothing, although three bytes precede the marker. *)
Lemma garbage_with_marker_not_skipped :
  exists w1,
    feed_bytes ([0x09; 0x63; 0x00] ++ [0x09; 0x63]) (um24c_world None 0 0)
    = Ok (tt, w1)
    /\ skipped (log w1) = []
    /\ content w1 = [0x09; 0x63; 0x00; 0x09; 0x63].
Proof.
  eexists. split; [vm_compute; reflexivity|]. split; reflexivity.
Qed.

(** C5: the device instance has an empty buffer, and a stream of frame
    length arrives that passes the header check but does not end with the
    end marker.  When its last byte arrives the buffer is discarded as a
    whole: the fill length is zero, one "illegal end marker" message is
    logged, no byte is skipped and nothing is dispatched.  What arrives
    next is assembled as from an empty buffer; a well-formed frame that
    follows at once is dispatched, and it alone. *)
Theorem end_marker_mismatch_discards_buffer (w : world) (bad f : list Z) :
  world_ok w -> rx (conn w) = [] -> buflen (priv w) = 0 ->
  Z.of_nat (length bad) = poll_len (profile (priv w)) ->
  header_at (profile (priv w)) bad 0 = true ->
  end_matches (profile (priv w)) bad = false ->
  is_frame (profile (priv w)) f = true ->
  exists w1 w2 pk lg,
    feed_bytes bad w = Ok (tt, w1)
    /\ buflen (priv w1) = 0
    /\ log w1 = log w ++ [Warn_end_marker]
    /\ session w1 = session w
    /\ samples_read (limits (priv w1)) = samples_read (limits (priv w))
    /\ (forall s, exists w',
          feed_bytes s w1 = Ok (tt, w')
          /\ view_of w'
             = asm_bytes (profile (priv w)) (sdi_channels w)
                 (AsmView [] (log w1) (session w1)
                    (samples_read (limits (priv w1)))) s)
    /\ feed_bytes (bad ++ f) w = Ok (tt, w2)
    /\ decode_channels f (channels (profile (priv w))) 0 (sdi_channels w)
       = Ok (pk, lg)
    /\ session w2 = session w ++ pk
    /\ log w2
       = log w ++ Warn_end_marker
         :: Spew_poll_packet (poll_len (profile (priv w))) :: lg
    /\ dispatches (log w2) = S (dispatches (log w))
    /\ skipped (log w2) = skipped (log w)
    /\ buflen (priv w2) = 0.
Proof.
  intros Hok Hrx Hempty Hlen Hhd Hend Hf.
  set (p := profile (priv w)) in *.
  pose proof (ok_buflen w Hok) as Hn. fold p in Hn.
  destruct (is_frame_parts p f Hf) as (Hflen & _).
  destruct (world_ok_decode_frame w f Hok Hflen) as (pk & lg & Hdec).
  fold p in Hdec.
  destruct (decode_channels_counts _ _ _ _ _ _ Hdec) as (_ & Hd & Hsk).
  destruct (feed_bytes_asm_bytes bad w Hok Hrx)
    as (w1 & Hrun1 & Hok1 & Hrest1 & Hrx1 & Hview1).
  destruct (rest_of_fields _ _ Hrest1) as [Hp1 Hch1].
  fold p in Hview1, Hp1.
  rewrite (world_ok_empty_view w) in Hview1 by done.
  rewrite asm_bytes_full in Hview1 by (done || lia).
  unfold asm_complete in Hview1.
  cbn [v_content v_log v_session v_samples] in Hview1.
  rewrite Hend in Hview1.
  pose proof (asm_inv_content_length _ w1 (world_ok_asm_inv w1 Hok1)) as Hcl1.
  assert (buflen (priv w1) = 0) as Hempty1.
  { unfold view_of in Hview1. injection Hview1 as Hc _ _ _.
    rewrite Hc in Hcl1. cbn in Hcl1. lia. }
  destruct (feed_bytes_asm_bytes f w1 Hok1 Hrx1)
    as (w2 & Hrun2 & Hok2 & Hrest2 & Hrx2 & Hview2).
  rewrite Hp1, Hch1, Hview1 in Hview2.
  rewrite (asm_bytes_frame p _ f _ pk lg) in Hview2 by (done || lia).
  cbn [v_log v_session v_samples] in Hview2.
  pose proof (asm_inv_content_length _ w2 (world_ok_asm_inv w2 Hok2)) as Hcl2.
  unfold view_of in Hview1, Hview2.
  injection Hview1 as Hc1 Hl1 Hs1 Hsm1. injection Hview2 as Hc2 Hl2 Hs2 Hsm2.
  exists w1, w2, pk, lg.
  split; [done|]. split; [done|]. split; [done|]. split; [done|].
  split; [done|].
  split.
  { intros s.
    destruct (feed_bytes_asm_bytes s w1 Hok1 Hrx1)
      as (w' & Hrun' & _ & _ & _ & Hview').
    exists w'. split; [done|].
    rewrite Hview', Hp1, Hch1. f_equal.
    by apply world_ok_empty_view. }
  split; [by rewrite feed_bytes_app, Hrun1|]. split; [done|].
  split; [done|]. split; [by rewrite Hl2, <- app_assoc|].
  split.
  { rewrite Hl2, !dispatches_app. cbn. rewrite Hd. lia. }
  split.
  { rewrite Hl2, !skipped_app. cbn. by rewrite Hsk, !app_nil_r. }
  rewrite Hc2 in Hcl2. cbn in Hcl2. lia.
Qed.

(** A frame with a damaged last byte, and the intact frame behind it. *)
Lemma end_marker_mismatch_discards_buffer_witness :
  exists w1 w2,
    feed_bytes um24c_bad_frame (um24c_world None 0 0) = Ok (tt, w1)
    /\ buflen (priv w1) = 0
    /\ log w1 = [Warn_end_marker]
    /\ feed_bytes (um24c_bad_frame ++ um24c_frame) (um24c_world None 0 0)
       = Ok (tt, w2)
    /\ log w2 = [Warn_end_marker; Spew_poll_packet 130]
    /\ length (session w2) = 6%nat.
Proof.
  destruct (end_marker_mismatch_discards_buffer (um24c_world None 0 0)
              um24c_bad_frame um24c_frame)
    as (w1 & w2 & pk & lg & H1 & H2 & H3 & _ & _ & _ & H4 & H5 & H6 & H7 & _);
    [split; vm_compute; (reflexivity || by split)|reflexivity|reflexivity
    |vm_compute; reflexivity|vm_compute; reflexivity|vm_compute; reflexivity
    |vm_compute; reflexivity|].
  exists w1, w2. split; [exact H1|]. split; [exact H2|]. split; [exact H3|].
  split; [exact H4|].
  vm_compute in H5. injection H5 as <- <-.
  split; [exact H7|]. rewrite H6. reflexivity.
Defined.

(** ** The limits guard *)

Lemma asm_push_counts (p : rdtech_um_profile) (v : asm_view) (b : Z) :
  v_samples (asm_push p v b) = v_samples v
  /\ v_session (asm_push p v b) = v_session v
  /\ dispatches (v_log (asm_push p v b)) = dispatches (v_log v).
Proof.
  unfold asm_push. destruct (illegal_header _ _); cbn; [|done].
  rewrite dispatches_app. cbn. by rewrite Nat.add_0_r.
Qed.

Lemma asm_pushes_counts (p : rdtech_um_profile) (bs : list Z) (v : asm_view) :
  v_samples (fold_left (asm_push p) bs v) = v_samples v
  /\ v_session (fold_left (asm_push p) bs v) = v_session v
  /\ dispatches (v_log (fold_left (asm_push p) bs v)) = dispatches (v_log v).
Proof.
  revert v. induction bs as [|b bs IH]; intros v; [done|].
  cbn [fold_left]. destruct (IH (asm_push p v b)) as (-> & -> & ->).
  apply asm_push_counts.
Qed.

(** The completion check decodes one frame, or none. *)
Lemma asm_complete_counts (p : rdtech_um_profile) (chs : list sr_channel)
    (v : asm_view) :
  exists d : bool,
    v_samples (asm_complete p chs v) = v_samples v + (if d then 1 else 0)
    /\ dispatches (v_log (asm_complete p chs v))
       = (dispatches (v_log v) + (if d then 1 else 0))%nat
    /\ length (v_session (asm_complete p chs v))
       = (length (v_session v) + (if d then length chs else 0))%nat.
Proof.
  unfold asm_complete. destruct (end_matches p (v_content v)).
  - destruct (decode_channels _ _ _ _) as [[pk lg]|] eqn:Hdec.
    + destruct (decode_channels_counts _ _ _ _ _ _ Hdec) as (Hpk & Hd & _).
      exists true. cbn. rewrite dispatches_app, length_app. cbn.
      rewrite Hd, Hpk. repeat split; lia.
    + exists false. repeat split; lia.
  - exists false. cbn. rewrite dispatches_app. cbn. repeat split; lia.
Qed.

(** A call of [recv_poll_data] decodes at most one frame: it counts one
    sample, logs one dispatch and sends one packet for each channel, or
    none of these. *)
Lemma recv_poll_data_counts (w : world) :
  world_ok w ->
  exists w' (d : bool),
    recv_poll_data w = Ok (tt, w')
    /\ world_ok w'
    /\ rest_of w' = rest_of w
    /\ samples_read (limits (priv w'))
       = samples_read (limits (priv w)) + (if d then 1 else 0)
    /\ dispatches (log w')
       = (dispatches (log w) + (if d then 1 else 0))%nat
    /\ length (session w')
       = (length (session w)
          + (if d then length (sdi_channels w) else 0))%nat.
Proof.
  intros Hok.
  destruct (recv_poll_data_spec w Hok)
    as (w' & used & Hrun & Hok' & Hrest' & _ & Hcases).
  cbv zeta in Hcases.
  destruct (asm_pushes_counts (profile (priv w)) used (view_of w))
    as (Hs & Hse & Hd).
  set (v1 := fold_left (asm_push (profile (priv w))) used (view_of w)) in *.
  destruct Hcases as [(_ & _ & Hv)|(_ & Hv)].
  - exists w', false. split; [done|]. split; [done|]. split; [done|].
    change (samples_read (limits (priv w'))) with (v_samples (view_of w')).
    change (log w') with (v_log (view_of w')).
    change (session w') with (v_session (view_of w')).
    rewrite Hv, Hs, Hse, Hd. cbn. repeat split; lia.
  - destruct (asm_complete_counts (profile (priv w)) (sdi_channels w) v1)
      as (d & Hcs & Hcd & Hcse).
    exists w', d. split; [done|]. split; [done|]. split; [done|].
    change (samples_read (limits (priv w'))) with (v_samples (view_of w')).
    change (log w') with (v_log (view_of w')).
    change (session w') with (v_session (view_of w')).
    rewrite Hv, Hcs, Hcd, Hcse, Hs, Hse, Hd. by cbn.
Qed.

Lemma sr_sw_limits_check_samples (cap : Z) (w : world) :
  limit_samples (limits (priv w)) = Some cap ->
  limit_msec (limits (priv w)) = None ->
  sr_sw_limits_check w = Ok (cap <=? samples_read (limits (priv w)), w).
Proof.
  intros Hs Hm. unfold sr_sw_limits_check. munfold. rewrite Hs, Hm.
  by destruct (cap <=? _).
Qed.

Lemma rdtech_um_receive_data_stop (revents : Z) (w w1 : world) :
  received revents w = Ok (tt, w1) ->
  sr_sw_limits_check w1 = Ok (true, w1) ->
  rdtech_um_receive_data revents w = Ok (TRUE, add_stop w1).
Proof.
  intros Hrecv Hcheck. unfold rdtech_um_receive_data.
  fold (received revents).
  unfold mbind at 1. unfold M_bind at 1. rewrite Hrecv.
  unfold mbind at 1. unfold M_bind at 1. rewrite Hcheck.
  reflexivity.
Qed.

(** A call of [rdtech_um_receive_data] under a sample cap: at most one
    frame is decoded, and the stop signal is raised in this call exactly
    when the count has reached the cap. *)
Lemma rdtech_um_receive_data_counts (cap revents : Z) (w : world) :
  world_ok w ->
  limit_samples (limits (priv w)) = Some cap ->
  limit_msec (limits (priv w)) = None ->
  exists w' (d : bool),
    rdtech_um_receive_data revents w = Ok (TRUE, w')
    /\ world_ok w'
    /\ sdi_channels w' = sdi_channels w
    /\ limit_samples (limits (priv w')) = Some cap
    /\ limit_msec (limits (priv w')) = None
    /\ samples_read (limits (priv w'))
       = samples_read (limits (priv w)) + (if d then 1 else 0)
    /\ dispatches (log w')
       = (dispatches (log w) + (if d then 1 else 0))%nat
    /\ length (session w')
       = (length (session w)
          + (if d then length (sdi_channels w) else 0))%nat
    /\ stops w'
       = if cap <=? samples_read (limits (priv w')) then S (stops w)
         else stops w.
Proof.
  intros Hok Hcap Hmsec.
  assert (exists w1 (d : bool),
    received revents w = Ok (tt, w1)
    /\ world_ok w1
    /\ rest_of w1 = rest_of w
    /\ samples_read (limits (priv w1))
       = samples_read (limits (priv w)) + (if d then 1 else 0)
    /\ dispatches (log w1) = (dispatches (log w) + (if d then 1 else 0))%nat
    /\ length (session w1)
       = (length (session w) + (if d then length (sdi_channels w) else 0))%nat)
    as (w1 & d & Hrecv & Hok1 & Hrest1 & Hs1 & Hd1 & Hse1).
  { unfold received. destruct (revents =? G_IO_IN).
    - apply recv_poll_data_counts, Hok.
    - exists w, false. cbn. repeat split; (done || lia || apply Hok). }
  assert (sdi_channels w1 = sdi_channels w
          /\ limit_samples (limits (priv w1)) = Some cap
          /\ limit_msec (limits (priv w1)) = None
          /\ stops w1 = stops w) as (Hch1 & Hcap1 & Hmsec1 & Hst1).
  { unfold rest_of in Hrest1. injection Hrest1 as _ Hls Hlm _ _ _ _ Hch Hst _.
    repeat split; congruence. }
  pose proof (sr_sw_limits_check_samples cap w1 Hcap1 Hmsec1) as Hcheck.
  destruct (cap <=? samples_read (limits (priv w1))) eqn:Hreach.
  - exists (add_stop w1), d.
    split; [by apply rdtech_um_receive_data_stop|].
    split; [by destruct Hok1|].
    cbn [add_stop sdi_channels priv log session stops].
    rewrite Hreach. repeat split; congruence.
  - rewrite (rdtech_um_receive_data_cadence revents w w1 Hrecv Hcheck).
    assert (forall w2,
      priv w2 = priv w1 \/
      (exists t, priv w2 = set_cmd_sent_at t (priv w1)) ->
      sdi_channels w2 = sdi_channels w1 -> session w2 = session w1 ->
      stops w2 = stops w1 -> dispatches (log w2) = dispatches (log w1) ->
      exists w' d',
        Ok (TRUE, w2) = Ok (TRUE, w')
        /\ world_ok w'
        /\ sdi_channels w' = sdi_channels w
        /\ limit_samples (limits (priv w')) = Some cap
        /\ limit_msec (limits (priv w')) = None
        /\ samples_read (limits (priv w'))
           = samples_read (limits (priv w)) + (if d' : bool then 1 else 0)
        /\ dispatches (log w')
           = (dispatches (log w) + (if d' then 1 else 0))%nat
        /\ length (session w')
           = (length (session w)
              + (if d' then length (sdi_channels w) else 0))%nat
        /\ stops w'
           = if cap <=? samples_read (limits (priv w')) then S (stops w)
             else stops w) as Hfin.
    { intros w2 Hpriv Hch Hse Hst Hdi. exists w2, d.
      assert (profile (priv w2) = profile (priv w1)
              /\ limits (priv w2) = limits (priv w1)
              /\ buf (priv w2) = buf (priv w1)
              /\ buflen (priv w2) = buflen (priv w1))
        as (Hp & Hl & Hb & Hn).
      { destruct Hpriv as [->|[t ->]]; by repeat split. }
      split; [done|].
      split.
      { destruct Hok1 as [H1 H2 H3 H4].
        split; rewrite ?Hp, ?Hch, ?Hb, ?Hn; done. }
      rewrite Hl, Hreach, Hch, Hse, Hst, Hdi.
      repeat split; congruence. }
    destruct (poll_period (profile (priv w1)) <? _).
    + destruct (Z.lt_ge_cases (wr_status (conn (tick_clock w1))) 0)
        as [Hlt|Hge].
      * rewrite rdtech_um_poll_failure by done.
        apply Hfin; try done; [by left|].
        cbn. rewrite dispatches_app. cbn. lia.
      * rewrite rdtech_um_poll_success by done.
        apply Hfin; try done. right. by eexists.
    + apply Hfin; try done. by left.
Qed.

(** The acquisition under a sample cap, over any sequence of events. *)
Lemma session_run_counts (cap : Z) (evs : list io_event) (w : world) :
  world_ok w ->
  limit_samples (limits (priv w)) = Some cap ->
  limit_msec (limits (priv w)) = None ->
  samples_read (limits (priv w)) <= cap ->
  stops w = (if cap <=? samples_read (limits (priv w)) then 1%nat else 0%nat) ->
  exists w' (n : nat),
    session_run evs w = Ok (tt, w')
    /\ dispatches (log w') = (dispatches (log w) + n)%nat
    /\ samples_read (limits (priv w'))
       = samples_read (limits (priv w)) + Z.of_nat n
    /\ length (session w')
       = (length (session w) + n * length (sdi_channels w))%nat
    /\ samples_read (limits (priv w')) <= cap
    /\ stops w'
       = (if cap <=? samples_read (limits (priv w')) then 1%nat else 0%nat).
Proof.
  revert w. induction evs as [|e evs IH]; intros w Hok Hcap Hmsec Hle Hst.
  { exists w, 0%nat. cbn. repeat split; (done || lia). }
  cbn [session_run]. munfold. rewrite Hst.
  destruct (cap <=? samples_read (limits (priv w))) eqn:Hreach.
  { exists w, 0%nat. rewrite Hreach. cbn. repeat split; (done || lia). }
  rewrite serial_receive_run.
  set (w0 := upd_conn (fun s => set_rx (rx s ++ ev_arrived e) s) w).
  assert (world_ok w0) as Hok0 by (by destruct Hok).
  destruct (rdtech_um_receive_data_counts cap (ev_revents e) w0 Hok0 Hcap
              Hmsec)
    as (w1 & d & -> & Hok1 & Hch1 & Hcap1 & Hmsec1 & Hs1 & Hd1 & Hse1 & Hst1).
  change (samples_read (limits (priv w0)))
    with (samples_read (limits (priv w))) in Hs1.
  change (dispatches (log w0)) with (dispatches (log w)) in Hd1.
  change (length (session w0)) with (length (session w)) in Hse1.
  change (sdi_channels w0) with (sdi_channels w) in Hse1, Hch1.
  change (stops w0) with (stops w) in Hst1.
  rewrite Hst in Hst1.
  destruct (IH w1 Hok1 Hcap1 Hmsec1) as (w' & n & Hrun & Hd' & Hs' & Hse' & Hle' & Hst').
  { destruct d; lia. }
  { rewrite Hst1. by destruct (cap <=? _). }
  exists w', ((if d then 1 else 0) + n)%nat.
  split; [done|]. rewrite Hd', Hs', Hse', Hd1, Hs1, Hse1, Hch1.
  split; [lia|]. split; [destruct d; lia|].
  split; [destruct d; lia|]. split; [lia|].
  rewrite Hst', Hs', Hs1. done.
Qed.

(** C7: the count of samples grows by one for each decoded frame, which
    sends one packet for every channel; under a sample cap the stop signal
    is raised once the count has reached the cap, not before, and not
    again: after any sequence of events the number of stop signals is 0
    while the count is below the cap and 1 when it has reached it, and the
    count never passes the cap. *)
Theorem stop_raised_once_at_cap (cap : Z) (evs : list io_event) (w : world) :
  world_ok w ->
  limit_samples (limits (priv w)) = Some cap ->
  limit_msec (limits (priv w)) = None ->
  samples_read (limits (priv w)) < cap ->
  stops w = 0%nat ->
  exists w' (n : nat),
    session_run evs w = Ok (tt, w')
    /\ dispatches (log w') = (dispatches (log w) + n)%nat
    /\ samples_read (limits (priv w'))
       = samples_read (limits (priv w)) + Z.of_nat n
    /\ length (session w')
       = (length (session w) + n * length (sdi_channels w))%nat
    /\ samples_read (limits (priv w')) <= cap
    /\ stops w'
       = (if samples_read (limits (priv w')) <? cap then 0%nat else 1%nat).
Proof.
  intros Hok Hcap Hmsec Hlt Hst.
  destruct (session_run_counts cap evs w Hok Hcap Hmsec) as
    (w' & n & Hrun & Hd & Hs & Hse & Hle & Hst'); [lia| |].
  { rewrite Hst. by rewrite (proj2 (Z.leb_gt _ _)) by lia. }
  exists w', n. repeat split; try done.
  rewrite Hst'. destruct (cap <=? _) eqn:E1, (_ <? cap) eqn:E2; (done || lia).
Qed.

(** A cap of 3 and four frames, each in a turn of its own: the stop signal
    is raised once, after the third frame, and the fourth frame is not
    decoded. *)
Lemma stop_raised_once_at_cap_witness :
  exists w',
    session_run (replicate 4 (IoEvent um24c_frame G_IO_IN))
      (um24c_world (Some 3) 0 1000)
    = Ok (tt, w')
    /\ samples_read (limits (priv w')) = 3
    /\ dispatches (log w') = 3%nat
    /\ length (session w') = 18%nat
    /\ stops w' = 1%nat.
Proof.
  destruct (stop_raised_once_at_cap 3
              (replicate 4 (IoEvent um24c_frame G_IO_IN))
              (um24c_world (Some 3) 0 1000))
    as (w' & n & Hrun & _);
    [split; vm_compute; (reflexivity || by split)|reflexivity|reflexivity
    |vm_compute; reflexivity|reflexivity|].
  exists w'. split; [exact Hrun|].
  vm_compute in Hrun. injection Hrun as <-.
  repeat split; reflexivity.
Defined.

(** After the second frame the stop signal is not yet raised. *)
Example no_stop_before_cap :
  exists w',
    session_run (replicate 2 (IoEvent um24c_frame G_IO_IN))
      (um24c_world (Some 3) 0 1000)
    = Ok (tt, w')
    /\ samples_read (limits (priv w')) = 2
    /\ stops w' = 0%nat.
Proof. eexists. split; [vm_compute; reflexivity|]. split; reflexivity. Qed.

(** * Further properties of the driver *)

(** ** Bytes that arrive in bulk *)

(** The receive loop in terms of the assembler of the spec: the bytes it
    takes from the queue go through [asm_bytes], up to the completion check
    of the last one. *)
Lemma recv_poll_loop_asm (p : rdtech_um_profile) (chs : list sr_channel)
    (pending : list Z) (w : world) :
  asm_inv p w -> buflen (priv w) < poll_len p -> rx (conn w) = pending ->
  exists r w1 used,
    recv_poll_loop p pending w = Ok (r, w1)
    /\ asm_inv p w1
    /\ rest_of w1 = rest_of w
    /\ pending = used ++ rx (conn w1)
    /\ (pending <> [] -> used <> [])
    /\ (if r : bool then
          buflen (priv w1) < poll_len p /\ rx (conn w1) = []
          /\ view_of w1 = asm_bytes p chs (view_of w) used
        else
          buflen (priv w1) = poll_len p
          /\ asm_complete p chs (view_of w1)
             = asm_bytes p chs (view_of w) used).
Proof.
  revert w. induction pending as [|b pending IH]; intros w Hinv Hlt Hrx.
  - rewrite recv_poll_loop_nil. rewrite (proj2 (Z.ltb_lt _ _) Hlt).
    exists true, w, []. split; [done|]. split; [done|]. split; [done|].
    split; [by rewrite Hrx|]. split; [done|]. by split.
  - destruct (recv_poll_loop_cons p b pending w Hinv Hlt)
      as (w1 & -> & Hinv1 & Hrest1 & Hrx1 & Hview1).
    pose proof (asm_inv_content_length p w1 Hinv1) as Hlen1.
    destruct (Z.lt_ge_cases (buflen (priv w1)) (poll_len p)) as [Hlt1|Hge1].
    + destruct (IH w1 Hinv1 Hlt1 Hrx1)
        as (r & w' & used & Hrun & Hinv' & Hrest' & Hused & Hne & Hr).
      exists r, w', (b :: used).
      split; [done|]. split; [done|]. split; [congruence|].
      split; [cbn; congruence|]. split; [done|].
      assert (asm_byte p chs (view_of w) b = view_of w1) as Hbyte.
      { unfold asm_byte. rewrite <- Hview1.
        change (v_content (view_of w1)) with (content w1).
        by rewrite Hlen1, (proj2 (Z.ltb_lt _ _) Hlt1). }
      rewrite asm_bytes_cons, Hbyte. done.
    + rewrite recv_poll_loop_full by done.
      exists false, w1, [b].
      split; [done|]. split; [done|]. split; [done|].
      split; [cbn; congruence|]. split; [done|].
      destruct Hinv1 as (_ & _ & _ & Hn1).
      split; [lia|].
      rewrite asm_bytes_one. unfold asm_byte. rewrite <- Hview1.
      change (v_content (view_of w1)) with (content w1).
      by rewrite Hlen1, (proj2 (Z.ltb_ge _ _) Hge1).
Qed.

(** A call of [recv_poll_data] in terms of the assembler of the spec. *)
Lemma recv_poll_data_asm_prefix (w : world) :
  world_ok w ->
  exists w' used,
    recv_poll_data w = Ok (tt, w')
    /\ world_ok w'
    /\ rest_of w' = rest_of w
    /\ rx (conn w) = used ++ rx (conn w')
    /\ (rx (conn w) <> [] -> used <> [])
    /\ view_of w'
       = asm_bytes (profile (priv w)) (sdi_channels w) (view_of w) used
    /\ (rx (conn w') = [] \/ buflen (priv w') = 0)
    /\ (dispatches (log w') <= S (dispatches (log w)))%nat.
Proof.
  intros Hok.
  set (p := profile (priv w)).
  pose proof (world_ok_asm_inv w Hok) as Hinv. fold p in Hinv.
  pose proof (ok_buflen w Hok) as Hn. fold p in Hn.
  destruct (recv_poll_loop_asm p (sdi_channels w) (rx (conn w)) w Hinv)
    as (r & w1 & used & Hloop & Hinv1 & Hrest1 & Hused & Hne & Hr);
    [lia|done|].
  destruct (rest_of_fields _ _ Hrest1) as [Hp1 Hch1].
  destruct (recv_poll_data_after_loop p w w1 r eq_refl Hloop Hinv1)
    as (w' & Hrun & Hinv' & Hlt' & Hrest' & Hrx' & Hview');
    [rewrite Hch1; apply Hok|lia|by destruct r; [apply Hr|apply Hr]|].
  destruct (rest_of_fields _ _ Hrest') as [Hp' Hch'].
  destruct (recv_poll_data_counts w Hok)
    as (w'' & d & Hrun'' & _ & _ & _ & Hd'' & _).
  rewrite Hrun in Hrun''. injection Hrun'' as <-.
  exists w', used. split; [done|].
  split.
  { destruct Hinv' as (Hq & _ & Hbuf' & Hn').
    destruct Hok as [H1 H2 H3 H4].
    split; [by rewrite Hq|by rewrite Hq, Hch', Hch1|done|rewrite Hq; lia]. }
  split; [congruence|]. split; [congruence|]. split; [done|].
  split.
  { rewrite Hview'. destruct r; [apply Hr|].
    rewrite Hch1. apply Hr. }
  split.
  { destruct r.
    - left. rewrite Hrx'. apply Hr.
    - right. pose proof (asm_inv_content_length p w' Hinv') as Hcl.
      assert (content w' = []) as Hc.
      { change (content w') with (v_content (view_of w')). rewrite Hview'.
        unfold asm_complete. destruct (end_matches _ _); [|done].
        destruct (decode_channels _ _ _ _) as [[pk lg]|] eqn:Hdec; [done|].
        exfalso.
        destruct (decode_channels_ok (content w1) p (sdi_channels w1)
                    (sdi_channels w1) 0) as (pk & lg & Hdec' & _);
          [rewrite Hch1; apply Hok
          |rewrite (asm_inv_content_length p w1 Hinv1);
           destruct Hr as [-> _]; lia
          |lia|].
        change (v_content (view_of w1)) with (content w1) in Hdec.
        congruence. }
      rewrite Hc in Hcl. cbn in Hcl. lia. }
  rewrite Hd''. destruct d; lia.
Qed.

(** X1: a call of [recv_poll_data] takes a prefix of the receive queue,
    and at least one byte of a queue that is not empty; it treats these
    bytes as if they had arrived one at a time.  It returns when the queue
    is empty or as soon as a buffer is complete: then the buffer is empty
    again and the bytes behind stay in the queue, so that one call
    dispatches at most one frame. *)
Theorem recv_poll_data_takes_prefix (w : world) :
  world_ok w ->
  exists w' used,
    recv_poll_data w = Ok (tt, w')
    /\ world_ok w'
    /\ rest_of w' = rest_of w
    /\ rx (conn w) = used ++ rx (conn w')
    /\ (rx (conn w) <> [] -> used <> [])
    /\ view_of w'
       = asm_bytes (profile (priv w)) (sdi_channels w) (view_of w) used
    /\ (rx (conn w') = [] \/ buflen (priv w') = 0)
    /\ (dispatches (log w') <= S (dispatches (log w)))%nat.
Proof. exact (recv_poll_data_asm_prefix w). Qed.

(** Two frames are in the queue: the call dispatches the first and leaves
    the second where it is. *)
Lemma recv_poll_data_takes_prefix_witness :
  exists w',
    recv_poll_data
      (upd_conn (set_rx (um24c_frame ++ um24c_frame)) (um24c_world None 0 0))
    = Ok (tt, w')
    /\ rx (conn w') = um24c_frame
    /\ dispatches (log w') = 1%nat.
Proof.
  destruct (recv_poll_data_takes_prefix
              (upd_conn (set_rx (um24c_frame ++ um24c_frame))
                 (um24c_world None 0 0)))
    as (w' & used & Hrun & _);
    [split; vm_compute; (reflexivity || by split)|].
  exists w'. split; [exact Hrun|].
  vm_compute in Hrun. injection Hrun as <-. split; reflexivity.
Defined.

(** Calls of [recv_poll_data] in a row work the queue off. *)
Lemma recv_times_asm_bytes (n : nat) (w : world) :
  world_ok w -> (length (rx (conn w)) <= n)%nat ->
  exists w',
    recv_times n w = Ok (tt, w')
    /\ world_ok w'
    /\ rest_of w' = rest_of w
    /\ rx (conn w') = []
    /\ view_of w'
       = asm_bytes (profile (priv w)) (sdi_channels w) (view_of w)
           (rx (conn w)).
Proof.
  revert w. induction n as [|n IH]; intros w Hok Hlen.
  - destruct (rx (conn w)) eqn:Hrx; [|cbn in Hlen; lia].
    exists w. by conj_split.
  - destruct (recv_poll_data_asm_prefix w Hok)
      as (w1 & used & Hrun & Hok1 & Hrest1 & Hused & Hne & Hview1 & _).
    destruct (rest_of_fields _ _ Hrest1) as [Hp1 Hch1].
    destruct (IH w1 Hok1) as (w' & Hrun' & Hok' & Hrest' & Hrx' & Hview').
    { apply (f_equal length) in Hused. rewrite length_app in Hused.
      destruct used as [|x used].
      - destruct (rx (conn w)) eqn:Hrx; [|by destruct Hne].
        destruct (rx (conn w1)); [cbn; lia|done].
      - cbn [length] in Hused. lia. }
    exists w'. split.
    { cbn [recv_times]. munfold. by rewrite Hrun. }
    split; [done|]. split; [congruence|]. split; [done|].
    by rewrite Hview', Hp1, Hch1, Hview1, Hused, asm_bytes_app.
Qed.

(** X2: the result of the assembler does not depend on how the bytes
    arrive.  Whether the bytes [bs] arrive one at a time, with a call of
    [recv_poll_data] after each, or all at once, with as many calls as
    there are bytes (or more), the buffer contents, the log, the packets
    sent and the sample count are the same in the end, and the queue is
    empty. *)
Theorem assembler_ignores_chunking (bs : list Z) (n : nat) (w : world) :
  world_ok w -> rx (conn w) = [] -> (length bs <= n)%nat ->
  exists w1 w2,
    feed_bytes bs w = Ok (tt, w1)
    /\ (serial_receive bs;; recv_times n) w = Ok (tt, w2)
    /\ view_of w1 = view_of w2
    /\ rest_of w1 = rest_of w2
    /\ rx (conn w1) = [] /\ rx (conn w2) = [].
Proof.
  intros Hok Hrx Hlen.
  destruct (feed_bytes_asm_bytes bs w Hok Hrx)
    as (w1 & Hrun1 & Hok1 & Hrest1 & Hrx1 & Hview1).
  set (w0 := upd_conn (fun s => set_rx (rx s ++ bs) s) w).
  assert (world_ok w0) as Hok0 by (by destruct Hok).
  assert (rx (conn w0) = bs) as Hrx0 by (cbn; by rewrite Hrx).
  destruct (recv_times_asm_bytes n w0 Hok0)
    as (w2 & Hrun2 & Hok2 & Hrest2 & Hrx2 & Hview2); [by rewrite Hrx0|].
  rewrite Hrx0 in Hview2.
  exists w1, w2. split; [done|].
  split.
  { munfold. rewrite serial_receive_run. exact Hrun2. }
  split; [by rewrite Hview1, Hview2|].
  split; [|done]. rewrite Hrest1, Hrest2. unfold rest_of. cbn. reflexivity.
Qed.

(** Noise, a damaged frame and a frame: one byte at a time, or in one
    piece. *)
Lemma assembler_ignores_chunking_witness :
  exists w1 w2,
    feed_bytes ([1; 2; 3] ++ um24c_bad_frame ++ um24c_frame)
      (um24c_world None 0 0) = Ok (tt, w1)
    /\ (serial_receive ([1; 2; 3] ++ um24c_bad_frame ++ um24c_frame);;
        recv_times 263) (um24c_world None 0 0) = Ok (tt, w2)
    /\ view_of w1 = view_of w2.
Proof.
  destruct (assembler_ignores_chunking
              ([1; 2; 3] ++ um24c_bad_frame ++ um24c_frame) 263
              (um24c_world None 0 0))
    as (w1 & w2 & H1 & H2 & H3 & _);
    [split; vm_compute; (reflexivity || by split)|reflexivity
    |vm_compute; lia|].
  exists w1, w2. split; [exact H1|]. split; [exact H2|exact H3].
Defined.

(** ** What is dispatched *)

Lemma header_ok_nil (p : rdtech_um_profile) :
  wf_profile p = true -> header_ok p [] = true.
Proof.
  intros Hwf.
  destruct (wf_profile_bounds p Hwf) as (_ & Hs0 & _ & _ & Hst & _).
  unfold header_ok. destruct (poll_start p) as [st|]; [|done].
  destruct (poll_start_len p <=? Z.of_nat (length [])) eqn:E; [|done].
  apply Z.leb_le in E. cbn in E.
  replace (poll_start_len p) with 0 by lia. by apply bool_decide_eq_true.
Qed.

(** The header check keeps the start marker in front of the buffer. *)
Lemma asm_push_header_ok (p : rdtech_um_profile) (v : asm_view) (b : Z) :
  wf_profile p = true ->
  header_ok p (v_content v) = true ->
  header_ok p (v_content (asm_push p v b)) = true.
Proof.
  intros Hwf Hok.
  destruct (wf_profile_bounds p Hwf) as (_ & Hs0 & _ & _ & Hstl & _).
  unfold asm_push, illegal_header, header_ok in *.
  destruct (poll_start p) as [st|]; [|done].
  specialize (Hstl st eq_refl).
  destruct v as [c lg ses n]. cbn [v_content v_log v_session v_samples] in *.
  destruct (Z.of_nat (length (c ++ [b])) =? poll_start_len p) eqn:Eeq.
  - apply Z.eqb_eq in Eeq. cbn [andb].
    destruct (bool_decide_reflect
                (c ++ [b] = take (Z.to_nat (poll_start_len p)) st))
      as [He|Hne]; cbn [negb v_content].
    + rewrite (proj2 (Z.leb_le _ _)) by lia.
      apply bool_decide_eq_true. rewrite (take_ge (c ++ [b])) by lia. done.
    + assert (Z.of_nat (length (tail (c ++ [b]))) < poll_start_len p) as Hl.
      { rewrite length_app in Eeq. cbn [length] in Eeq.
        destruct c as [|x c]; cbn [app tail length] in *; [lia|].
        rewrite length_app. cbn [length]. lia. }
      by rewrite (proj2 (Z.leb_gt _ _)) by lia.
  - apply Z.eqb_neq in Eeq. cbn [andb v_content].
    rewrite length_app in Eeq |- *. cbn [length] in Eeq |- *.
    destruct (poll_start_len p <=? Z.of_nat (length c + 1)) eqn:E1; [|done].
    apply Z.leb_le in E1.
    rewrite (proj2 (Z.leb_le _ _)) in Hok by lia.
    apply bool_decide_eq_true in Hok. apply bool_decide_eq_true.
    rewrite take_app_le by lia. done.
Qed.

Lemma asm_byte_sound (p : rdtech_um_profile) (chs : list sr_channel)
    (v : asm_view) (b : Z) :
  wf_profile p = true ->
  header_ok p (v_content v) = true ->
  Z.of_nat (length (v_content v)) < poll_len p ->
  header_ok p (v_content (asm_byte p chs v b)) = true
  /\ (dispatches (v_log (asm_byte p chs v b)) = dispatches (v_log v)
      /\ v_session (asm_byte p chs v b) = v_session v
      /\ v_samples (asm_byte p chs v b) = v_samples v
      \/ is_frame p (v_content v ++ [b]) = true
         /\ exists pk lg,
              decode_channels (v_content v ++ [b]) (channels p) 0 chs
              = Ok (pk, lg)
              /\ v_session (asm_byte p chs v b) = v_session v ++ pk
              /\ v_samples (asm_byte p chs v b) = v_samples v + 1
              /\ dispatches (v_log (asm_byte p chs v b))
                 = S (dispatches (v_log v))).
Proof.
  intros Hwf Hok Hlen.
  pose proof (asm_push_header_ok p v b Hwf Hok) as Hok1.
  destruct (asm_push_counts p v b) as (Hs1 & Hse1 & Hd1).
  destruct (wf_profile_bounds p Hwf) as (_ & Hs0 & He0 & Hsum & Hstl & _).
  unfold asm_byte.
  destruct (Z.of_nat (length (v_content (asm_push p v b))) <? poll_len p)
    eqn:Elt.
  { split; [done|]. left. done. }
  apply Z.ltb_ge in Elt.
  assert (v_content (asm_push p v b) = v_content v ++ [b]) as Hc.
  { unfold asm_push in *. destruct (illegal_header p _); [|done].
    cbn [v_content] in Elt. exfalso.
    destruct (v_content v); cbn in *; [lia|].
    rewrite length_app in Elt. cbn in Elt. lia. }
  assert (Z.of_nat (length (v_content v ++ [b])) = poll_len p) as Hfull.
  { rewrite Hc in Elt. rewrite length_app in *. cbn [length] in *. lia. }
  unfold asm_complete. rewrite Hc.
  destruct (end_matches p (v_content v ++ [b])) eqn:Hend.
  - destruct (decode_channels _ _ _ _) as [[pk lg]|] eqn:Hdec.
    + cbn [v_content v_log v_session v_samples].
      split; [by apply header_ok_nil|]. right.
      split.
      { unfold is_frame. rewrite Hfull, Z.eqb_refl, Hend.
        rewrite Hc in Hok1. unfold header_ok in Hok1. unfold header_at.
        destruct (poll_start p) as [st|]; [|done].
        rewrite (proj2 (Z.leb_le _ _)) in Hok1 by lia.
        by rewrite drop_0, Hok1. }
      exists pk, lg. rewrite Hse1, Hs1, dispatches_app, Hd1.
      destruct (decode_channels_counts _ _ _ _ _ _ Hdec) as (_ & Hd & _).
      cbn. rewrite Hd. repeat split; lia.
    + split; [exact Hok1|]. left. done.
  - cbn [v_content v_log v_session v_samples].
    split; [by apply header_ok_nil|]. left.
    rewrite dispatches_app, Hd1. cbn. repeat split; (done || lia).
Qed.

(** X3: the assembler dispatches well-formed frames only.  The buffer
    contents keep the start marker in front ([header_ok]), from an empty
    buffer on; and when a byte arrives at such a buffer, either nothing is
    dispatched, sent or counted, or the buffer contents with this byte are
    a well-formed frame, and the packets sent are the ones decoded from
    it. *)
Theorem only_frames_are_dispatched (b : Z) (w : world) :
  world_ok w -> rx (conn w) = [] ->
  header_ok (profile (priv w)) (content w) = true ->
  exists w',
    (serial_receive [b];; recv_poll_data) w = Ok (tt, w')
    /\ world_ok w' /\ rx (conn w') = []
    /\ header_ok (profile (priv w')) (content w') = true
    /\ (dispatches (log w') = dispatches (log w)
        /\ session w' = session w
        /\ samples_read (limits (priv w')) = samples_read (limits (priv w))
        \/ is_frame (profile (priv w)) (content w ++ [b]) = true
           /\ exists pk lg,
                decode_channels (content w ++ [b])
                  (channels (profile (priv w))) 0 (sdi_channels w)
                = Ok (pk, lg)
                /\ session w' = session w ++ pk
                /\ samples_read (limits (priv w'))
                   = samples_read (limits (priv w)) + 1
                /\ dispatches (log w') = S (dispatches (log w))).
Proof.
  intros Hok Hrx Hhd.
  destruct (recv_poll_data_asm_byte b w Hok Hrx)
    as (w' & Hrun & Hok' & Hrest' & Hrx' & Hview').
  destruct (rest_of_fields _ _ Hrest') as [Hp' Hch'].
  pose proof (asm_inv_content_length _ w (world_ok_asm_inv w Hok)) as Hcl.
  pose proof (ok_buflen w Hok) as Hn.
  destruct (asm_byte_sound (profile (priv w)) (sdi_channels w) (view_of w) b)
    as (Hhd' & Hcases);
    [apply Hok|done|change (v_content (view_of w)) with (content w); lia|].
  rewrite <- Hview' in Hhd', Hcases.
  exists w'. split; [done|]. split; [done|]. split; [done|].
  split; [by rewrite Hp'|]. exact Hcases.
Qed.

(** The last byte of a frame arrives at a buffer that holds the rest. *)
Lemma only_frames_are_dispatched_witness :
  exists w',
    (serial_receive [0xf1];; recv_poll_data)
      (um24c_holding (take 129 um24c_frame)) = Ok (tt, w')
    /\ header_ok (profile (priv w')) (content w') = true
    /\ dispatches (log w') = 1%nat.
Proof.
  destruct (only_frames_are_dispatched 0xf1
              (um24c_holding (take 129 um24c_frame)))
    as (w' & Hrun & _ & _ & Hhd & _);
    [split; vm_compute; (reflexivity || by split)|reflexivity
    |vm_compute; reflexivity|].
  exists w'. split; [exact Hrun|]. split; [exact Hhd|].
  vm_compute in Hrun. injection Hrun as <-. reflexivity.
Defined.

(** An empty buffer has passed the header check. *)
Lemma header_ok_empty_buffer (w : world) :
  world_ok w -> buflen (priv w) = 0 ->
  header_ok (profile (priv w)) (content w) = true.
Proof.
  intros Hok Hempty. unfold content. rewrite Hempty.
  apply header_ok_nil, Hok.
Qed.

(** ** A profile without an end marker *)

Lemma asm_byte_no_end_marker (p : rdtech_um_profile) (chs : list sr_channel)
    (v : asm_view) (b : Z) :
  poll_end p = None ->
  v_session (asm_byte p chs v b) = v_session v
  /\ v_samples (asm_byte p chs v b) = v_samples v
  /\ dispatches (v_log (asm_byte p chs v b)) = dispatches (v_log v).
Proof.
  intros Hend. unfold asm_byte.
  destruct (asm_push_counts p v b) as (Hn & Hs & Hd).
  destruct (Z.of_nat (length (v_content (asm_push p v b))) <? poll_len p);
    [by rewrite Hn, Hs, Hd|].
  unfold asm_complete, end_matches. rewrite Hend.
  cbn [v_session v_samples v_log]. rewrite dispatches_app. cbn [dispatches].
  rewrite Nat.add_0_r. by rewrite Hn, Hs, Hd.
Qed.

Lemma asm_bytes_no_end_marker (p : rdtech_um_profile) (chs : list sr_channel)
    (bs : list Z) (v : asm_view) :
  poll_end p = None ->
  v_session (asm_bytes p chs v bs) = v_session v
  /\ v_samples (asm_bytes p chs v bs) = v_samples v
  /\ dispatches (v_log (asm_bytes p chs v bs)) = dispatches (v_log v).
Proof.
  intros Hend. revert v. induction bs as [|b bs IH]; intros v; [done|].
  rewrite asm_bytes_cons.
  destruct (IH (asm_byte p chs v b)) as (-> & -> & ->).
  by apply asm_byte_no_end_marker.
Qed.

(** X4: with a profile that defines no end marker, [recv_poll_data] never
    hands a frame to the decoder: whatever bytes are in the queue, the call
    sends no packet, counts no sample and does not call
    [handle_poll_data].  The probe reads the missing marker the other way:
    it accepts every response of the frame length that passes the header
    check. *)
Theorem no_end_marker_probe_accepts_driver_discards (w : world) :
  world_ok w -> poll_end (profile (priv w)) = None ->
  (exists w',
     recv_poll_data w = Ok (tt, w')
     /\ world_ok w'
     /\ session w' = session w
     /\ samples_read (limits (priv w')) = samples_read (limits (priv w))
     /\ dispatches (log w') = dispatches (log w))
  /\ (0 <= wr_status (conn w) ->
      poll_len (profile (priv w)) <= Z.of_nat (length (rx (conn w))) ->
      header_at (profile (priv w))
        (take (Z.to_nat (poll_len (profile (priv w)))) (rx (conn w))) 0
      = true ->
      probe_profile (profile (priv w)) w
      = Ok (Some (profile (priv w)), probed (profile (priv w)) w)).
Proof.
  intros Hok Hend. split.
  - destruct (recv_poll_data_asm_prefix w Hok)
      as (w' & used & Hrun & Hok' & _ & _ & _ & Hview & _).
    exists w'. split; [exact Hrun|]. split; [exact Hok'|].
    destruct (asm_bytes_no_end_marker (profile (priv w)) (sdi_channels w)
                used (view_of w) Hend) as (Hs & Hn & Hd).
    rewrite <- Hview in Hs, Hn, Hd. by split; [|split].
  - intros Hwr Hlen Hhd.
    pose proof (ok_buflen w Hok) as Hn.
    rewrite probe_profile_full_read by (try apply Hok; lia).
    cbn zeta. rewrite Hhd. unfold probe_end_ok. by rewrite Hend.
Qed.

(** A whole frame of the UM24C arrives while the profile lacks the end
    marker: the probe accepts it, the driver discards it. *)
Lemma no_end_marker_probe_accepts_driver_discards_witness :
  (exists w',
     recv_poll_data
       (upd_conn (set_rx um24c_frame)
          (upd_priv (set_profile um24c_open_profile) (um24c_world None 0 0)))
     = Ok (tt, w')
     /\ session w' = [] /\ log w' = [Warn_end_marker])
  /\ exists w',
       probe_profile um24c_open_profile
         (upd_conn (set_rx um24c_frame)
            (upd_priv (set_profile um24c_open_profile)
               (um24c_world None 0 0)))
       = Ok (Some um24c_open_profile, w').
Proof.
  destruct (no_end_marker_probe_accepts_driver_discards
              (upd_conn (set_rx um24c_frame)
                 (upd_priv (set_profile um24c_open_profile)
                    (um24c_world None 0 0))))
    as ((w' & Hrun & _) & Hprobe);
    [split; vm_compute; (reflexivity || by split)|reflexivity|].
  split.
  - exists w'. split; [exact Hrun|].
    vm_compute in Hrun. injection Hrun as <-. split; reflexivity.
  - eexists. apply Hprobe; vm_compute; (reflexivity || discriminate).
Defined.

(** ** The length check of [handle_poll_data] *)

Lemma length_errors_app (l1 l2 : list log_entry) :
  length_errors (l1 ++ l2) = (length_errors l1 + length_errors l2)%nat.
Proof.
  induction l1 as [|e l1 IH]; [reflexivity|].
  destruct e; cbn [app length_errors]; rewrite IH; reflexivity.
Qed.

Lemma decode_channels_length_errors (data : list Z)
    (table : list rdtech_um_channel) (chs : list sr_channel) (i : nat)
    (pk : list sr_datafeed_analog) (lg : list log_entry) :
  decode_channels data table i chs = Ok (pk, lg) ->
  length_errors lg = 0%nat.
Proof.
  revert i pk lg. induction chs as [|ch chs IH]; intros i pk lg Hdec.
  - cbn in Hdec. by injection Hdec as <- <-.
  - cbn [decode_channels] in Hdec.
    destruct (table !! i) as [m|]; [|done].
    destruct (sample_of data m) as [v|]; [|done]. cbn [res_bind] in Hdec.
    destruct (decode_channels data table (S i) chs) as [[pk' lg']|] eqn:Hr;
      [|done].
    cbn [res_bind fst snd] in Hdec. injection Hdec as <- <-.
    rewrite length_errors_app, (IH _ _ _ Hr).
    unfold sample_log. by destruct (supported_type _).
Qed.

Lemma asm_byte_length_errors (p : rdtech_um_profile) (chs : list sr_channel)
    (v : asm_view) (b : Z) :
  length_errors (v_log (asm_byte p chs v b)) = length_errors (v_log v).
Proof.
  assert (length_errors (v_log (asm_push p v b)) = length_errors (v_log v))
    as Hpush.
  { unfold asm_push. destruct (illegal_header _ _); [|reflexivity].
    cbn [v_log]. rewrite length_errors_app. cbn. lia. }
  unfold asm_byte.
  destruct (Z.of_nat (length (v_content (asm_push p v b))) <? poll_len p);
    [exact Hpush|].
  rewrite <- Hpush. unfold asm_complete.
  destruct (end_matches p _).
  - destruct (decode_channels _ _ _ _) as [[pk lg]|] eqn:Hdec; [|reflexivity].
    cbn [v_log]. rewrite length_errors_app. cbn [length_errors].
    rewrite (decode_channels_length_errors _ _ _ _ _ _ Hdec). lia.
  - cbn [v_log]. rewrite length_errors_app. cbn. lia.
Qed.

Lemma asm_bytes_length_errors (p : rdtech_um_profile) (chs : list sr_channel)
    (bs : list Z) (v : asm_view) :
  length_errors (v_log (asm_bytes p chs v bs)) = length_errors (v_log v).
Proof.
  revert v. induction bs as [|b bs IH]; intros v; [reflexivity|].
  rewrite asm_bytes_cons, IH. apply asm_byte_length_errors.
Qed.

(** X5: the length check of [handle_poll_data] is dead code behind
    [recv_poll_data].  Called on a buffer that is not full,
    [handle_poll_data] logs the length error and returns: it sends no
    packet and counts no sample.  But no call of [recv_poll_data] logs the
    message, whatever the bytes in the queue: the function dispatches full
    buffers only. *)
Theorem length_error_is_unreachable (w : world) :
  world_ok w ->
  (forall w0,
     buflen (priv w0) <> poll_len (profile (priv w0)) ->
     exists w1,
       handle_poll_data w0 = Ok (tt, w1)
       /\ session w1 = session w0
       /\ limits (priv w1) = limits (priv w0)
       /\ log w1 = log w0 ++ [Spew_poll_packet (buflen (priv w0));
                              Err_poll_length (buflen (priv w0))])
  /\ exists w',
       recv_poll_data w = Ok (tt, w')
       /\ length_errors (log w') = length_errors (log w).
Proof.
  intros Hok. split.
  - intros w0 Hne. unfold handle_poll_data. munfold.
    rewrite (proj2 (Z.eqb_neq _ _) Hne). cbn [negb].
    eexists. split; [reflexivity|].
    cbn [add_log session priv log]. split; [reflexivity|].
    split; [reflexivity|]. by rewrite <- app_assoc.
  - destruct (recv_poll_data_asm_prefix w Hok)
      as (w' & used & Hrun & _ & _ & _ & _ & Hview & _).
    exists w'. split; [exact Hrun|].
    change (log w') with (v_log (view_of w')). rewrite Hview.
    apply asm_bytes_length_errors.
Qed.

(** A frame and a damaged frame go through the driver, and the length
    error is not logged. *)
Lemma length_error_is_unreachable_witness :
  exists w',
    recv_poll_data
      (upd_conn (set_rx (um24c_bad_frame ++ um24c_frame))
         (um24c_world None 0 0))
    = Ok (tt, w')
    /\ length_errors (log w') = 0%nat.
Proof.
  destruct (length_error_is_unreachable
              (upd_conn (set_rx (um24c_bad_frame ++ um24c_frame))
                 (um24c_world None 0 0)))
    as (_ & w' & Hrun & Herr);
    [split; vm_compute; (reflexivity || by split)|].
  exists w'. split; [exact Hrun|exact Herr].
Defined.

(** ** The bounds of the decoder *)

Lemma load8_outside (data : list Z) (i : Z) :
  ~ 0 <= i < Z.of_nat (length data) -> load8 data i = Undef OutOfBounds.
Proof.
  intros H. unfold load8.
  destruct (0 <=? i) eqn:E0; [|reflexivity].
  destruct (i <? Z.of_nat (length data)) eqn:E1; [|reflexivity].
  apply Z.leb_le in E0. apply Z.ltb_lt in E1. lia.
Qed.

Ltac load8_at data i :=
  let b := fresh "b" in
  let Hb := fresh "Hb" in
  destruct (Z_lt_dec i (Z.of_nat (length data)));
    [destruct (load8_ok data i) as [b Hb]; [lia|]; rewrite Hb
    |rewrite (load8_outside data i) by lia];
    cbn [res_bind]; try reflexivity.

(** [sample_of] is defined exactly on the channels that read inside the
    data, and leaves them by an access out of bounds. *)
Lemma sample_of_defined (data : list Z) (m : rdtech_um_channel) :
  if channel_fits (Z.of_nat (length data)) m
  then exists v, sample_of data m = Ok v
  else sample_of data m = Undef OutOfBounds.
Proof.
  destruct (channel_fits _ m) eqn:Hfit.
  { by apply (sample_of_fits data (Z.of_nat (length data))). }
  unfold channel_fits in Hfit. apply orb_false_iff in Hfit as [Hsup Hin].
  apply negb_false_iff in Hsup.
  unfold sample_of. unfold type_width in Hin. unfold supported_type in Hsup.
  destruct (0 <=? ch_offset m) eqn:E0.
  2:{ apply Z.leb_gt in E0.
      destruct (ch_type m =? RDTECH_UM_UINT8).
      { by rewrite load8_outside by lia. }
      destruct (ch_type m =? RDTECH_UM_UINT16).
      { unfold RB16. by rewrite load8_outside by lia. }
      destruct (ch_type m =? RDTECH_UM_UINT32); [|discriminate].
      unfold RB32. by rewrite load8_outside by lia. }
  apply Z.leb_le in E0. cbn [andb] in Hin. apply Z.leb_gt in Hin.
  destruct (ch_type m =? RDTECH_UM_UINT8).
  { by rewrite load8_outside by lia. }
  destruct (ch_type m =? RDTECH_UM_UINT16).
  { unfold RB16. load8_at data (ch_offset m).
    by rewrite load8_outside by lia. }
  destruct (ch_type m =? RDTECH_UM_UINT32); [|discriminate].
  unfold RB32. load8_at data (ch_offset m).
  load8_at data (ch_offset m + 1). load8_at data (ch_offset m + 2).
  by rewrite load8_outside by lia.
Qed.

(** The channel loop from entry [i] on is defined exactly when the rest of
    the table fits. *)
Lemma decode_channels_defined (data : list Z)
    (table : list rdtech_um_channel) (chs : list sr_channel) (i : nat) :
  if table_fits (Z.of_nat (length data)) (drop i table) chs
  then exists pk lg, decode_channels data table i chs = Ok (pk, lg)
  else decode_channels data table i chs = Undef OutOfBounds.
Proof.
  revert i. induction chs as [|ch chs IH]; intros i.
  { unfold table_fits. cbn. by exists [], []. }
  unfold table_fits. cbn [decode_channels length].
  destruct (table !! i) as [m|] eqn:Hm.
  2:{ apply lookup_ge_None in Hm. rewrite drop_ge by done. reflexivity. }
  rewrite (drop_S _ _ _ Hm). cbn [length take forallb Nat.leb].
  specialize (IH (S i)). unfold table_fits in IH.
  pose proof (sample_of_defined data m) as Hs.
  destruct (channel_fits _ m).
  - destruct Hs as [v ->]. cbn [res_bind andb].
    destruct (length chs <=? length (drop (S i) table))%nat.
    + cbn [andb] in IH |- *.
      destruct (forallb _ _).
      * destruct IH as (pk & lg & ->). cbn [res_bind]. by do 2 eexists.
      * by rewrite IH.
    + cbn [andb] in IH |- *. by rewrite IH.
  - rewrite Hs. cbn [res_bind andb]. by rewrite andb_false_r.
Qed.

(** X6: [get_sample] reads inside the array of the buffer exactly for the
    channels that [channel_fits] accepts for the size of the array: a
    channel of a known type with [0 <= offset] and [offset + width] within
    the array, or a channel of an unknown type, which reads nothing.  For
    every other channel the read leaves the array. *)
Theorem get_sample_defined_inside_buffer (m : rdtech_um_channel)
    (w : world) :
  is_ok (get_sample m w)
  = channel_fits (Z.of_nat (length (buf (priv w)))) m
  /\ (is_ok (get_sample m w) = false ->
      get_sample m w = Undef OutOfBounds).
Proof.
  rewrite get_sample_sample_of.
  pose proof (sample_of_defined (buf (priv w)) m) as Hs.
  destruct (channel_fits _ m).
  - destruct Hs as [v ->]. by split.
  - rewrite Hs. by split.
Qed.

(** A two-byte channel at the last byte of the array of the buffer. *)
Lemma get_sample_defined_inside_buffer_witness :
  get_sample (Channel (Some "V"%string) 0xff RDTECH_UM_UINT16
                (F32.lit 1 100) 2 SR_MQ_VOLTAGE SR_UNIT_VOLT)
    (um24c_holding um24c_frame)
  = Undef OutOfBounds.
Proof.
  destruct (get_sample_defined_inside_buffer
              (Channel (Some "V"%string) 0xff RDTECH_UM_UINT16
                 (F32.lit 1 100) 2 SR_MQ_VOLTAGE SR_UNIT_VOLT)
              (um24c_holding um24c_frame)) as [H1 H2].
  apply H2. rewrite H1. vm_compute. reflexivity.
Defined.

(** X7: on a full buffer [handle_poll_data] is defined exactly when the
    channel array has an entry for every channel of the device instance and
    each of these entries reads inside the array of the buffer; the end of
    the channel array is not looked for, so a device instance with more
    channels than the array has entries takes the loop past its end. *)
Theorem handle_poll_data_defined_iff_table_fits (w : world) :
  buflen (priv w) = poll_len (profile (priv w)) ->
  is_ok (handle_poll_data w)
  = table_fits (Z.of_nat (length (buf (priv w))))
      (channels (profile (priv w))) (sdi_channels w)
  /\ (is_ok (handle_poll_data w) = false ->
      handle_poll_data w = Undef OutOfBounds).
Proof.
  intros Hfull. rewrite handle_poll_data_full by done.
  pose proof (decode_channels_defined (buf (priv w))
                (channels (profile (priv w))) (sdi_channels w) 0) as Hd.
  rewrite drop_0 in Hd.
  destruct (table_fits _ _ _).
  - destruct Hd as (pk & lg & ->). by split.
  - rewrite Hd. by split.
Qed.

(** The UM24C with a seventh channel, and with a channel placed at the end
    of the array of the buffer. *)
Lemma handle_poll_data_defined_iff_table_fits_witness :
  is_ok (handle_poll_data (um24c_holding um24c_frame)) = true
  /\ handle_poll_data
       (World (priv (um24c_holding um24c_frame))
          (conn (um24c_holding um24c_frame))
          (um24c_sdi_channels ++ [SrChannel 6 "x"; SrChannel 7 "y"])
          [] [] 0 (clock (um24c_holding um24c_frame)))
     = Undef OutOfBounds.
Proof.
  destruct (handle_poll_data_defined_iff_table_fits
              (um24c_holding um24c_frame) eq_refl) as [H1 _].
  split; [rewrite H1; vm_compute; reflexivity|].
  destruct (handle_poll_data_defined_iff_table_fits
              (World (priv (um24c_holding um24c_frame))
                 (conn (um24c_holding um24c_frame))
                 (um24c_sdi_channels ++ [SrChannel 6 "x"; SrChannel 7 "y"])
                 [] [] 0 (clock (um24c_holding um24c_frame))) eq_refl)
    as [H2 H3].
  apply H3. rewrite H2. vm_compute. reflexivity.
Defined.

(** ** The callback as a whole *)

(** The part of [rdtech_um_receive_data] after the receive part: it
    returns [TRUE], and it either raises the stop signal, and then neither
    writes to the port nor moves the time stamp of the last poll, or it
    leaves the stop count alone. *)
Lemma rdtech_um_receive_data_scheduler (revents : Z) (w w1 : world) :
  received revents w = Ok (tt, w1) ->
  exists w',
    rdtech_um_receive_data revents w = Ok (TRUE, w')
    /\ recv_side w' = recv_side w1
    /\ dispatches (log w') = dispatches (log w1)
    /\ length_errors (log w') = length_errors (log w1)
    /\ readings (clock w') = readings (clock w1)
    /\ (stops w' = S (stops w1) /\ tx (conn w') = tx (conn w1)
        /\ cmd_sent_at (priv w') = cmd_sent_at (priv w1)
        /\ log w' = log w1
        \/ stops w' = stops w1).
Proof.
  intros Hrecv.
  destruct (sr_sw_limits_check_cases w1) as (r & w2 & Hcheck & Hw2 & _).
  rewrite (rdtech_um_receive_data_after_check revents w w1 w2 r Hrecv Hcheck).
  assert (recv_side w2 = recv_side w1 /\ log w2 = log w1
          /\ readings (clock w2) = readings (clock w1)
          /\ stops w2 = stops w1 /\ tx (conn w2) = tx (conn w1)
          /\ cmd_sent_at (priv w2) = cmd_sent_at (priv w1))
    as (Hside & Hlog & Hrd & Hst & Htx & Hcs).
  { destruct Hw2 as [->| ->]; by conj_split. }
  destruct r.
  { exists (add_stop w2). split; [reflexivity|].
    cbn [add_stop log clock stops conn priv]. rewrite Hlog.
    conj_split; try done. left. conj_split; congruence. }
  destruct (poll_period _ <? _).
  - destruct (Z.lt_ge_cases (wr_status (conn (tick_clock w2))) 0)
      as [Hlt|Hge].
    + rewrite rdtech_um_poll_failure by done.
      eexists. split; [reflexivity|].
      cbn [add_log tick_clock log clock stops readings].
      rewrite dispatches_app, length_errors_app, Hlog. cbn.
      conj_split; first [done | lia | by right].
    + rewrite rdtech_um_poll_success by done.
      eexists. split; [reflexivity|].
      cbn [upd_priv tick_clock sent upd_conn log clock stops readings].
      rewrite Hlog. conj_split; first [done | by right].
  - eexists. split; [reflexivity|].
    cbn [tick_clock log clock stops readings].
    rewrite Hlog. conj_split; first [done | by right].
Qed.

(** The receive part of the callback on a well-formed device instance. *)
Lemma received_asm_prefix (revents : Z) (w : world) :
  world_ok w ->
  exists w1 used,
    received revents w = Ok (tt, w1)
    /\ world_ok w1
    /\ rest_of w1 = rest_of w
    /\ rx (conn w) = used ++ rx (conn w1)
    /\ (dispatches (log w1) <= S (dispatches (log w)))%nat
    /\ length_errors (log w1) = length_errors (log w)
    /\ samples_read (limits (priv w)) <= samples_read (limits (priv w1)).
Proof.
  intros Hok. unfold received. destruct (revents =? G_IO_IN).
  - destruct (recv_poll_data_asm_prefix w Hok)
      as (w1 & used & Hrun & Hok1 & Hrest & Hused & _ & Hview & _ & Hd).
    exists w1, used. conj_split; try done.
    + change (log w1) with (v_log (view_of w1)). rewrite Hview.
      apply asm_bytes_length_errors.
    + destruct (recv_poll_data_counts w Hok)
        as (w1' & d & Hrun' & _ & _ & Hs & _).
      rewrite Hrun in Hrun'. injection Hrun' as <-.
      rewrite Hs. destruct d; lia.
  - exists w, []. conj_split; try done; lia.
Qed.

(** X8: a call of [rdtech_um_receive_data] with a condition other than
    [G_IO_IN] alone (a time-out of the event loop, or [G_IO_IN] together
    with another flag) does not touch the receive side: the bytes in the
    queue stay there, the buffer, the packets sent and the limits are as
    before, and no frame is dispatched.  The call is defined in every
    state, well-formed or not. *)
Theorem other_events_read_nothing (revents : Z) (w : world) :
  revents <> G_IO_IN ->
  exists w',
    rdtech_um_receive_data revents w = Ok (TRUE, w')
    /\ rx (conn w') = rx (conn w)
    /\ buf (priv w') = buf (priv w)
    /\ buflen (priv w') = buflen (priv w)
    /\ limits (priv w') = limits (priv w)
    /\ session w' = session w
    /\ dispatches (log w') = dispatches (log w).
Proof.
  intros Hne.
  assert (received revents w = Ok (tt, w)) as Hrecv.
  { unfold received. by rewrite (proj2 (Z.eqb_neq _ _) Hne). }
  destruct (rdtech_um_receive_data_scheduler revents w w Hrecv)
    as (w' & Hrun & Hside & Hd & _).
  exists w'. split; [exact Hrun|].
  unfold recv_side in Hside. injection Hside as _ Hl Hb Hn Hrx _ Hs.
  by conj_split.
Qed.

(** A frame is in the queue, and the condition is [G_IO_IN | G_IO_HUP]:
    the frame stays in the queue. *)
Lemma other_events_read_nothing_witness :
  exists w',
    rdtech_um_receive_data 17
      (upd_conn (set_rx um24c_frame) (um24c_world None 0 0)) = Ok (TRUE, w')
    /\ rx (conn w') = um24c_frame
    /\ session w' = [].
Proof.
  destruct (other_events_read_nothing 17
              (upd_conn (set_rx um24c_frame) (um24c_world None 0 0)))
    as (w' & Hrun & Hrx & _ & _ & _ & Hs & _); [discriminate|].
  exists w'. split; [exact Hrun|]. split; [exact Hrx|exact Hs].
Defined.

(** X9: on a well-formed device instance [rdtech_um_receive_data] is
    defined and returns [TRUE], whatever the condition, the bytes in the
    queue, the limits, the clock and the state of the port, and it leaves
    the device instance well-formed: the event source is never removed by
    the callback, and a next call finds the state it needs.  The call
    takes a prefix of the queue, dispatches at most one frame and never
    logs the length error of [handle_poll_data]. *)
Theorem callback_keeps_device_well_formed (revents : Z) (w : world) :
  world_ok w ->
  exists w' used,
    rdtech_um_receive_data revents w = Ok (TRUE, w')
    /\ world_ok w'
    /\ profile (priv w') = profile (priv w)
    /\ sdi_channels w' = sdi_channels w
    /\ rx (conn w) = used ++ rx (conn w')
    /\ (dispatches (log w') <= S (dispatches (log w)))%nat
    /\ length_errors (log w') = length_errors (log w).
Proof.
  intros Hok.
  destruct (received_asm_prefix revents w Hok)
    as (w1 & used & Hrecv & Hok1 & Hrest & Hused & Hd1 & He1 & _).
  destruct (rdtech_um_receive_data_scheduler revents w w1 Hrecv)
    as (w' & Hrun & Hside & Hd & He & _).
  destruct (rest_of_fields _ _ Hrest) as [Hp1 Hch1].
  unfold recv_side in Hside. injection Hside as Hp Hl Hb Hn Hrx Hch Hs.
  exists w', used. split; [exact Hrun|].
  split.
  { destruct Hok1 as [H1 H2 H3 H4].
    split; rewrite ?Hp, ?Hch, ?Hb, ?Hn; done. }
  conj_split; congruence.
Qed.

(** A callback in the middle of an acquisition: garbage and a frame are in
    the queue, the port refuses the write. *)
Lemma callback_keeps_device_well_formed_witness :
  exists w',
    rdtech_um_receive_data G_IO_IN
      (upd_conn
         (fun s => set_wr_status (-1) (set_rx ([7; 8] ++ um24c_frame) s))
         (upd_priv (set_cmd_sent_at (-200)) (um24c_world (Some 5) 0 1000)))
    = Ok (TRUE, w')
    /\ world_ok w'
    /\ dispatches (log w') = 1%nat.
Proof.
  destruct (callback_keeps_device_well_formed G_IO_IN
              (upd_conn
                 (fun s => set_wr_status (-1)
                             (set_rx ([7; 8] ++ um24c_frame) s))
                 (upd_priv (set_cmd_sent_at (-200))
                    (um24c_world (Some 5) 0 1000))))
    as (w' & used & Hrun & Hok & _);
    [split; vm_compute; (reflexivity || by split)|].
  exists w'. split; [exact Hrun|]. split; [exact Hok|].
  vm_compute in Hrun. injection Hrun as <-. reflexivity.
Defined.

(** X10: once the count of decoded frames has reached the sample cap,
    every call of [rdtech_um_receive_data] raises the stop signal again
    and does nothing else after its receive part: it does not read the
    clock and it sends no poll request.  The receive part still runs, so a
    frame that completes in such a call is decoded and sent beyond the
    cap. *)
Theorem sample_cap_reached_stops_every_call (cap revents : Z) (w : world) :
  world_ok w ->
  limit_samples (limits (priv w)) = Some cap ->
  cap <= samples_read (limits (priv w)) ->
  exists w1,
    received revents w = Ok (tt, w1)
    /\ rdtech_um_receive_data revents w = Ok (TRUE, add_stop w1)
    /\ tx (conn w1) = tx (conn w)
    /\ clock w1 = clock w
    /\ cmd_sent_at (priv w1) = cmd_sent_at (priv w).
Proof.
  intros Hok Hcap Hreach.
  destruct (received_asm_prefix revents w Hok)
    as (w1 & used & Hrecv & Hok1 & Hrest & _ & _ & _ & Hs).
  unfold rest_of in Hrest. injection Hrest as _ Hls _ _ Hcs Htx _ _ _ Hck.
  destruct (sr_sw_limits_check_cases w1) as (r & w2 & Hcheck & _ & Hr & _).
  destruct (Hr cap) as [-> ->]; [congruence|lia|].
  exists w1. split; [exact Hrecv|].
  split; [|by conj_split].
  by rewrite (rdtech_um_receive_data_after_check revents w w1 w1 true).
Qed.

(** The cap of one sample is reached, and another frame arrives: the frame
    is decoded, the stop signal is raised again, nothing is written. *)
Lemma sample_cap_reached_stops_every_call_witness :
  exists w',
    rdtech_um_receive_data G_IO_IN
      (upd_conn (set_rx um24c_frame)
         (upd_priv (set_limits (Limits 1 (Some 1) None 0))
            (add_stop (um24c_world None 0 0)))) = Ok (TRUE, w')
    /\ stops w' = 2%nat
    /\ samples_read (limits (priv w')) = 2
    /\ tx (conn w') = []
    /\ reads (clock w') = 0%nat.
Proof.
  destruct (sample_cap_reached_stops_every_call 1 G_IO_IN
              (upd_conn (set_rx um24c_frame)
                 (upd_priv (set_limits (Limits 1 (Some 1) None 0))
                    (add_stop (um24c_world None 0 0)))))
    as (w1 & Hrecv & Hrun & _);
    [split; vm_compute; (reflexivity || by split)|reflexivity
    |vm_compute; discriminate|].
  exists (add_stop w1). split; [exact Hrun|].
  vm_compute in Hrecv. injection Hrecv as <-.
  split; [reflexivity|]. split; [reflexivity|]. split; reflexivity.
Defined.

(** A call of the callback when no limit is set. *)
Lemma rdtech_um_receive_data_unlimited (revents : Z) (w : world) :
  world_ok w ->
  limit_samples (limits (priv w)) = None ->
  limit_msec (limits (priv w)) = None ->
  exists w',
    rdtech_um_receive_data revents w = Ok (TRUE, w')
    /\ world_ok w'
    /\ limit_samples (limits (priv w')) = None
    /\ limit_msec (limits (priv w')) = None
    /\ stops w' = stops w.
Proof.
  intros Hok Hls Hlm.
  destruct (received_asm_prefix revents w Hok)
    as (w1 & used & Hrecv & Hok1 & Hrest & _).
  unfold rest_of in Hrest.
  injection Hrest as _ Hls1 Hlm1 _ _ _ _ _ Hst1 _.
  destruct (sr_sw_limits_check_cases w1) as (r & w2 & Hcheck & _ & _ & Hr).
  destruct Hr as [-> ->]; [congruence..|].
  rewrite (rdtech_um_receive_data_after_check revents w w1 w1 false Hrecv
             Hcheck).
  destruct Hok1 as [H1 H2 H3 H4].
  destruct (poll_period _ <? _).
  - destruct (Z.lt_ge_cases (wr_status (conn (tick_clock w1))) 0)
      as [Hlt|Hge].
    + rewrite rdtech_um_poll_failure by done.
      eexists. split; [reflexivity|]. split; [by split|].
      cbn [add_log tick_clock priv stops]. conj_split; congruence.
    + rewrite rdtech_um_poll_success by done.
      eexists. split; [reflexivity|]. split; [by split|].
      cbn [upd_priv tick_clock sent upd_conn priv stops set_cmd_sent_at
             limits].
      conj_split; congruence.
  - eexists. split; [reflexivity|]. split; [by split|].
    cbn [tick_clock priv stops]. conj_split; congruence.
Qed.

(** X11: the driver stops an acquisition for one reason only, a limit that
    is reached.  When neither a sample cap nor a time cap is set, no
    sequence of events raises the stop signal: not garbage in the stream,
    not a frame with a damaged end marker, not a poll request the port
    refuses.  Every event of the sequence is handled (each call reads the
    clock at least once), and the device instance stays well-formed. *)
Theorem unlimited_acquisition_never_stops (evs : list io_event)
    (w : world) :
  world_ok w ->
  limit_samples (limits (priv w)) = None ->
  limit_msec (limits (priv w)) = None ->
  stops w = 0%nat ->
  exists w',
    session_run evs w = Ok (tt, w')
    /\ world_ok w'
    /\ stops w' = 0%nat
    /\ (reads (clock w) + length evs <= reads (clock w'))%nat.
Proof.
  revert w. induction evs as [|e evs IH]; intros w Hok Hls Hlm Hst.
  { exists w. cbn. conj_split; (done || lia). }
  cbn [session_run]. munfold. rewrite Hst, serial_receive_run.
  set (w0 := upd_conn (fun s => set_rx (rx s ++ ev_arrived e) s) w).
  assert (world_ok w0) as Hok0 by (by destruct Hok).
  destruct (rdtech_um_receive_data_unlimited (ev_revents e) w0 Hok0 Hls Hlm)
    as (w1 & Hrun1 & Hok1 & Hls1 & Hlm1 & Hst1).
  assert (reads (clock w0) < reads (clock w1))%nat as Hck.
  { destruct (received_asm_prefix (ev_revents e) w0 Hok0)
      as (wr & used & Hrecv & _ & Hrest & _).
    unfold rest_of in Hrest.
    injection Hrest as _ Hlsr Hlmr _ _ _ _ _ _ Hckr.
    destruct (sr_sw_limits_check_cases wr) as (r & w2 & Hcheck & _ & _ & Hr).
    destruct Hr as [-> ->]; [congruence..|].
    rewrite (rdtech_um_receive_data_after_check (ev_revents e) w0 wr wr false
               Hrecv Hcheck) in Hrun1.
    change (clock w0) with (clock w). rewrite <- Hckr.
    destruct (poll_period _ <? _).
    - destruct (Z.lt_ge_cases (wr_status (conn (tick_clock wr))) 0)
        as [Hlt|Hge].
      + rewrite rdtech_um_poll_failure in Hrun1 by done.
        injection Hrun1 as <-. cbn. lia.
      + rewrite rdtech_um_poll_success in Hrun1 by done.
        injection Hrun1 as <-. cbn. lia.
    - injection Hrun1 as <-. cbn. lia. }
  rewrite Hrun1.
  destruct (IH w1 Hok1 Hls1 Hlm1) as (w' & Hrun & Hok' & Hst' & Hck').
  { by rewrite Hst1. }
  exists w'. split; [exact Hrun|]. split; [exact Hok'|].
  split; [exact Hst'|].
  change (reads (clock w0)) with (reads (clock w)) in Hck.
  cbn [length]. lia.
Qed.

(** Garbage, a damaged frame and a frame arrive while the port refuses
    every write: the acquisition goes on. *)
Lemma unlimited_acquisition_never_stops_witness :
  exists w',
    session_run
      [IoEvent [1; 2; 3] G_IO_IN; IoEvent um24c_bad_frame G_IO_IN;
       IoEvent [] 0; IoEvent um24c_frame G_IO_IN]
      (upd_conn (set_wr_status (-1)) (um24c_world None 0 200000))
    = Ok (tt, w')
    /\ stops w' = 0%nat
    /\ dispatches (log w') = 1%nat.
Proof.
  destruct (unlimited_acquisition_never_stops
              [IoEvent [1; 2; 3] G_IO_IN; IoEvent um24c_bad_frame G_IO_IN;
               IoEvent [] 0; IoEvent um24c_frame G_IO_IN]
              (upd_conn (set_wr_status (-1)) (um24c_world None 0 200000)))
    as (w' & Hrun & _ & Hst & _);
    [split; vm_compute; (reflexivity || by split)
    |reflexivity|reflexivity|reflexivity|].
  exists w'. split; [exact Hrun|]. split; [exact Hst|].
  vm_compute in Hrun. injection Hrun as <-. reflexivity.
Defined.

(** ** The probe *)

(** The response of the probe: the first [poll_len] bytes of the queue. *)
Lemma probe_response_length (w : world) :
  RDTECH_UM24C_POLL_LEN <= Z.of_nat (length (rx (conn w))) ->
  Z.of_nat (length (take (Z.to_nat RDTECH_UM24C_POLL_LEN) (rx (conn w))))
  = RDTECH_UM24C_POLL_LEN.
Proof.
  intros Hlen. rewrite length_take. unfold RDTECH_UM24C_POLL_LEN in *. lia.
Qed.

(** X12: what [rdtech_um_probe] answers.  When the write of the request
    fails, the probe gives up at once: it returns [NULL] and reads nothing.
    When the write does not fail and a response of the frame length
    arrives, the probe takes exactly these 130 bytes from the port and
    returns the profile if and only if they are a well-formed frame of the
    UM24C (the start marker in front, the end marker behind); otherwise it
    returns [NULL].  A write that reports zero bytes written counts as
    not failed: the probe waits for a response to a request that was not
    sent. *)
Theorem probe_accepts_exactly_frames (w : world) :
  (wr_status (conn w) < 0 ->
   exists w',
     rdtech_um_probe w = Ok (None, w')
     /\ conn w' = conn w /\ priv w' = priv w /\ session w' = session w)
  /\ (0 <= wr_status (conn w) ->
      RDTECH_UM24C_POLL_LEN <= Z.of_nat (length (rx (conn w))) ->
      exists r w',
        rdtech_um_probe w = Ok (r, w')
        /\ r = (if is_frame rdtech_um24c_profile
                     (take (Z.to_nat RDTECH_UM24C_POLL_LEN) (rx (conn w)))
                then Some rdtech_um24c_profile else None)
        /\ rx (conn w') = drop (Z.to_nat RDTECH_UM24C_POLL_LEN) (rx (conn w))
        /\ tx (conn w')
           = tx (conn w) ++ (if wr_status (conn w) =? 0 then [] else request)
        /\ priv w' = priv w /\ session w' = session w).
Proof.
  destruct (rdtech_um_probe_answers w) as [Hfail Hread]. split.
  - intros Hwr. rewrite (Hfail Hwr). eexists. split; [reflexivity|].
    by conj_split.
  - intros Hwr Hlen. rewrite (Hread Hwr Hlen). cbn zeta.
    unfold is_frame. rewrite (probe_response_length w Hlen).
    change (poll_len rdtech_um24c_profile) with RDTECH_UM24C_POLL_LEN.
    rewrite Z.eqb_refl. cbn [andb].
    pose proof (sent_tx w Hwr) as Htx.
    destruct (header_at _ _ 0); cbn [negb andb].
    + destruct (end_matches _ _); cbn [negb];
        (do 2 eexists; split; [reflexivity|]; by conj_split).
    + do 2 eexists. split; [reflexivity|]. by conj_split.
Qed.

(** A frame with a byte after it answers the probe; a damaged frame does
    not. *)
Lemma probe_accepts_exactly_frames_witness :
  (exists w',
     rdtech_um_probe
       (upd_conn (set_rx (um24c_frame ++ [0x09])) (um24c_world None 0 0))
     = Ok (Some rdtech_um24c_profile, w')
     /\ rx (conn w') = [0x09] /\ tx (conn w') = [0xf0])
  /\ exists w',
       rdtech_um_probe
         (upd_conn (set_rx um24c_bad_frame) (um24c_world None 0 0))
       = Ok (None, w').
Proof.
  split.
  - destruct (probe_accepts_exactly_frames
                (upd_conn (set_rx (um24c_frame ++ [0x09]))
                   (um24c_world None 0 0))) as [_ H].
    destruct H as (r & w' & Hrun & -> & Hrx & Htx & _);
      [vm_compute; discriminate..|].
    exists w'. split; [exact Hrun|]. split; [exact Hrx|exact Htx].
  - destruct (probe_accepts_exactly_frames
                (upd_conn (set_rx um24c_bad_frame) (um24c_world None 0 0)))
      as [_ H].
    destruct H as (r & w' & Hrun & -> & _); [vm_compute; discriminate..|].
    exists w'. exact Hrun.
Defined.

(** X13: the probe and the receive path agree on the frames of the UM24C.
    A response that makes [rdtech_um_probe] return the profile is decoded
    when the same bytes reach the receive path of a device instance with
    this profile and an empty buffer: one call of [handle_poll_data], one
    packet for each channel, one sample counted, and the buffer is empty
    again. *)
Theorem probe_response_is_decoded (w w' wd : world)
    (p : rdtech_um_profile) :
  rdtech_um_probe w = Ok (Some p, w') ->
  world_ok wd -> profile (priv wd) = p ->
  buflen (priv wd) = 0 -> rx (conn wd) = [] ->
  exists wd' pk lg,
    feed_bytes (take (Z.to_nat (poll_len p)) (rx (conn w))) wd
    = Ok (tt, wd')
    /\ session wd' = session wd ++ pk
    /\ length pk = length (sdi_channels wd)
    /\ log wd' = log wd ++ Spew_poll_packet (poll_len p) :: lg
    /\ dispatches (log wd') = S (dispatches (log wd))
    /\ samples_read (limits (priv wd'))
       = samples_read (limits (priv wd)) + 1
    /\ buflen (priv wd') = 0.
Proof.
  intros Hprobe Hok Hp Hempty Hrx.
  destruct (rdtech_um_probe_answers w) as [Hfail Hread].
  destruct (Z.lt_ge_cases (wr_status (conn w)) 0) as [Hlt|Hge].
  { rewrite (Hfail Hlt) in Hprobe. discriminate. }
  destruct (Z.lt_ge_cases (Z.of_nat (length (rx (conn w))))
              RDTECH_UM24C_POLL_LEN) as [Hshort|Hlen].
  { unfold rdtech_um_probe in Hprobe.
    rewrite probe_profile_short_read in Hprobe; [discriminate|done|done|done]. }
  rewrite (Hread Hge Hlen) in Hprobe. cbn zeta in Hprobe.
  set (resp := take (Z.to_nat RDTECH_UM24C_POLL_LEN) (rx (conn w))) in *.
  destruct (header_at rdtech_um24c_profile resp 0) eqn:Hhd;
    [|discriminate].
  destruct (end_matches rdtech_um24c_profile resp) eqn:Hend;
    [|discriminate].
  cbn [negb] in Hprobe. injection Hprobe as <- _.
  change (take (Z.to_nat (poll_len rdtech_um24c_profile)) (rx (conn w)))
    with resp.
  assert (is_frame rdtech_um24c_profile resp = true) as Hf.
  { unfold is_frame. rewrite Hhd, Hend. subst resp.
    rewrite (probe_response_length w Hlen). reflexivity. }
  destruct (is_frame_parts _ _ Hf) as (Hflen & _ & _).
  rewrite <- Hp in Hflen.
  destruct (world_ok_decode_frame wd resp Hok Hflen) as (pk & lg & Hdec).
  destruct (feed_bytes_asm_bytes resp wd Hok Hrx)
    as (wd' & Hrun & Hok' & _ & _ & Hview).
  rewrite Hp in Hview, Hdec.
  rewrite (world_ok_empty_view wd) in Hview by done.
  rewrite (asm_bytes_frame rdtech_um24c_profile _ resp _ pk lg) in Hview
    by done.
  cbn [v_log v_session v_samples] in Hview.
  unfold view_of in Hview. injection Hview as Hc Hl Hs Hsm.
  destruct (decode_channels_counts _ _ _ _ _ _ Hdec) as (Hpk & Hd & _).
  exists wd', pk, lg. split; [exact Hrun|].
  conj_split; try done.
  - rewrite Hl, dispatches_app. cbn [dispatches]. rewrite Hd. lia.
  - pose proof (asm_inv_content_length _ wd' (world_ok_asm_inv wd' Hok'))
      as Hcl.
    rewrite Hc in Hcl. cbn in Hcl. lia.
Qed.

(** The frame that answers the probe is decoded into six packets. *)
Lemma probe_response_is_decoded_witness :
  exists wd',
    feed_bytes um24c_frame (um24c_world None 0 0) = Ok (tt, wd')
    /\ length (session wd') = 6%nat
    /\ samples_read (limits (priv wd')) = 1.
Proof.
  destruct (probe_response_is_decoded
              (upd_conn (set_rx um24c_frame) (um24c_world None 0 0))
              (probed rdtech_um24c_profile
                 (upd_conn (set_rx um24c_frame) (um24c_world None 0 0)))
              (um24c_world None 0 0) rdtech_um24c_profile)
    as (wd' & pk & lg & Hrun & Hs & Hpk & _ & _ & Hn & _);
    [vm_compute; reflexivity
    |split; vm_compute; (reflexivity || by split)
    |reflexivity|reflexivity|reflexivity|].
  exists wd'. split; [exact Hrun|].
  split; [rewrite Hs, length_app, Hpk; reflexivity|exact Hn].
Defined.

(** ** Streams of frames *)

Lemma asm_bytes_frames (p : rdtech_um_profile) (chs : list sr_channel)
    (fs : list (list Z)) (v : asm_view) :
  v_content v = [] -> 0 < poll_len p ->
  Forall (fun f => is_frame p f = true) fs ->
  (forall f, Z.of_nat (length f) = poll_len p ->
     exists pk lg, decode_channels f (channels p) 0 chs = Ok (pk, lg)) ->
  v_content (asm_bytes p chs v (concat fs)) = []
  /\ v_session (asm_bytes p chs v (concat fs))
     = v_session v ++ concat (frame_packets p chs <$> fs)
  /\ v_samples (asm_bytes p chs v (concat fs))
     = v_samples v + Z.of_nat (length fs)
  /\ dispatches (v_log (asm_bytes p chs v (concat fs)))
     = (dispatches (v_log v) + length fs)%nat
  /\ skipped (v_log (asm_bytes p chs v (concat fs))) = skipped (v_log v).
Proof.
  intros Hc Hpos Hfs Hdec. revert v Hc.
  induction Hfs as [|f fs Hf Hfs IH]; intros v Hc.
  { cbn. rewrite app_nil_r. conj_split; (done || lia). }
  cbn [concat fmap list_fmap length]. rewrite asm_bytes_app.
  destruct (is_frame_parts p f Hf) as (Hlen & _ & _).
  destruct (Hdec f Hlen) as (pk & lg & Hd).
  rewrite (asm_bytes_frame p chs f v pk lg) by done.
  destruct (IH (AsmView [] (v_log v ++ Spew_poll_packet (poll_len p) :: lg)
                  (v_session v ++ pk) (v_samples v + 1)) eq_refl)
    as (-> & -> & -> & -> & ->).
  cbn [v_session v_samples v_log].
  destruct (decode_channels_counts _ _ _ _ _ _ Hd) as (_ & Hd0 & Hs0).
  unfold frame_packets at 2. rewrite Hd.
  rewrite dispatches_app, skipped_app. cbn [dispatches skipped].
  rewrite Hd0, Hs0, app_nil_r, <- app_assoc.
  conj_split; (done || lia).
Qed.

(** X14: frames that arrive back to back are all decoded, in the order of
    their arrival and each from its own bytes.  From an empty buffer, a
    stream that is a sequence of well-formed frames makes the driver call
    [handle_poll_data] once for each frame; the packets sent are those of
    the first frame, then those of the second, and so on; no byte is
    skipped and the buffer is empty at the end. *)
Theorem back_to_back_frames_all_decoded (fs : list (list Z)) (w : world) :
  world_ok w -> rx (conn w) = [] -> buflen (priv w) = 0 ->
  Forall (fun f => is_frame (profile (priv w)) f = true) fs ->
  exists w',
    feed_bytes (concat fs) w = Ok (tt, w')
    /\ session w'
       = session w
         ++ concat (frame_packets (profile (priv w)) (sdi_channels w) <$> fs)
    /\ samples_read (limits (priv w'))
       = samples_read (limits (priv w)) + Z.of_nat (length fs)
    /\ dispatches (log w') = (dispatches (log w) + length fs)%nat
    /\ skipped (log w') = skipped (log w)
    /\ buflen (priv w') = 0.
Proof.
  intros Hok Hrx Hempty Hfs.
  destruct (feed_bytes_asm_bytes (concat fs) w Hok Hrx)
    as (w' & Hrun & Hok' & _ & _ & Hview).
  pose proof (ok_buflen w Hok) as Hn.
  rewrite (world_ok_empty_view w) in Hview by done.
  destruct (asm_bytes_frames (profile (priv w)) (sdi_channels w) fs
              (AsmView [] (log w) (session w)
                 (samples_read (limits (priv w)))) eq_refl)
    as (Hc & Hs & Hsm & Hd & Hsk); [lia|done| |].
  { intros f Hlen. by apply world_ok_decode_frame. }
  rewrite <- Hview in Hc, Hs, Hsm, Hd, Hsk.
  exists w'. split; [exact Hrun|]. conj_split; try done.
  pose proof (asm_inv_content_length _ w' (world_ok_asm_inv w' Hok')) as Hcl.
  change (content w') with (v_content (view_of w')) in Hcl.
  rewrite Hc in Hcl. cbn in Hcl. lia.
Qed.

(** Three frames in a row give eighteen packets. *)
Lemma back_to_back_frames_all_decoded_witness :
  exists w',
    feed_bytes (um24c_frame ++ um24c_frame ++ um24c_frame)
      (um24c_world None 0 0) = Ok (tt, w')
    /\ length (session w') = 18%nat
    /\ dispatches (log w') = 3%nat.
Proof.
  destruct (back_to_back_frames_all_decoded
              [um24c_frame; um24c_frame; um24c_frame] (um24c_world None 0 0))
    as (w' & Hrun & Hs & _ & Hd & _);
    [split; vm_compute; (reflexivity || by split)|reflexivity|reflexivity
    |repeat constructor|].
  exists w'. split; [rewrite <- Hrun; reflexivity|].
  split; [rewrite Hs; vm_compute; reflexivity|exact Hd].
Defined.

(** ** The account of the bytes *)

Lemma discards_app (l1 l2 : list log_entry) :
  discards (l1 ++ l2) = (discards l1 + discards l2)%nat.
Proof.
  induction l1 as [|e l1 IH]; [reflexivity|].
  destruct e; cbn [app discards]; rewrite IH; reflexivity.
Qed.

Lemma decode_channels_discards (data : list Z)
    (table : list rdtech_um_channel) (chs : list sr_channel) (i : nat)
    (pk : list sr_datafeed_analog) (lg : list log_entry) :
  decode_channels data table i chs = Ok (pk, lg) -> discards lg = 0%nat.
Proof.
  revert i pk lg. induction chs as [|ch chs IH]; intros i pk lg Hdec.
  - cbn in Hdec. by injection Hdec as <- <-.
  - cbn [decode_channels] in Hdec.
    destruct (table !! i) as [m|]; [|done].
    destruct (sample_of data m) as [v|]; [|done]. cbn [res_bind] in Hdec.
    destruct (decode_channels data table (S i) chs) as [[pk' lg']|] eqn:Hr;
      [|done].
    cbn [res_bind fst snd] in Hdec. injection Hdec as <- <-.
    rewrite discards_app, (IH _ _ _ Hr).
    unfold sample_log. by destruct (supported_type _).
Qed.

(** The bytes a view accounts for: those in the buffer, those the header
    check has skipped, and those of the full buffers that were dispatched
    or discarded. *)
Lemma asm_byte_account (p : rdtech_um_profile) (chs : list sr_channel)
    (v : asm_view) (b : Z) :
  0 < poll_len p ->
  (forall f, Z.of_nat (length f) = poll_len p ->
     exists pk lg, decode_channels f (channels p) 0 chs = Ok (pk, lg)) ->
  Z.of_nat (length (v_content v)) < poll_len p ->
  let v' := asm_byte p chs v b in
  Z.of_nat (length (v_content v')) < poll_len p
  /\ Z.of_nat (length (v_content v')) + Z.of_nat (length (skipped (v_log v')))
     + poll_len p * Z.of_nat (dispatches (v_log v') + discards (v_log v'))
     = Z.of_nat (length (v_content v)) + 1
       + Z.of_nat (length (skipped (v_log v)))
       + poll_len p * Z.of_nat (dispatches (v_log v) + discards (v_log v)).
Proof.
  intros Hpos Hdec Hlt. destruct v as [c lg ses n].
  cbn [v_content v_log] in *. cbn zeta.
  unfold asm_byte, asm_push. cbn [v_content v_log v_session v_samples].
  destruct (illegal_header p (c ++ [b])) eqn:Hill.
  - cbn [v_content v_log].
    assert (length (tail (c ++ [b])) = length c) as Htl.
    { destruct c; cbn; [reflexivity|]. rewrite length_app. cbn. lia. }
    rewrite Htl, (proj2 (Z.ltb_lt _ _) Hlt). cbn [v_content v_log].
    rewrite Htl, skipped_app, dispatches_app, discards_app, length_app.
    cbn. split; [done|]. lia.
  - cbn [v_content v_log].
    rewrite length_app. cbn [length].
    destruct (Z.of_nat (length c + 1) <? poll_len p) eqn:Hfull.
    { cbn [v_content v_log]. rewrite length_app. cbn [length].
      apply Z.ltb_lt in Hfull. split; [done|]. lia. }
    apply Z.ltb_ge in Hfull.
    assert (Z.of_nat (length (c ++ [b])) = poll_len p) as Hlen.
    { rewrite length_app. cbn [length]. lia. }
    unfold asm_complete. cbn [v_content v_log v_session v_samples].
    destruct (end_matches p (c ++ [b])).
    + destruct (Hdec _ Hlen) as (pk & lg' & Hd). rewrite Hd.
      cbn [v_content v_log length].
      rewrite skipped_app, dispatches_app, discards_app, length_app.
      cbn [skipped dispatches discards].
      destruct (decode_channels_counts _ _ _ _ _ _ Hd) as (_ & -> & ->).
      rewrite (decode_channels_discards _ _ _ _ _ _ Hd).
      cbn [length]. split; [lia|]. nia.
    + cbn [v_content v_log length].
      rewrite skipped_app, dispatches_app, discards_app, length_app.
      cbn [skipped dispatches discards length]. split; [lia|]. nia.
Qed.

Lemma asm_bytes_account (p : rdtech_um_profile) (chs : list sr_channel)
    (bs : list Z) (v : asm_view) :
  0 < poll_len p ->
  (forall f, Z.of_nat (length f) = poll_len p ->
     exists pk lg, decode_channels f (channels p) 0 chs = Ok (pk, lg)) ->
  Z.of_nat (length (v_content v)) < poll_len p ->
  let v' := asm_bytes p chs v bs in
  Z.of_nat (length (v_content v')) + Z.of_nat (length (skipped (v_log v')))
  + poll_len p * Z.of_nat (dispatches (v_log v') + discards (v_log v'))
  = Z.of_nat (length (v_content v)) + Z.of_nat (length bs)
    + Z.of_nat (length (skipped (v_log v)))
    + poll_len p * Z.of_nat (dispatches (v_log v) + discards (v_log v)).
Proof.
  intros Hpos Hdec. revert v. induction bs as [|b bs IH]; intros v Hlt.
  { cbn. lia. }
  cbn zeta. rewrite asm_bytes_cons.
  destruct (asm_byte_account p chs v b Hpos Hdec Hlt) as [Hlt' Hacc].
  cbn zeta in IH, Hacc. rewrite (IH _ Hlt'). cbn [length]. lia.
Qed.

(** X15: no byte is lost in the receive path.  The bytes a call of
    [recv_poll_data] takes from the port are all accounted for: each one
    is still in the buffer, or was skipped by the header check (and logged
    as such), or belonged to a full buffer that was dispatched to the
    decoder or discarded for its end marker.  So the sum of the fill
    length, the number of skipped bytes and the frame length times the
    number of dispatched and discarded buffers grows by exactly the number
    of bytes taken. *)
Theorem received_bytes_are_accounted_for (w : world) :
  world_ok w ->
  exists w' used,
    recv_poll_data w = Ok (tt, w')
    /\ rx (conn w) = used ++ rx (conn w')
    /\ buflen (priv w') + Z.of_nat (length (skipped (log w')))
       + poll_len (profile (priv w))
         * Z.of_nat (dispatches (log w') + discards (log w'))
       = buflen (priv w) + Z.of_nat (length used)
         + Z.of_nat (length (skipped (log w)))
         + poll_len (profile (priv w))
           * Z.of_nat (dispatches (log w) + discards (log w)).
Proof.
  intros Hok.
  destruct (recv_poll_data_asm_prefix w Hok)
    as (w' & used & Hrun & Hok' & Hrest & Hused & _ & Hview & _).
  exists w', used. split; [exact Hrun|]. split; [exact Hused|].
  pose proof (ok_buflen w Hok) as Hn.
  pose proof (asm_inv_content_length _ w (world_ok_asm_inv w Hok)) as Hcl.
  pose proof (asm_inv_content_length _ w' (world_ok_asm_inv w' Hok'))
    as Hcl'.
  pose proof (asm_bytes_account (profile (priv w)) (sdi_channels w) used
                (view_of w)) as Hacc.
  cbn zeta in Hacc. rewrite <- Hview in Hacc.
  cbn [view_of v_content v_log] in Hacc.
  rewrite <- Hcl, <- Hcl'. apply Hacc; [lia| |lia].
  intros f Hlen. by apply world_ok_decode_frame.
Qed.

(** Three bytes of garbage and a damaged frame are in the queue: the
    bytes the call takes are the skipped ones, those of the discarded
    buffer and those it leaves in the buffer. *)
Lemma received_bytes_are_accounted_for_witness :
  exists w' used,
    recv_poll_data
      (upd_conn (set_rx ([1; 2; 3] ++ um24c_bad_frame))
         (um24c_world None 0 0)) = Ok (tt, w')
    /\ [1; 2; 3] ++ um24c_bad_frame = used ++ rx (conn w')
    /\ buflen (priv w') + Z.of_nat (length (skipped (log w')))
       + 130 * Z.of_nat (dispatches (log w') + discards (log w'))
       = Z.of_nat (length used).
Proof.
  destruct (received_bytes_are_accounted_for
              (upd_conn (set_rx ([1; 2; 3] ++ um24c_bad_frame))
                 (um24c_world None 0 0)))
    as (w' & used & Hrun & Hused & Hacc);
    [split; vm_compute; (reflexivity || by split)|].
  exists w', used. split; [exact Hrun|]. split; [exact Hused|].
  transitivity (0 + Z.of_nat (length used) + 0 + 130 * 0);
    [exact Hacc|lia].
Defined.

(** ** The size of the buffer *)

(** With a frame length above the size of the buffer the receive loop
    does not stop at the end of the array. *)
Lemma recv_poll_loop_overflow (p : rdtech_um_profile) (pending : list Z)
    (w : world) :
  RDTECH_UM_BUFSIZE < poll_len p ->
  poll_start p = None \/ poll_start_len p <= buflen (priv w) ->
  Z.of_nat (length (buf (priv w))) = RDTECH_UM_BUFSIZE ->
  0 <= buflen (priv w) <= RDTECH_UM_BUFSIZE ->
  RDTECH_UM_BUFSIZE - buflen (priv w) < Z.of_nat (length pending) ->
  recv_poll_loop p pending w = Undef OutOfBounds.
Proof.
  intros Hbig. revert w.
  induction pending as [|b pending IH]; intros w Hst Hbuf Hn Hlen.
  { cbn [length] in Hlen. lia. }
  cbn [recv_poll_loop]. munfold.
  rewrite (proj2 (Z.ltb_lt (buflen (priv w)) (poll_len p))) by lia.
  cbn [upd_conn priv]. unfold store8.
  destruct (Z.eq_dec (buflen (priv w)) RDTECH_UM_BUFSIZE) as [Hfull|Hroom].
  { rewrite (proj2 (Z.ltb_ge _ _)) by lia. by rewrite andb_false_r. }
  rewrite (proj2 (Z.leb_le 0 _)), (proj2 (Z.ltb_lt _ _)) by lia.
  cbn [andb upd_priv priv set_buf set_buflen buflen buf profile].
  assert (recv_poll_loop p pending
            (upd_priv
               (fun d => set_buflen (buflen (priv w) + 1)
                           (set_buf (<[Z.to_nat (buflen (priv w)):=b]>
                                       (buf (priv w))) d))
               (upd_conn (set_rx pending) w)) = Undef OutOfBounds) as Hrec.
  { apply IH; cbn [upd_priv upd_conn priv buflen buf set_buflen set_buf].
    - destruct Hst as [Hnone|Hge]; [by left|right; lia].
    - by rewrite length_insert.
    - lia.
    - cbn [length] in Hlen. lia. }
  destruct (poll_start p) as [st|] eqn:Hps.
  - destruct Hst as [?|Hge]; [discriminate|].
    rewrite (proj2 (Z.eqb_neq (buflen (priv w) + 1) (poll_start_len p)))
      by lia.
    exact Hrec.
  - exact Hrec.
Qed.

(** X16: the receive loop bounds the fill length by the frame length of
    the profile only, not by the size of the buffer.  With a profile whose
    frame length is above [RDTECH_UM_BUFSIZE], and once the buffer is past
    the header check, a queue that holds more bytes than the array has
    room for takes [recv_poll_data] past the end of the array. *)
Theorem oversized_frame_overflows_buffer (w : world) :
  RDTECH_UM_BUFSIZE < poll_len (profile (priv w)) ->
  poll_start (profile (priv w)) = None
  \/ poll_start_len (profile (priv w)) <= buflen (priv w) ->
  Z.of_nat (length (buf (priv w))) = RDTECH_UM_BUFSIZE ->
  0 <= buflen (priv w) <= RDTECH_UM_BUFSIZE ->
  RDTECH_UM_BUFSIZE - buflen (priv w) < Z.of_nat (length (rx (conn w))) ->
  recv_poll_data w = Undef OutOfBounds.
Proof.
  intros Hbig Hst Hbuf Hn Hlen. unfold recv_poll_data. munfold.
  by rewrite recv_poll_loop_overflow.
Qed.

(** The buffer holds the start marker of a frame of 300 bytes, and 255
    more bytes are in the queue. *)
Lemma oversized_frame_overflows_buffer_witness :
  recv_poll_data
    (upd_conn (set_rx (replicate 255 0))
       (upd_priv (set_profile um24c_long_profile)
          (um24c_holding [0x09; 0x63])))
  = Undef OutOfBounds.
Proof.
  apply oversized_frame_overflows_buffer.
  - vm_compute. reflexivity.
  - right. vm_compute. discriminate.
  - vm_compute. reflexivity.
  - split; vm_compute; discriminate.
  - vm_compute. reflexivity.
Defined.

(** ** The packets of the session *)




